(** * E-consultation sentiment pipeline: sentiment scoring, keyword
    extraction, extractive summaries and aggregation

    A shallow embedding of [sentiment_analyzer.py], [text_summarizer.py] and
    [wordcloud_generator.py].

    Modelling conventions.
    - A Python [str] is a [string] whose characters are the code points
      below 256.
    - A Python [float] is the exact rational it denotes ([Q]); a float
      literal is the rational value of the binary64 number it is read as, so
      comparisons against [0.1] are the comparisons the interpreter makes.
      [nan] is [None] where the code can produce it.  Sums, quotients and
      [round] are computed exactly on the rationals: the binary rounding
      error of float arithmetic is outside the model, and the statement
      on the reported mean polarity bounds it instead of fixing its last
      place.
    - A table is the names of its columns and its rows.  A row carries the
      fields the code reads.  [create_stakeholder_summary] reads cells and
      columns by name and raises [KeyError] on a missing one.  The loop of
      [analyze_comments_batch] reads the fields of a comment row directly:
      its comment table is taken to have the four columns the application
      checks before it calls the analyzer (streamlit_app.py, lines 374-379),
      and a theorem that promises a report names them as hypotheses.
    - A [dict] whose order is observable ([Counter.most_common], [sorted]
      over [items()]) is an association list in insertion order; a [dict]
      that is only read by key is a [gmap].
    - An exception is a value of [exn]; code that can raise returns a
      [result].
    - A parameter that is a number of items ([num_keywords], [max_length])
      is a natural number. *)

From Stdlib Require Import ZArith QArith Qround String Ascii List Lia Lqa.
From Stdlib Require Import Sorted Permutation.
From stdpp Require Import gmap strings list.

Open Scope string_scope.

(** ** Python prelude *)

Module Py.

(** Exceptions the modelled code can raise.  [Exception name] stands for an
    exception class raised by code outside the two modules. *)
Inductive exn : Type :=
| KeyError (key : string)
| ZeroDivisionError
| IndexError
| Exception (name : string).

Inductive result (A : Type) : Type :=
| Ok (a : A)
| Raise (e : exn).

Arguments Ok {A} a.
Arguments Raise {A} e.

Definition bind {A B : Type} (r : result A) (k : A -> result B) : result B :=
  match r with
  | Ok a => k a
  | Raise e => Raise e
  end.

(** [for x in l: ys.append(f x)], stopping at the first exception. *)
Fixpoint for_each {A B : Type} (f : A -> result B) (l : list A) : result (list B) :=
  match l with
  | [] => Ok []
  | x :: l' =>
      bind (f x) (fun y => bind (for_each f l') (fun ys => Ok (y :: ys)))
  end.

(** *** Characters and strings *)

Definition code (c : ascii) : N := N_of_ascii c.

(** [str.isspace] on the code points below 256; the class [\s] of [re] on a
    [str] pattern is the same set. *)
Definition isspace (c : ascii) : bool :=
  let n := code c in
  ((9 <=? n) && (n <=? 13) || (28 <=? n) && (n <=? 32)
   || (n =? 133) || (n =? 160))%N.

Definition is_upper (c : ascii) : bool :=
  let n := code c in ((65 <=? n) && (n <=? 90))%N.

Definition is_lower (c : ascii) : bool :=
  let n := code c in ((97 <=? n) && (n <=? 122))%N.

(** The class [a-zA-Z]. *)
Definition is_letter (c : ascii) : bool := is_upper c || is_lower c.

(** [str.lower] on one code point below 256. *)
Definition lower_char (c : ascii) : ascii :=
  let n := code c in
  if is_upper c then ascii_of_N (n + 32)
  else if ((192 <=? n) && (n <=? 222) && negb (n =? 215))%N
       then ascii_of_N (n + 32)
       else c.

Fixpoint lower (s : string) : string :=
  match s with
  | EmptyString => EmptyString
  | String c s' => String (lower_char c) (lower s')
  end.

(** [re.sub(r'[^a-zA-Z\s]', '', s)]. *)
Fixpoint sub_non_alpha (s : string) : string :=
  match s with
  | EmptyString => EmptyString
  | String c s' =>
      if is_letter c || isspace c then String c (sub_non_alpha s')
      else sub_non_alpha s'
  end.

Definition snoc (s : string) (c : ascii) : string := s +:+ String c EmptyString.

(** [s.split()]: maximal runs of non-whitespace characters.  [cur] is the
    word being read. *)
Fixpoint split_from (cur : string) (s : string) : list string :=
  match s with
  | EmptyString => if String.eqb cur "" then [] else [cur]
  | String c s' =>
      if isspace c
      then (if String.eqb cur "" then split_from "" s'
            else cur :: split_from "" s')
      else split_from (snoc cur c) s'
  end.

Definition split (s : string) : list string := split_from "" s.

(** [s.split(sep)] for a one-character separator: the pieces between the
    separators, empty pieces included. *)
Fixpoint split_on_from (sep : ascii) (cur : string) (s : string) : list string :=
  match s with
  | EmptyString => [cur]
  | String c s' =>
      if Ascii.eqb c sep then cur :: split_on_from sep "" s'
      else split_on_from sep (snoc cur c) s'
  end.

Definition split_on (sep : ascii) (s : string) : list string :=
  split_on_from sep "" s.

(** [sep.join(l)]. *)
Fixpoint join (sep : string) (l : list string) : string :=
  match l with
  | [] => ""
  | [w] => w
  | w :: l' => w +:+ sep +:+ join sep l'
  end.

Fixpoint lstrip (s : string) : string :=
  match s with
  | EmptyString => EmptyString
  | String c s' => if isspace c then lstrip s' else s
  end.

Fixpoint rstrip (s : string) : string :=
  match s with
  | EmptyString => EmptyString
  | String c s' =>
      let r := rstrip s' in
      if isspace c && String.eqb r "" then "" else String c r
  end.

(** [s.strip()]. *)
Definition strip (s : string) : string := rstrip (lstrip s).

(** [sub in s] for strings. *)
Fixpoint contains (sub s : string) : bool :=
  String.prefix sub s ||
  match s with
  | EmptyString => false
  | String _ s' => contains sub s'
  end.

(** [len(s)]. *)
Definition len (s : string) : nat := String.length s.

(** [w in l] for a list or set of strings. *)
Definition mem (w : string) (l : list string) : bool :=
  existsb (String.eqb w) l.

(** *** Numbers *)

(** Round to the nearest integer, ties to even. *)
Definition round_half_even (q : Q) : Z :=
  let f := Qfloor q in
  match (q - inject_Z f ?= 1 # 2)%Q with
  | Lt => f
  | Gt => (f + 1)%Z
  | Eq => if Z.even f then f else (f + 1)%Z
  end.

(** [round(q, ndigits)]. *)
Definition round (q : Q) (ndigits : nat) : Q :=
  let p := (10 ^ Z.of_nat ndigits)%Z in
  Qred (Qmake (round_half_even (q * inject_Z p)) (Z.to_pos p)).

(** [round] of a value that may be [nan]. *)
Definition round_nan (x : option Q) (ndigits : nat) : option Q :=
  match x with
  | Some q => Some (round q ndigits)
  | None => None
  end.

Definition Qsum (l : list Q) : Q := fold_right Qplus 0%Q l.

(** [a > b] and [a < b] on floats. *)
Definition gt (a b : Q) : bool :=
  match (a ?= b)%Q with Gt => true | _ => false end.

Definition lt (a b : Q) : bool :=
  match (a ?= b)%Q with Lt => true | _ => false end.

Definition of_nat (n : nat) : Q := inject_Z (Z.of_nat n).

(** [a / b] for a non-zero [b], as the one float it yields. *)
Definition div (a b : Q) : Q := Qred (a / b).

(** The literal [0.1]: the binary64 number nearest to one tenth,
    [3602879701896397 / 2^55]. *)
Definition lit_0_1 : Q := (3602879701896397 # 36028797018963968)%Q.

(** The rationals a binary64 float can hold. *)
Definition dyadic (m e : Z) : Q :=
  if (0 <=? e)%Z then inject_Z (m * 2 ^ e)
  else Qmake m (Z.to_pos (2 ^ (- e))).

Definition is_binary64 (q : Q) : Prop :=
  exists m e : Z,
    (Z.abs m < 2 ^ 53)%Z /\ (-1074 <= e <= 971)%Z /\ (q == dyadic m e)%Q.

(** *** Ordered dictionaries and sorting *)

(** [d.get(k, default)] on an association list. *)
Fixpoint dict_get {V : Type} (d : list (string * V)) (k : string) (default : V) : V :=
  match d with
  | [] => default
  | (k', v) :: d' => if String.eqb k' k then v else dict_get d' k default
  end.

(** [d[k] = v]: replaces the value of an existing key in place, appends a
    new key. *)
Fixpoint dict_set {V : Type} (d : list (string * V)) (k : string) (v : V)
  : list (string * V) :=
  match d with
  | [] => [(k, v)]
  | (k', v') :: d' =>
      if String.eqb k' k then (k', v) :: d' else (k', v') :: dict_set d' k v
  end.

(** [Counter(l)]: each element counted, keys in order of first occurrence. *)
Definition Counter (l : list string) : list (string * nat) :=
  fold_left (fun d w => dict_set d w (S (dict_get d w 0))) l [].

(** [sorted(l, key=..., reverse=True)]: a stable sort, so elements with equal
    keys stay in their original order.  [gt a b] says the key of [a] is
    strictly greater than the key of [b]. *)
Fixpoint insert_desc {A : Type} (gt : A -> A -> bool) (x : A) (l : list A) : list A :=
  match l with
  | [] => [x]
  | y :: l' => if gt y x then y :: insert_desc gt x l' else x :: y :: l'
  end.

Definition sorted_desc {A : Type} (gt : A -> A -> bool) (l : list A) : list A :=
  fold_right (insert_desc gt) [] l.

(** [Counter.most_common(n)] is [heapq.nlargest(n, items, key=count)], which
    is [sorted(items, key=count, reverse=True)[:n]]. *)
Definition most_common (d : list (string * nat)) (n : nat) : list (string * nat) :=
  firstn n (sorted_desc (fun a b => (snd b <? snd a)%nat) d).

End Py.


(** ** The part of pandas the modules use *)

Module Pandas.

Import Py.

(** A table: the names of its columns and its rows.  [R] is the type of a
    row, with one field per column the code reads. *)
Record DataFrame (R : Type) : Type := mkDataFrame {
  columns : list string;
  rows : list R
}.

Arguments mkDataFrame {R} columns rows.
Arguments columns {R} d.
Arguments rows {R} d.

(** [pd.DataFrame(records)] for a list of dicts that all have the keys
    [cols]: the columns are the keys seen, so no record gives no column. *)
Definition of_records {R : Type} (cols : list string) (records : list R) : DataFrame R :=
  match records with
  | [] => mkDataFrame [] []
  | _ :: _ => mkDataFrame cols records
  end.

(** [df[name]]: the column, or [KeyError]. *)
Definition column {R A : Type} (df : DataFrame R) (name : string) (field : R -> A)
  : result (list A) :=
  if mem name (columns df) then Ok (map field (rows df)) else Raise (KeyError name).

(** [row[name]] for a row of a table with the columns [cols]: the cell, or
    [KeyError]. *)
Definition cell {R A : Type} (cols : list string) (row : R) (name : string)
  (field : R -> A) : result A :=
  if mem name cols then Ok (field row) else Raise (KeyError name).

(** [df[mask]]: the rows the mask selects, same columns. *)
Definition select {R : Type} (keep : R -> bool) (df : DataFrame R) : DataFrame R :=
  mkDataFrame (columns df) (List.filter keep (rows df)).

(** [len(df)]. *)
Definition len {R : Type} (df : DataFrame R) : nat := length (rows df).

(** [series.value_counts().to_dict()]: each value that occurs, with the
    number of its occurrences. *)
Definition value_counts (col : list string) : gmap string nat :=
  fold_right (fun k m => <[k := S (default 0%nat (m !! k))]> m) ∅ col.

(** [series.mean()]: [nan] on an empty series, and the exact mean of the
    values otherwise (pandas returns the binary64 number its float sum and
    quotient give). *)
Definition mean (col : list Q) : option Q :=
  match col with
  | [] => None
  | _ :: _ => Some (div (Qsum col) (of_nat (length col)))
  end.

(** [series.unique()]: the distinct values in order of first appearance. *)
Fixpoint unique (col : list string) : list string :=
  match col with
  | [] => []
  | x :: col' => x :: List.filter (fun y => negb (String.eqb y x)) (unique col')
  end.

(** [len(df[df[name] == value])] for a string column. *)
Definition count_eq {R : Type} (df : DataFrame R) (name : string)
  (field : R -> string) (value : string) : result nat :=
  bind (column df name field) (fun col =>
  Ok (length (List.filter (fun x => String.eqb x value) col))).

(** [sum(d.values())]. *)
Definition total (d : gmap string nat) : nat :=
  map_fold (fun _ v acc => (v + acc)%nat) 0%nat d.

End Pandas.

(** ** sentiment_analyzer.py *)

Module SentimentAnalyzer.

Import Py Pandas.

(** [self.stop_words]. *)
Definition stop_words : list string :=
  ["the"; "is"; "at"; "which"; "on"; "and"; "a"; "an"; "in";
   "to"; "for"; "of"; "with"; "as"; "by"; "that"; "this";
   "it"; "from"; "or"; "but"; "are"; "was"; "were"; "be";
   "have"; "has"; "had"; "do"; "does"; "did"; "will"; "would";
   "could"; "should"; "may"; "might"; "must"; "can"; "shall"].

(** A row of the input table. *)
Record CommentRow : Type := mkCommentRow {
  comment_id : Z;
  stakeholder_name : string;
  comment_text : string;
  provision_reference : string
}.

(** The dict [analyze_sentiment] returns. *)
Module Analysis.
Record t : Type := mk {
  polarity : Q;
  subjectivity : Q;
  sentiment : string
}.
End Analysis.

(** A row of the results table: the four columns copied from the comment,
    kept together as [comment], and the three computed ones. *)
Record SentimentRow : Type := mkSentimentRow {
  comment : CommentRow;
  sentiment : string;
  polarity_score : Q;
  subjectivity_score : Q
}.

Definition result_columns : list string :=
  ["comment_id"; "stakeholder_name"; "comment_text"; "provision_reference";
   "sentiment"; "polarity_score"; "subjectivity_score"].

(** The dict [get_overall_sentiment] returns. *)
Record OverallStats : Type := mkOverallStats {
  overall_sentiment : string;
  average_polarity : option Q;
  sentiment_distribution : gmap string nat;
  total_comments : nat;
  positive_percentage : Q;
  negative_percentage : Q;
  neutral_percentage : Q
}.

(** An entry of the dict [get_provision_wise_sentiment] returns. *)
Record ProvisionStats : Type := mkProvisionStats {
  count : nat;
  avg_polarity : option Q;
  sentiments : gmap string nat
}.

(** An entry of [by_stakeholder]. *)
Record StakeholderStats : Type := mkStakeholderStats {
  positive : nat;
  negative : nat;
  neutral : nat;
  total : nat
}.

(** The dict [analyze] returns. *)
Record Report : Type := mkReport {
  summary : gmap string nat;
  detailed : DataFrame SentimentRow;
  by_provision : list (string * ProvisionStats);
  by_stakeholder : list (string * StakeholderStats);
  overall_stats : OverallStats
}.

(** The classification of a polarity, lines 38-43 (and 79-84 for the
    average). *)
Definition classify (polarity : Q) : string :=
  if gt polarity lit_0_1 then "Positive"
  else if lt polarity (- lit_0_1) then "Negative"
  else "Neutral".

(** [count / len(df) * 100], rounded to one decimal; quotient, product and
    rounding are exact. *)
Definition percentage (count n : nat) : result Q :=
  match n with
  | O => Raise ZeroDivisionError
  | S _ => Ok (round (div (of_nat count) (of_nat n) * 100) 1)
  end.

(** The words [extract_keywords] counts (lines 101-107). *)
Definition keywords (text : string) : list string :=
  let text := sub_non_alpha (lower text) in
  let words := split text in
  List.filter (fun word => negb (mem word stop_words) && (3 <? Py.len word)%nat) words.

(** [extract_keywords(text, num_keywords)]. *)
Definition extract_keywords (text : string) (num_keywords : nat) : list (string * nat) :=
  let word_freq := Counter (keywords text) in
  most_common word_freq num_keywords.

(** [get_overall_sentiment(sentiments_df)].  Every comparison with [nan] is
    false, so a [nan] average is labelled Neutral. *)
Definition get_overall_sentiment (sentiments_df : DataFrame SentimentRow)
  : result OverallStats :=
  bind (column sentiments_df "sentiment" sentiment) (fun labels =>
  let sentiment_counts := value_counts labels in
  bind (column sentiments_df "polarity_score" polarity_score) (fun scores =>
  let avg_polarity := mean scores in
  let overall_sentiment :=
    match avg_polarity with
    | Some a => classify a
    | None => "Neutral"
    end in
  let n := Pandas.len sentiments_df in
  bind (percentage (default 0%nat (sentiment_counts !! "Positive")) n) (fun pos =>
  bind (percentage (default 0%nat (sentiment_counts !! "Negative")) n) (fun neg =>
  bind (percentage (default 0%nat (sentiment_counts !! "Neutral")) n) (fun neu =>
  Ok (mkOverallStats overall_sentiment (round_nan avg_polarity 3)
        sentiment_counts n pos neg neu)))))).

(** [get_provision_wise_sentiment(sentiments_df)]. *)
Definition get_provision_wise_sentiment (sentiments_df : DataFrame SentimentRow)
  : result (list (string * ProvisionStats)) :=
  bind (column sentiments_df "provision_reference"
          (fun r => provision_reference (comment r))) (fun provisions =>
  for_each (fun provision =>
    let provision_data :=
      select (fun r => String.eqb (provision_reference (comment r)) provision)
        sentiments_df in
    bind (column provision_data "polarity_score" polarity_score) (fun scores =>
    bind (column provision_data "sentiment" sentiment) (fun labels =>
    Ok (provision,
        mkProvisionStats (Pandas.len provision_data)
          (round_nan (mean scores) 3) (value_counts labels)))))
    (unique provisions)).

(** The loop of lines 157-159: the keys of the distribution, lowercased. *)
Definition lowercase_keys (distribution : gmap string nat) : gmap string nat :=
  fold_left (fun acc kv => <[lower (fst kv) := snd kv]> acc)
    (map_to_list distribution) ∅.

Section Analyzer.

(** [TextBlob(text).sentiment]: the polarity and the subjectivity of a text,
    or the exception the library raises. *)
Variable textblob_sentiment : string -> result (Q * Q).

(** [analyze_sentiment(text)]. *)
Definition analyze_sentiment (text : string) : result Analysis.t :=
  bind (textblob_sentiment text) (fun blob =>
  let polarity := fst blob in
  Ok (Analysis.mk polarity (snd blob) (classify polarity))).

(** [analyze_comments_batch(comments_df)].  The cells [row['comment_id']],
    [row['stakeholder_name']], [row['comment_text']] and
    [row['provision_reference']] of lines 57-63 are the fields of the row. *)
Definition analyze_comments_batch (comments_df : DataFrame CommentRow)
  : result (DataFrame SentimentRow) :=
  bind (for_each (fun row =>
          bind (analyze_sentiment (comment_text row)) (fun analysis =>
          Ok (mkSentimentRow row
                (Analysis.sentiment analysis)
                (round (Analysis.polarity analysis) 3)
                (round (Analysis.subjectivity analysis) 3))))
          (rows comments_df)) (fun results =>
  Ok (of_records result_columns results)).

(** [analyze(df)]. *)
Definition analyze (df : DataFrame CommentRow) : result Report :=
  bind (analyze_comments_batch df) (fun detailed_results =>
  bind (get_overall_sentiment detailed_results) (fun overall_stats =>
  bind (get_provision_wise_sentiment detailed_results) (fun provision_sentiment =>
  bind (column detailed_results "stakeholder_name"
          (fun r => stakeholder_name (comment r))) (fun stakeholders =>
  bind (for_each (fun stakeholder =>
          let stakeholder_data :=
            select (fun r => String.eqb (stakeholder_name (comment r)) stakeholder)
              detailed_results in
          bind (count_eq stakeholder_data "sentiment" sentiment "Positive") (fun pos =>
          bind (count_eq stakeholder_data "sentiment" sentiment "Negative") (fun neg =>
          bind (count_eq stakeholder_data "sentiment" sentiment "Neutral") (fun neu =>
          Ok (stakeholder,
              mkStakeholderStats pos neg neu (Pandas.len stakeholder_data))))))
          (unique stakeholders)) (fun stakeholder_sentiment =>
  let sentiment_summary :=
    lowercase_keys (sentiment_distribution overall_stats) in
  Ok (mkReport sentiment_summary detailed_results provision_sentiment
        stakeholder_sentiment overall_stats)))))).

End Analyzer.

End SentimentAnalyzer.

(** ** text_summarizer.py *)

Module TextSummarizer.

Import Py Pandas.

(** [self.stop_words]. *)
Definition stop_words : list string :=
  ["the"; "is"; "at"; "which"; "on"; "and"; "a"; "an"; "in";
   "to"; "for"; "of"; "with"; "as"; "by"; "that"; "this";
   "it"; "from"; "or"; "but"; "are"; "was"; "were"; "be"].

(** The words [_get_word_frequency] counts (lines 58-59). *)
Definition frequency_words (text : string) : list string :=
  let text := sub_non_alpha (lower text) in
  List.filter (fun word => negb (mem word stop_words) && (2 <? Py.len word)%nat)
    (split text).

(** [max(word_freq.values())]. *)
Definition max_value (d : list (string * nat)) : nat :=
  fold_right Nat.max 0%nat (map snd d).

(** [_get_word_frequency(text)]. *)
Definition _get_word_frequency (text : string) : list (string * Q) :=
  let words := frequency_words text in
  let word_freq := Counter words in
  let max_freq :=
    match word_freq with
    | [] => 1%nat
    | _ :: _ => max_value word_freq
    end in
  map (fun kv => (fst kv, div (of_nat (snd kv)) (of_nat max_freq))) word_freq.

(** The body of the loop of lines 35-40. *)
Definition score_sentence (word_freq : list (string * Q))
  (sentence_scores : list (string * Q)) (sentence : string) : list (string * Q) :=
  let sentence := strip sentence in
  if (0 <? Py.len sentence)%nat then
    let words_in_sentence := split (lower sentence) in
    let score := Qsum (map (fun word => dict_get word_freq word 0%Q) words_in_sentence) in
    dict_set sentence_scores sentence
      (match words_in_sentence with
       | [] => 0%Q
       | _ :: _ => div score (of_nat (length words_in_sentence))
       end)
  else sentence_scores.

(** [summarize_single_comment(text, max_length)]. *)
Definition summarize_single_comment (text : string) (max_length : nat) : string :=
  let words := split text in
  if (length words <=? max_length)%nat then text
  else
    let sentences := split_on "." text in
    if (length sentences <=? 2)%nat then
      join " " (firstn max_length words) +:+ "..."
    else
      let word_freq := _get_word_frequency text in
      let sentence_scores := fold_left (score_sentence word_freq) sentences [] in
      let top_sentences :=
        firstn 2 (sorted_desc (fun a b => gt (snd a) (snd b)) sentence_scores) in
      let summary := join ". " (map fst top_sentences) in
      let summary_words := split summary in
      if (max_length <? length summary_words)%nat then
        join " " (firstn max_length summary_words) +:+ "..."
      else summary.

(** The test of lines 168-177: the group a lowercased name goes to. *)
Definition stakeholder_group (name : string) : string :=
  if contains "firm" name || contains "legal" name || contains "lawyer" name
  then "Legal"
  else if contains "business" name || contains "company" name
          || contains "ceo" name || contains "founder" name
  then "Business"
  else if contains "ministry" name || contains "government" name
  then "Government"
  else if contains "association" name || contains "chamber" name
          || contains "group" name || contains "org" name
  then "Association"
  else "Individual".

(** [stakeholder_groups] as line 156 builds it. *)
Definition empty_groups {R : Type} : list (string * list R) :=
  [("Business", []); ("Legal", []); ("Government", []);
   ("Individual", []); ("Association", [])].

(** [df.iloc[0]]. *)
Definition iloc0 {R : Type} (df : DataFrame R) : result R :=
  match rows df with
  | [] => Raise IndexError
  | r :: _ => Ok r
  end.

(** The loop of lines 164-177 of [create_stakeholder_summary]: every comment
    row puts its result row into one group.  [comments_columns] are the
    columns of the comment table: line 165 reads the name of the row, line
    166 the [comment_id] column of the results table, then the identifier of
    the row, and takes the first result row that has it. *)
Fixpoint group_rows (comments_columns : list string)
  (comment_rows : list SentimentAnalyzer.CommentRow)
  (sentiments_df : DataFrame SentimentAnalyzer.SentimentRow)
  (stakeholder_groups : list (string * list SentimentAnalyzer.SentimentRow))
  : result (list (string * list SentimentAnalyzer.SentimentRow)) :=
  match comment_rows with
  | [] => Ok stakeholder_groups
  | row :: rest =>
      bind (cell comments_columns row "stakeholder_name"
              SentimentAnalyzer.stakeholder_name)
        (fun stakeholder_name =>
      let name := lower stakeholder_name in
      bind (column sentiments_df "comment_id"
              (fun r => SentimentAnalyzer.comment_id (SentimentAnalyzer.comment r)))
        (fun _ =>
      bind (cell comments_columns row "comment_id" SentimentAnalyzer.comment_id)
        (fun comment_id =>
      bind (iloc0 (select (fun r =>
                     (SentimentAnalyzer.comment_id (SentimentAnalyzer.comment r)
                      =? comment_id)%Z) sentiments_df))
        (fun sentiment_row =>
      let group := stakeholder_group name in
      group_rows comments_columns rest sentiments_df
        (dict_set stakeholder_groups group
           (dict_get stakeholder_groups group [] ++ [sentiment_row])%list)))))
  end.

(** An entry of the dict [create_stakeholder_summary] returns. *)
Record GroupStats : Type := mkGroupStats {
  count : nat;
  sentiment_distribution : gmap string nat;
  average_polarity : option Q
}.

(** The loop of lines 181-191: an entry for every group that has result
    rows, in the order of the groups.  [pd.DataFrame(comments)] has the
    columns of the results table the rows were taken from, and lines 184 and
    185 read two of them. *)
Fixpoint summarize_groups (sentiments_columns : list string)
  (stakeholder_groups : list (string * list SentimentAnalyzer.SentimentRow))
  : result (list (string * GroupStats)) :=
  match stakeholder_groups with
  | [] => Ok []
  | (group, comments) :: rest =>
      match comments with
      | [] => summarize_groups sentiments_columns rest
      | _ :: _ =>
          let comments_df_group := mkDataFrame sentiments_columns comments in
          bind (column comments_df_group "sentiment" SentimentAnalyzer.sentiment)
            (fun labels =>
          let sentiment_dist := value_counts labels in
          bind (column comments_df_group "polarity_score"
                  SentimentAnalyzer.polarity_score)
            (fun scores =>
          let avg_polarity := mean scores in
          bind (summarize_groups sentiments_columns rest)
            (fun group_summary =>
          Ok ((group,
               mkGroupStats (length comments) sentiment_dist
                 (round_nan avg_polarity 3)) :: group_summary))))
      end
  end.

(** [create_stakeholder_summary(comments_df, sentiments_df)]. *)
Definition create_stakeholder_summary
  (comments_df : DataFrame SentimentAnalyzer.CommentRow)
  (sentiments_df : DataFrame SentimentAnalyzer.SentimentRow)
  : result (list (string * GroupStats)) :=
  bind (group_rows (columns comments_df) (rows comments_df) sentiments_df
          empty_groups)
    (summarize_groups (columns sentiments_df)).

(** The fixed vocabulary of lines 139-142. *)
Definition meaningful_vocabulary : list string :=
  ["compliance"; "regulation"; "business"; "cost"; "implementation";
   "transparency"; "governance"; "reform"; "burden"; "support";
   "accountability"; "framework"; "amendment"; "provision";
   "requirement"; "documentation"; "innovation"; "growth"].

(** [_extract_sentiment_keywords(text, num_keywords)]. *)
Definition _extract_sentiment_keywords (text : string) (num_keywords : nat)
  : list string :=
  let text := sub_non_alpha (lower text) in
  let words :=
    List.filter (fun word => negb (mem word stop_words) && (3 <? Py.len word)%nat)
      (split text) in
  let meaningful_words :=
    List.filter (fun word => mem word meaningful_vocabulary) words in
  let word_freq := Counter meaningful_words in
  let top_words := most_common word_freq num_keywords in
  map fst top_words.

(** Lines 204-207 of [summarize]: the ten words of largest weight over the
    text of all comments. *)
Definition key_themes (df : DataFrame SentimentAnalyzer.CommentRow)
  : result (list string) :=
  bind (column df "comment_text" SentimentAnalyzer.comment_text) (fun texts =>
  let all_text := join " " texts in
  let word_freq := _get_word_frequency all_text in
  let top_themes :=
    firstn 10 (sorted_desc (fun a b => gt (snd a) (snd b)) word_freq) in
  Ok (map fst top_themes)).

(** Lines 210-214 of [summarize]: a summary of at most a hundred words of
    the comments of each provision. *)
Definition provision_summaries (df : DataFrame SentimentAnalyzer.CommentRow)
  : result (list (string * string)) :=
  bind (column df "provision_reference" SentimentAnalyzer.provision_reference)
    (fun provisions =>
  for_each (fun provision =>
    let provision_comments :=
      select (fun r => String.eqb (SentimentAnalyzer.provision_reference r) provision)
        df in
    bind (column provision_comments "comment_text" SentimentAnalyzer.comment_text)
      (fun texts =>
    let provision_text := join " " texts in
    Ok (provision, summarize_single_comment provision_text 100)))
    (unique provisions)).

End TextSummarizer.

(** ** wordcloud_generator.py *)

Module WordCloudGenerator.

Import Py Pandas.

(** [self.stop_words]. *)
Definition stop_words : list string :=
  ["the"; "is"; "at"; "which"; "on"; "and"; "a"; "an"; "in";
   "to"; "for"; "of"; "with"; "as"; "by"; "that"; "this";
   "it"; "from"; "or"; "but"; "are"; "was"; "were"; "be";
   "have"; "has"; "had"; "do"; "does"; "did"; "will"; "would";
   "could"; "should"; "may"; "might"; "must"; "can"; "shall";
   "we"; "our"; "us"; "them"; "they"; "their"; "these"; "those";
   "been"; "being"; "having"; "more"; "very"; "some"; "any"].

(** [_clean_text(text)]. *)
Definition _clean_text (text : string) : string :=
  let text := lower text in
  let text := sub_non_alpha text in
  join " " (split text).

(** [get_word_frequency(text, top_n)]. *)
Definition get_word_frequency (text : string) (top_n : nat) : list (string * nat) :=
  let text := _clean_text text in
  let words := split text in
  let words :=
    List.filter (fun word => negb (mem word stop_words) && (3 <? Py.len word)%nat)
      words in
  let word_freq := Counter words in
  most_common word_freq top_n.

(** The dict [create_frequency_chart_data] returns. *)
Record ChartData : Type := mkChartData {
  words : list string;
  frequencies : list nat
}.

(** [create_frequency_chart_data(comments_df)]. *)
Definition create_frequency_chart_data (comments_df : DataFrame SentimentAnalyzer.CommentRow)
  : result ChartData :=
  bind (column comments_df "comment_text" SentimentAnalyzer.comment_text)
    (fun texts =>
  let all_text := join " " texts in
  let word_freq := get_word_frequency all_text 15 in
  Ok (mkChartData (map fst word_freq) (map snd word_freq))).

Section Rendering.

(** The drawing of a word cloud by the [wordcloud] and [matplotlib]
    libraries and its encoding: from the size, the number of words, the
    colour map, the title and the cleaned text to the image in base64, or
    the exception a library raises. *)
Variable render :
  forall (width height max_words : nat) (colormap title text : string),
    result string.

(** [generate_wordcloud(text, max_words)]. *)
Definition generate_wordcloud (text : string) (max_words : nat) : result string :=
  let text := _clean_text text in
  render 800 400 max_words "viridis" "Word Cloud - Stakeholder Comments" text.

(** [_generate_colored_wordcloud(text, colormap, title)]. *)
Definition _generate_colored_wordcloud (text colormap title : string)
  : result string :=
  let text := _clean_text text in
  render 600 300 30 colormap title text.

(** One of the three blocks of [generate_sentiment_wordclouds]. *)
Definition add_sentiment_wordcloud
  (sentiments_df : DataFrame SentimentAnalyzer.SentimentRow)
  (label key colormap title : string) (wordclouds : list (string * string))
  : result (list (string * string)) :=
  bind (column sentiments_df "sentiment" SentimentAnalyzer.sentiment) (fun _ =>
  let comments :=
    select (fun r => String.eqb (SentimentAnalyzer.sentiment r) label)
      sentiments_df in
  if (0 <? Pandas.len comments)%nat then
    bind (column comments "comment_text"
            (fun r => SentimentAnalyzer.comment_text (SentimentAnalyzer.comment r)))
      (fun texts =>
    bind (_generate_colored_wordcloud (join " " texts) colormap title)
      (fun image =>
    Ok (dict_set wordclouds key image)))
  else Ok wordclouds).

(** [generate_sentiment_wordclouds(sentiments_df)]. *)
Definition generate_sentiment_wordclouds
  (sentiments_df : DataFrame SentimentAnalyzer.SentimentRow)
  : result (list (string * string)) :=
  bind (add_sentiment_wordcloud sentiments_df "Positive" "positive" "Greens"
          "Positive Sentiment Word Cloud" []) (fun wordclouds =>
  bind (add_sentiment_wordcloud sentiments_df "Negative" "negative" "Reds"
          "Negative Sentiment Word Cloud" wordclouds) (fun wordclouds =>
  add_sentiment_wordcloud sentiments_df "Neutral" "neutral" "Blues"
    "Neutral Sentiment Word Cloud" wordclouds)).

(** [generate_provision_wordcloud(comments_df, provision)]; [None] is
    Python's. *)
Definition generate_provision_wordcloud
  (comments_df : DataFrame SentimentAnalyzer.CommentRow) (provision : string)
  : result (option string) :=
  bind (column comments_df "provision_reference"
          SentimentAnalyzer.provision_reference) (fun _ =>
  let provision_comments :=
    select (fun r => String.eqb (SentimentAnalyzer.provision_reference r) provision)
      comments_df in
  if (Pandas.len provision_comments =? 0)%nat then Ok None
  else
    bind (column provision_comments "comment_text" SentimentAnalyzer.comment_text)
      (fun texts =>
    bind (generate_wordcloud (join " " texts) 30) (fun image =>
    Ok (Some image)))).

End Rendering.

End WordCloudGenerator.

(** ** Sample runs *)

Module Samples.

Import Py Pandas SentimentAnalyzer.

(** A stand-in for the sentiment library, as a test would stub it. *)
Definition stub_sentiment (text : string) : result (Q * Q) :=
  if contains "Great" text then Ok (8 # 10, 75 # 100)%Q
  else if contains "Terrible" text then Ok (-1, 1)%Q
  else if contains "cannot score" text then Raise (Exception "SentimentModelError")
  else Ok (0, 0)%Q.

Definition comments_columns : list string :=
  ["comment_id"; "stakeholder_name"; "comment_text"; "provision_reference"].

Definition three_comments : DataFrame CommentRow :=
  mkDataFrame comments_columns
    [mkCommentRow 1 "Acme Legal Partners" "Great transparency improvement" "A";
     mkCommentRow 2 "John Doe" "Terrible cost burden" "A";
     mkCommentRow 3 "John Doe" "It is what it is" "B"].

Definition one_unscorable : DataFrame CommentRow :=
  mkDataFrame comments_columns
    [mkCommentRow 1 "Jane Smith" "Great transparency improvement" "A";
     mkCommentRow 2 "John Doe" "cannot score this" "A";
     mkCommentRow 3 "John Doe" "Terrible cost burden" "B"].

Definition no_comments : DataFrame CommentRow := mkDataFrame comments_columns [].

(** An empty results table that has its columns. *)
Definition no_results : DataFrame SentimentRow := mkDataFrame result_columns [].

(** A stand-in for the drawing libraries: they refuse a text without
    words. *)
Definition stub_render (width height max_words : nat)
  (colormap title text : string) : result string :=
  if String.eqb text "" then Raise (Exception "ValueError")
  else Ok (colormap +:+ ":" +:+ text).

(** The results table of [three_comments] under [stub_sentiment]. *)
Definition three_results : DataFrame SentimentRow :=
  mkDataFrame result_columns
    [mkSentimentRow
       (mkCommentRow 1 "Acme Legal Partners" "Great transparency improvement" "A")
       "Positive" (4 # 5) (3 # 4);
     mkSentimentRow (mkCommentRow 2 "John Doe" "Terrible cost burden" "A")
       "Negative" (-1) 1;
     mkSentimentRow (mkCommentRow 3 "John Doe" "It is what it is" "B")
       "Neutral" 0 0].

End Samples.

(** ** The vocabulary of the specification *)

Module Spec.

Import Py.

(** The error the specification names for an empty batch. *)
Definition EmptyInputError : exn := Exception "EmptyInputError".

(** The arithmetic mean of a non-empty list. *)
Definition arithmetic_mean (l : list Q) : Q := (Qsum l / of_nat (length l))%Q.

(** The number of comment rows whose stakeholder name goes to [group]. *)
Definition members (comment_rows : list SentimentAnalyzer.CommentRow)
  (group : string) : nat :=
  length (List.filter
            (fun row => String.eqb
               (TextSummarizer.stakeholder_group
                  (lower (SentimentAnalyzer.stakeholder_name row))) group)
            comment_rows).

(** Every character of [s] satisfies [p]. *)
Fixpoint all_chars (p : ascii -> bool) (s : string) : bool :=
  match s with
  | EmptyString => true
  | String c s' => p c && all_chars p s'
  end.

(** A lowercase letter or the space character. *)
Definition lower_or_space (c : ascii) : bool := is_lower c || Ascii.eqb c " ".

(** The three sentiment labels. *)
Definition three_labels (l : string) : Prop :=
  l = "Positive" \/ l = "Negative" \/ l = "Neutral".

(** The number of occurrences of a value in a column. *)
Definition occurrences (k : string) (col : list string) : nat :=
  length (List.filter (fun x => String.eqb x k) col).

(** The count a label-to-count mapping gives a label, zero when the label is
    no key. *)
Definition label_count (d : gmap string nat) (label : string) : nat :=
  default 0%nat (d !! label).

(** The position of the first occurrence of [w] in [l]. *)
Fixpoint first_index (w : string) (l : list string) : nat :=
  match l with
  | [] => 0%nat
  | x :: l' => if String.eqb x w then 0%nat else S (first_index w l')
  end.

(** [a] stands before [b] in [l]. *)
Definition before {A : Type} (l : list A) (a b : A) : Prop :=
  exists i j : nat, (i < j)%nat /\ l !! i = Some a /\ l !! j = Some b.

(** The order a stable descending sort of [l] by [key] puts two elements
    in: the larger key first, and at equal keys the one that stands first
    in [l]. *)
Definition ranked {A : Type} (key : A -> nat) (l : list A) (a b : A) : Prop :=
  (key b < key a)%nat \/ (key a = key b /\ before l a b).

(** A string of whitespace only (the empty string included). *)
Fixpoint whitespace_only (s : string) : bool :=
  match s with
  | EmptyString => true
  | String c s' => isspace c && whitespace_only s'
  end.

(** A string without whitespace. *)
Fixpoint no_space (s : string) : bool :=
  match s with
  | EmptyString => true
  | String c s' => negb (isspace c) && no_space s'
  end.

(** A word: a non-empty string without whitespace. *)
Definition is_word (w : string) : Prop := w <> "" /\ no_space w = true.

(** The buckets of the specification with their keywords, in priority
    order; Individual is the catch-all. *)
Definition buckets : list (string * list string) :=
  [("Legal", ["firm"; "legal"; "lawyer"]);
   ("Business", ["business"; "company"; "ceo"; "founder"]);
   ("Government", ["ministry"; "government"]);
   ("Association", ["association"; "chamber"; "group"; "org"])].

Definition matches (name : string) (bucket : string * list string) : bool :=
  existsb (fun keyword => contains keyword name) (snd bucket).

(** The first bucket, in priority order, one of whose keywords the
    lowercased name contains. *)
Definition bucket_of (name : string) : string :=
  match find (matches (lower name)) buckets with
  | Some bucket => fst bucket
  | None => "Individual"
  end.

End Spec.

(** * Properties *)

(** ** Python prelude *)

Section PyFacts.

Import Py.

Lemma gt_spec (a b : Q) : gt a b = true <-> (b < a)%Q.
Proof.
  unfold gt. change (b < a)%Q with (a > b)%Q. rewrite Qgt_alt.
  destruct (a ?= b)%Q; split; congruence.
Qed.

Lemma lt_spec (a b : Q) : lt a b = true <-> (a < b)%Q.
Proof.
  unfold lt. rewrite Qlt_alt. destruct (a ?= b)%Q; split; congruence.
Qed.

Lemma gt_false (a b : Q) : gt a b = false <-> (a <= b)%Q.
Proof.
  rewrite <- not_true_iff_false, gt_spec. split.
  - apply Qnot_lt_le.
  - apply Qle_not_lt.
Qed.

Lemma lt_false (a b : Q) : lt a b = false <-> (b <= a)%Q.
Proof.
  rewrite <- not_true_iff_false, lt_spec. split.
  - apply Qnot_lt_le.
  - apply Qle_not_lt.
Qed.

Lemma div_eq (a b : Q) : (div a b == a / b)%Q.
Proof. apply Qred_correct. Qed.

Lemma round_half_even_proper (a b : Q) :
  (a == b)%Q -> round_half_even a = round_half_even b.
Proof.
  intros H. unfold round_half_even.
  assert (Hf : Qfloor a = Qfloor b) by (apply Qfloor_comp; exact H).
  rewrite Hf.
  assert (Hc : (a - inject_Z (Qfloor b) ?= 1 # 2)%Q
               = (b - inject_Z (Qfloor b) ?= 1 # 2)%Q).
  { apply Qcompare_comp; [rewrite H|]; reflexivity. }
  rewrite Hc. reflexivity.
Qed.

Lemma round_proper (a b : Q) (n : nat) : (a == b)%Q -> round a n = round b n.
Proof.
  intros H. unfold round.
  rewrite (round_half_even_proper (a * _) (b * inject_Z (10 ^ Z.of_nat n))).
  - reflexivity.
  - rewrite H. reflexivity.
Qed.

Lemma round_half_even_error (r : Q) :
  (r - (1 # 2) <= inject_Z (round_half_even r))%Q /\
  (inject_Z (round_half_even r) <= r + (1 # 2))%Q.
Proof.
  unfold round_half_even.
  pose proof (Qfloor_le r) as Hlo. pose proof (Qlt_floor r) as Hhi.
  rewrite inject_Z_plus in Hhi. change (inject_Z 1) with 1%Q in Hhi.
  destruct (Qcompare_spec (r - inject_Z (Qfloor r)) (1 # 2)) as [He | Hl | Hg].
  - destruct (Z.even (Qfloor r));
      [| rewrite inject_Z_plus; change (inject_Z 1) with 1%Q]; split; lra.
  - split; lra.
  - rewrite inject_Z_plus. change (inject_Z 1) with 1%Q. split; lra.
Qed.

(** Rounding to three decimals gives a multiple of 0.001 that is at most
    0.0005 away. *)
Lemma round_3_error (q : Q) :
  (round q 3 == round_half_even (q * inject_Z 1000) # 1000)%Q /\
  (q - (1 # 2000) <= round q 3)%Q /\ (round q 3 <= q + (1 # 2000))%Q.
Proof.
  unfold round. rewrite Qred_correct.
  change (10 ^ Z.of_nat 3)%Z with 1000%Z.
  change (Z.to_pos 1000) with 1000%positive.
  split; [reflexivity |].
  destruct (round_half_even_error (q * inject_Z 1000)) as [Hlo Hhi].
  rewrite (Qmake_Qdiv (round_half_even (q * inject_Z 1000)) 1000).
  change (inject_Z (Z.pos 1000)) with 1000%Q in *.
  change (inject_Z 1000) with 1000%Q in *. split.
  - apply Qle_shift_div_l; lra.
  - apply Qle_shift_div_r; lra.
Qed.

(** No binary64 number lies strictly between one tenth and the literal
    [0.1]: on floats, [p > 0.1] fails for the float [0.1] itself and holds
    for every float above one tenth other than it. *)
Lemma binary64_above_tenth (p : Q) :
  is_binary64 p -> (1 # 10 < p)%Q -> (lit_0_1 <= p)%Q.
Proof.
  intros (m & e & Hm & He & Hp) Hlt. rewrite Hp in *. clear Hp p.
  unfold dyadic in *. destruct (Z.leb_spec 0 e) as [Hpos | Hneg].
  - unfold lit_0_1, Qle, Qlt, inject_Z in *. simpl in *. lia.
  - assert (H2 : (0 < 2 ^ (- e))%Z) by (apply Z.pow_pos_nonneg; lia).
    unfold lit_0_1, Qle, Qlt in *. simpl in *.
    rewrite Z2Pos.id in * by exact H2.
    destruct (Z_lt_le_dec (- e) 57) as [Hs | Hl].
    + assert (Hk : (2 ^ 56 = 2 ^ (- e) * 2 ^ (56 + e))%Z).
      { rewrite <- Z.pow_add_r by lia. f_equal. lia. }
      assert (Hq : (0 < 2 ^ (56 + e))%Z) by (apply Z.pow_pos_nonneg; lia).
      change 36028797018963968%Z with (2 ^ 55)%Z.
      assert (Hm' : (2 ^ 56 < 10 * (m * 2 ^ (56 + e)) * 2 ^ (- e))%Z).
      { rewrite Hk. nia. }
      assert (Hint : (7205759403792794 <= m * 2 ^ (56 + e))%Z).
      { change (2 ^ 56)%Z with 72057594037927936%Z in Hm'. nia. }
      change (2 ^ 55)%Z with 36028797018963968%Z.
      change (2 ^ 56)%Z with 72057594037927936%Z in Hk. nia.
    + assert (Hbig : (2 ^ 57 <= 2 ^ (- e))%Z) by (apply Z.pow_le_mono_r; lia).
      change (2 ^ 57)%Z with 144115188075855872%Z in Hbig.
      change (2 ^ 53)%Z with 9007199254740992%Z in Hm. lia.
Qed.

Lemma lit_0_1_binary64 : is_binary64 lit_0_1.
Proof.
  exists 3602879701896397%Z, (-55)%Z. repeat split; try (vm_compute; congruence).
Qed.

End PyFacts.

Section ForEach.

Import Py.

Context {A B : Type} (f : A -> result B).

Lemma for_each_Ok (l : list A) (ys : list B) :
  for_each f l = Ok ys -> Forall2 (fun x y => f x = Ok y) l ys.
Proof.
  revert ys. induction l as [| x l IH]; simpl; intros ys H.
  - injection H as <-. constructor.
  - destruct (f x) as [y | e] eqn:Hx; simpl in H; [| discriminate].
    destruct (for_each f l) as [ys' | e] eqn:Hl; simpl in H; [| discriminate].
    injection H as <-. constructor; [exact Hx | apply IH; reflexivity].
Qed.

Lemma for_each_Forall2 (l : list A) (ys : list B) :
  Forall2 (fun x y => f x = Ok y) l ys -> for_each f l = Ok ys.
Proof.
  induction 1 as [| x y l ys Hx _ IH]; simpl; [reflexivity |].
  rewrite Hx, IH. reflexivity.
Qed.

(** The loop stops at the first element that raises. *)
Lemma for_each_Raise (pre post : list A) (x : A) (e : exn) :
  Forall (fun a => exists b, f a = Ok b) pre ->
  f x = Raise e ->
  for_each f (pre ++ x :: post) = Raise e.
Proof.
  intros Hpre Hx. induction Hpre as [| a pre [b Hb] _ IH]; simpl.
  - rewrite Hx. reflexivity.
  - rewrite Hb, IH. reflexivity.
Qed.

End ForEach.

(** ** Sentiment scoring *)

Section Scoring.

Import Py Pandas SentimentAnalyzer.

Lemma classify_cases (p : Q) :
  classify p = "Positive" \/ classify p = "Negative" \/ classify p = "Neutral".
Proof.
  unfold classify. destruct (gt p lit_0_1); [| destruct (lt p (- lit_0_1))]; auto.
Qed.

Lemma classify_Positive (p : Q) : classify p = "Positive" <-> (lit_0_1 < p)%Q.
Proof.
  rewrite <- gt_spec. unfold classify.
  destruct (gt p lit_0_1); [| destruct (lt p (- lit_0_1))]; split; congruence.
Qed.

Lemma classify_Negative (p : Q) : classify p = "Negative" <-> (p < - lit_0_1)%Q.
Proof.
  rewrite <- lt_spec. unfold classify.
  destruct (gt p lit_0_1) eqn:Hgt.
  - apply gt_spec in Hgt. split; [congruence |]. intros Hlt. apply lt_spec in Hlt.
    exfalso. apply (Qlt_irrefl p). apply Qlt_trans with (- lit_0_1)%Q; [exact Hlt |].
    apply Qlt_trans with lit_0_1; [reflexivity | exact Hgt].
  - destruct (lt p (- lit_0_1)); split; congruence.
Qed.

Lemma classify_Neutral (p : Q) :
  classify p = "Neutral" <-> (- lit_0_1 <= p)%Q /\ (p <= lit_0_1)%Q.
Proof.
  rewrite <- (gt_false p lit_0_1), <- (lt_false p (- lit_0_1)). unfold classify.
  destruct (gt p lit_0_1); [| destruct (lt p (- lit_0_1))];
    split; intros H; try (destruct H; congruence); try (split; congruence).
Qed.

Variable textblob_sentiment : string -> result (Q * Q).

(** C1.  Whenever the sentiment library scores a text with polarity [p],
    [analyze_sentiment] returns that polarity with the label Positive exactly
    when [p > 0.1], Negative exactly when [p < -0.1], and Neutral exactly
    when neither holds; a polarity equal to [0.1] or to [-0.1] is labelled
    Neutral. *)
Theorem analyze_sentiment_thresholds (text : string) (p s : Q) :
  textblob_sentiment text = Ok (p, s) ->
  exists a,
    analyze_sentiment textblob_sentiment text = Ok a /\
    Analysis.polarity a = p /\
    (Analysis.sentiment a = "Positive" <-> (lit_0_1 < p)%Q) /\
    (Analysis.sentiment a = "Negative" <-> (p < - lit_0_1)%Q) /\
    (Analysis.sentiment a = "Neutral" <-> ~ (lit_0_1 < p)%Q /\ ~ (p < - lit_0_1)%Q) /\
    ((p == lit_0_1)%Q \/ (p == - lit_0_1)%Q -> Analysis.sentiment a = "Neutral").
Proof.
  intros H. unfold analyze_sentiment. rewrite H. simpl.
  eexists. split; [reflexivity |]. simpl.
  split; [reflexivity |].
  split; [apply classify_Positive |].
  split; [apply classify_Negative |].
  split.
  - rewrite classify_Neutral. split.
    + intros [H1 H2]. split; apply Qle_not_lt; assumption.
    + intros [H1 H2]. split; apply Qnot_lt_le; assumption.
  - intros Hb. apply classify_Neutral.
    destruct Hb as [Hb | Hb]; rewrite Hb; split;
      try apply Qle_refl; discriminate.
Qed.

End Scoring.

Lemma analyze_sentiment_thresholds_witness :
  exists a,
    SentimentAnalyzer.analyze_sentiment Samples.stub_sentiment
      "Great transparency improvement" = Py.Ok a /\
    SentimentAnalyzer.Analysis.polarity a = (8 # 10)%Q /\
    (SentimentAnalyzer.Analysis.sentiment a = "Positive" <-> (Py.lit_0_1 < 8 # 10)%Q) /\
    (SentimentAnalyzer.Analysis.sentiment a = "Negative" <-> (8 # 10 < - Py.lit_0_1)%Q) /\
    (SentimentAnalyzer.Analysis.sentiment a = "Neutral"
     <-> ~ (Py.lit_0_1 < 8 # 10)%Q /\ ~ (8 # 10 < - Py.lit_0_1)%Q) /\
    ((8 # 10 == Py.lit_0_1)%Q \/ (8 # 10 == - Py.lit_0_1)%Q ->
     SentimentAnalyzer.Analysis.sentiment a = "Neutral").
Proof.
  apply (analyze_sentiment_thresholds Samples.stub_sentiment
           "Great transparency improvement" (8 # 10)%Q (75 # 100)%Q).
  reflexivity.
Defined.

(** ** Batch scoring and the overall statistics *)

Section Batch.

Import Py Pandas SentimentAnalyzer.

Lemma mean_arithmetic (l : list Q) (m : Q) :
  mean l = Some m -> (m == Spec.arithmetic_mean l)%Q.
Proof.
  destruct l as [| x l]; simpl; [discriminate |].
  intros H. injection H as <-. apply div_eq.
Qed.

Lemma mean_nonempty (l : list Q) : l <> [] -> exists m, mean l = Some m.
Proof. destruct l; [congruence | eexists; reflexivity]. Qed.

Lemma of_records_rows {R : Type} (cols : list string) (l : list R) :
  rows (of_records cols l) = l.
Proof. destruct l; reflexivity. Qed.

Lemma of_records_columns {R : Type} (cols : list string) (l : list R) :
  l <> [] -> columns (of_records cols l) = cols.
Proof. destruct l; [congruence | reflexivity]. Qed.

(** What [get_overall_sentiment] returns on a table that has rows and the
    two columns it reads. *)
Lemma get_overall_sentiment_Ok (df : DataFrame SentimentRow) :
  rows df <> [] ->
  mem "sentiment" (columns df) = true ->
  mem "polarity_score" (columns df) = true ->
  exists stats,
    get_overall_sentiment df = Ok stats /\
    average_polarity stats = round_nan (mean (map polarity_score (rows df))) 3 /\
    sentiment_distribution stats = value_counts (map sentiment (rows df)) /\
    total_comments stats = length (rows df).
Proof.
  intros Hrows Hs Hp. unfold get_overall_sentiment, column, Pandas.len.
  rewrite Hs, Hp. simpl.
  destruct (rows df) as [| r l] eqn:Hr; [congruence |]. simpl.
  eexists. split; [reflexivity |]. simpl. auto.
Qed.

(** C2, as the code has it.  On a results table without rows
    [get_overall_sentiment] returns nothing: it raises [KeyError] when the
    table lacks a column it reads, and otherwise the [ZeroDivisionError] of
    the unguarded [count / len(df)]; it never raises the specification's
    [EmptyInputError]. *)
Theorem get_overall_sentiment_empty (df : DataFrame SentimentRow) :
  rows df = [] ->
  get_overall_sentiment df =
    (if mem "sentiment" (columns df)
     then if mem "polarity_score" (columns df)
          then Raise ZeroDivisionError
          else Raise (KeyError "polarity_score")
     else Raise (KeyError "sentiment")) /\
  get_overall_sentiment df <> Raise Spec.EmptyInputError.
Proof.
  intros Hrows.
  assert (H : get_overall_sentiment df =
    (if mem "sentiment" (columns df)
     then if mem "polarity_score" (columns df)
          then Raise ZeroDivisionError
          else Raise (KeyError "polarity_score")
     else Raise (KeyError "sentiment"))).
  { unfold get_overall_sentiment, column, Pandas.len. rewrite Hrows.
    destruct (mem "sentiment" (columns df)); [| reflexivity]. simpl.
    destruct (mem "polarity_score" (columns df)); reflexivity. }
  split; [exact H |]. rewrite H.
  destruct (mem "sentiment" (columns df));
    [destruct (mem "polarity_score" (columns df)) |]; discriminate.
Qed.

Variable textblob_sentiment : string -> result (Q * Q).

Lemma analyze_comments_batch_Ok (df : DataFrame CommentRow)
  (detailed : DataFrame SentimentRow) :
  analyze_comments_batch textblob_sentiment df = Ok detailed ->
  Forall2 (fun row res =>
             exists v, textblob_sentiment (comment_text row) = Ok v /\
                       res = mkSentimentRow row (classify (fst v))
                               (round (fst v) 3) (round (snd v) 3))
    (rows df) (rows detailed) /\
  detailed = of_records result_columns (rows detailed).
Proof.
  unfold analyze_comments_batch. intros H.
  destruct (for_each _ (rows df)) as [results | e] eqn:Hfe; simpl in H;
    [| discriminate].
  injection H as <-. rewrite !of_records_rows. split.
  - apply for_each_Ok in Hfe.
    eapply Forall2_impl; [exact Hfe |]. simpl. intros row res Hrow.
    unfold analyze_sentiment in Hrow.
    destruct (textblob_sentiment (comment_text row)) as [v | e]; simpl in Hrow;
      [| discriminate].
    injection Hrow as <-. exists v. split; reflexivity.
  - destruct results; reflexivity.
Qed.

(** When the library scores every text, every record is scored, in input
    order. *)
Lemma analyze_comments_batch_total (df : DataFrame CommentRow) :
  Forall (fun row => exists v, textblob_sentiment (comment_text row) = Ok v)
    (rows df) ->
  exists detailed,
    analyze_comments_batch textblob_sentiment df = Ok detailed /\
    map comment (rows detailed) = rows df.
Proof.
  intros Hall. unfold analyze_comments_batch.
  assert (H : exists results,
    for_each (fun row =>
      bind (analyze_sentiment textblob_sentiment (comment_text row))
        (fun analysis =>
           Ok (mkSentimentRow row (Analysis.sentiment analysis)
                 (round (Analysis.polarity analysis) 3)
                 (round (Analysis.subjectivity analysis) 3)))) (rows df)
    = Ok results /\ map comment results = rows df).
  { induction Hall as [| row l [v Hv] _ (results & Hres & Hmap)]; simpl.
    - exists []. split; reflexivity.
    - unfold analyze_sentiment at 1. rewrite Hv. simpl. rewrite Hres. simpl.
      eexists. split; [reflexivity |]. simpl. rewrite Hmap. reflexivity. }
  destruct H as (results & -> & Hmap). simpl.
  eexists. split; [reflexivity |]. rewrite of_records_rows. exact Hmap.
Qed.

(** C3, as the code has it.  [analyze_comments_batch] has no handler: when
    the library raises on the text of a record (and scored the records before
    it), that exception leaves the loop, the batch is aborted and no results
    table is returned. *)
Theorem analyze_comments_batch_aborts (df : DataFrame CommentRow)
  (before after : list CommentRow) (row : CommentRow) (e : exn) :
  rows df = (before ++ row :: after)%list ->
  Forall (fun r => exists v, textblob_sentiment (comment_text r) = Ok v) before ->
  textblob_sentiment (comment_text row) = Raise e ->
  analyze_comments_batch textblob_sentiment df = Raise e.
Proof.
  intros Hrows Hbefore Hrow. unfold analyze_comments_batch. rewrite Hrows.
  rewrite for_each_Raise with (e := e); [reflexivity | |].
  - eapply Forall_impl; [exact Hbefore |]. simpl. intros r [v Hv].
    unfold analyze_sentiment. rewrite Hv. simpl. eexists. reflexivity.
  - unfold analyze_sentiment. rewrite Hrow. reflexivity.
Qed.

(** C4, as the code has it.  For a non-empty batch that is scored, the
    polarity of each result row is the library's polarity rounded to three
    decimals.  The average polarity [get_overall_sentiment] reports is not
    the arithmetic mean of these rounded values: it is that mean rounded
    once more, a multiple of 0.001 that lies less than 0.001 away from it.
    The bound does not fix to which of the two neighbouring multiples a mean
    goes, so it does not depend on the last place of the mean the binary64
    sum and quotient give. *)
Theorem overall_average_polarity (df : DataFrame CommentRow)
  (detailed : DataFrame SentimentRow) :
  rows df <> [] ->
  analyze_comments_batch textblob_sentiment df = Ok detailed ->
  Forall2 (fun row res =>
             exists v, textblob_sentiment (comment_text row) = Ok v /\
                       polarity_score res = round (fst v) 3)
    (rows df) (rows detailed) /\
  exists (stats : OverallStats) (average : Q) (k : Z),
    get_overall_sentiment detailed = Ok stats /\
    average_polarity stats = Some average /\
    (average == k # 1000)%Q /\
    (Spec.arithmetic_mean (map polarity_score (rows detailed)) - (1 # 1000)
     < average)%Q /\
    (average
     < Spec.arithmetic_mean (map polarity_score (rows detailed)) + (1 # 1000))%Q.
Proof.
  intros Hne Hbatch.
  destruct (analyze_comments_batch_Ok df detailed Hbatch) as [Hrows Hdet].
  split.
  - eapply Forall2_impl; [exact Hrows |]. simpl.
    intros row res (v & Hv & ->). exists v. split; [exact Hv | reflexivity].
  - assert (Hne' : rows detailed <> []).
    { intros Hnil. rewrite Hnil in Hrows. inversion Hrows as [Hnil' |].
      symmetry in Hnil'. contradiction. }
    assert (Hcols : columns detailed = result_columns).
    { rewrite Hdet. apply of_records_columns. exact Hne'. }
    destruct (get_overall_sentiment_Ok detailed Hne') as (stats & Hst & Havg & _).
    + rewrite Hcols. reflexivity.
    + rewrite Hcols. reflexivity.
    + destruct (mean_nonempty (map polarity_score (rows detailed))) as [m Hm].
      { destruct (rows detailed); [congruence | discriminate]. }
      rewrite Hm in Havg. simpl in Havg.
      pose proof (mean_arithmetic _ _ Hm) as Hmean.
      destruct (round_3_error m) as (Hk & Hlo & Hhi).
      exists stats, (round m 3), (round_half_even (m * inject_Z 1000)).
      split; [exact Hst |]. split; [exact Havg |]. split; [exact Hk |].
      rewrite <- Hmean. split; lra.
Qed.

End Batch.

Lemma get_overall_sentiment_empty_witness :
  SentimentAnalyzer.get_overall_sentiment Samples.no_results
    = Py.Raise Py.ZeroDivisionError /\
  SentimentAnalyzer.get_overall_sentiment Samples.no_results
    <> Py.Raise Spec.EmptyInputError.
Proof.
  apply (get_overall_sentiment_empty Samples.no_results). reflexivity.
Defined.

(** The empty results table: the division by the number of rows raises
    [ZeroDivisionError], not [EmptyInputError]. *)
Lemma get_overall_sentiment_empty_counterexample :
  Pandas.rows Samples.no_results = [] /\
  SentimentAnalyzer.get_overall_sentiment Samples.no_results
    = Py.Raise Py.ZeroDivisionError /\
  SentimentAnalyzer.get_overall_sentiment Samples.no_results
    <> Py.Raise Spec.EmptyInputError.
Proof. vm_compute. repeat split; congruence. Qed.

Lemma analyze_comments_batch_aborts_witness :
  SentimentAnalyzer.analyze_comments_batch Samples.stub_sentiment
    Samples.one_unscorable = Py.Raise (Py.Exception "SentimentModelError").
Proof.
  apply (analyze_comments_batch_aborts Samples.stub_sentiment
           Samples.one_unscorable
           [SentimentAnalyzer.mkCommentRow 1 "Jane Smith"
              "Great transparency improvement" "A"]
           [SentimentAnalyzer.mkCommentRow 3 "John Doe" "Terrible cost burden" "B"]
           (SentimentAnalyzer.mkCommentRow 2 "John Doe" "cannot score this" "A")).
  - reflexivity.
  - constructor; [| constructor]. eexists. reflexivity.
  - reflexivity.
Defined.

(** A batch whose second record the library cannot score: no table with a
    substituted Neutral row comes back, the exception does. *)
Lemma analyze_comments_batch_counterexample :
  SentimentAnalyzer.analyze_comments_batch Samples.stub_sentiment
    Samples.one_unscorable = Py.Raise (Py.Exception "SentimentModelError") /\
  forall detailed,
    SentimentAnalyzer.analyze_comments_batch Samples.stub_sentiment
      Samples.one_unscorable <> Py.Ok detailed.
Proof.
  assert (H : SentimentAnalyzer.analyze_comments_batch Samples.stub_sentiment
                Samples.one_unscorable
              = Py.Raise (Py.Exception "SentimentModelError")) by reflexivity.
  split; [exact H |]. intros detailed. rewrite H. discriminate.
Qed.

Lemma overall_average_polarity_witness :
  exists detailed,
    SentimentAnalyzer.analyze_comments_batch Samples.stub_sentiment
      Samples.three_comments = Py.Ok detailed /\
    exists (stats : SentimentAnalyzer.OverallStats) (average : Q) (k : Z),
      SentimentAnalyzer.get_overall_sentiment detailed = Py.Ok stats /\
      SentimentAnalyzer.average_polarity stats = Some average /\
      (average == k # 1000)%Q /\
      (Spec.arithmetic_mean
         (map SentimentAnalyzer.polarity_score (Pandas.rows detailed))
       - (1 # 1000) < average)%Q /\
      (average
       < Spec.arithmetic_mean
           (map SentimentAnalyzer.polarity_score (Pandas.rows detailed))
         + (1 # 1000))%Q.
Proof.
  eexists. split; [reflexivity |].
  apply (overall_average_polarity Samples.stub_sentiment Samples.three_comments).
  - discriminate.
  - reflexivity.
Defined.

(** Three records with rounded polarities 0.8, -1 and 0: their mean is
    -1/15, the reported average is -0.067. *)
Lemma overall_average_polarity_counterexample :
  exists detailed stats,
    SentimentAnalyzer.analyze_comments_batch Samples.stub_sentiment
      Samples.three_comments = Py.Ok detailed /\
    SentimentAnalyzer.get_overall_sentiment detailed = Py.Ok stats /\
    map SentimentAnalyzer.polarity_score (Pandas.rows detailed)
      = [4 # 5; -1; 0]%Q /\
    (Spec.arithmetic_mean [4 # 5; -1; 0] == -1 # 15)%Q /\
    SentimentAnalyzer.average_polarity stats = Some (-67 # 1000)%Q /\
    ~ (-67 # 1000 == -1 # 15)%Q.
Proof.
  eexists. eexists. split; [reflexivity |]. split; [vm_compute; reflexivity |].
  split; [reflexivity |]. split; [reflexivity |]. split; [reflexivity |].
  discriminate.
Qed.

(** ** Label counts *)

Section Counts.

Import Py Pandas SentimentAnalyzer Spec.

Lemma occurrences_cons (k x : string) (col : list string) :
  occurrences k (x :: col) =
    if decide (x = k) then S (occurrences k col) else occurrences k col.
Proof.
  unfold occurrences. simpl. destruct (String.eqb_spec x k) as [-> | Hne].
  - rewrite decide_True by reflexivity. reflexivity.
  - rewrite decide_False by exact Hne. reflexivity.
Qed.

Lemma value_counts_cons (x : string) (col : list string) :
  value_counts (x :: col) =
    <[x := S (default 0%nat (value_counts col !! x))]> (value_counts col).
Proof. reflexivity. Qed.

(** A value that occurs is mapped to the number of its occurrences; a value
    that does not occur is no key. *)
Lemma value_counts_lookup (col : list string) (k : string) :
  value_counts col !! k =
    match occurrences k col with
    | O => None
    | S n => Some (S n)
    end.
Proof.
  induction col as [| x col IH].
  - reflexivity.
  - rewrite value_counts_cons, lookup_insert, occurrences_cons.
    destruct (decide (x = k)) as [-> | Hne]; [| exact IH].
    rewrite IH. destruct (occurrences k col); reflexivity.
Qed.

Lemma value_counts_default (col : list string) (k : string) :
  default 0%nat (value_counts col !! k) = occurrences k col.
Proof.
  rewrite value_counts_lookup. destruct (occurrences k col); reflexivity.
Qed.

Lemma occurrences_zero (k : string) (col : list string) :
  occurrences k col = 0%nat <-> ~ In k col.
Proof.
  induction col as [| x col IH]; simpl.
  - split; [tauto | reflexivity].
  - rewrite occurrences_cons. destruct (decide (x = k)) as [-> | Hne].
    + split; [discriminate | tauto].
    + rewrite IH. tauto.
Qed.

Lemma total_insert (m : gmap string nat) (k : string) (v : nat) :
  (Pandas.total (<[k := v]> m) + default 0 (m !! k) = Pandas.total m + v)%nat.
Proof.
  assert (Hcomm : forall z1 z2 y : nat,
            (z1 + (z2 + y) = z2 + (z1 + y))%nat) by (intros; lia).
  unfold Pandas.total. destruct (m !! k) as [c |] eqn:Hk; simpl.
  - rewrite <- (insert_delete_eq m k v).
    rewrite map_fold_insert_L;
      [| intros; apply Hcomm | apply lookup_delete_eq].
    rewrite (map_fold_delete_L _ _ k c m); [lia | intros; apply Hcomm | exact Hk].
  - rewrite map_fold_insert_L; [lia | intros; apply Hcomm | exact Hk].
Qed.

(** The counts of [value_counts] add up to the length of the column. *)
Lemma total_value_counts (col : list string) :
  Pandas.total (value_counts col) = length col.
Proof.
  induction col as [| x col IH].
  - reflexivity.
  - rewrite value_counts_cons. simpl.
    pose proof (total_insert (value_counts col) x
                  (S (default 0%nat (value_counts col !! x)))) as H.
    lia.
Qed.

(** A column of the three labels is counted out by the three labels. *)
Lemma occurrences_three (col : list string) :
  Forall (fun l => l = "Positive" \/ l = "Negative" \/ l = "Neutral") col ->
  (occurrences "Positive" col + occurrences "Negative" col
   + occurrences "Neutral" col = length col)%nat.
Proof.
  induction 1 as [| l col Hl _ IH]; [reflexivity |].
  rewrite !occurrences_cons. simpl.
  destruct Hl as [-> | [-> | ->]]; simpl; lia.
Qed.

Lemma filter_three (col : list string) (keep : string -> bool) :
  Forall (fun l => l = "Positive" \/ l = "Negative" \/ l = "Neutral") col ->
  Forall (fun l => l = "Positive" \/ l = "Negative" \/ l = "Neutral")
    (List.filter keep col).
Proof.
  intros H. apply List.Forall_forall. intros l Hin.
  apply List.filter_In in Hin as [Hin _].
  rewrite List.Forall_forall in H. apply H. exact Hin.
Qed.

End Counts.

(** ** Aggregation *)

Section Aggregation.

Import Py Pandas SentimentAnalyzer Spec.

Lemma bind_Ok {A B : Type} (r : result A) (k : A -> result B) (b : B) :
  bind r k = Ok b -> exists a, r = Ok a /\ k a = Ok b.
Proof. destruct r as [a | e]; simpl; [eauto | discriminate]. Qed.

Lemma column_Ok {R A : Type} (df : DataFrame R) (name : string)
  (field : R -> A) (col : list A) :
  column df name field = Ok col -> col = map field (rows df).
Proof.
  unfold column. destruct (mem name (columns df)); [| discriminate].
  intros H. injection H as <-. reflexivity.
Qed.

Lemma cell_Ok {R A : Type} (cols : list string) (row : R) (name : string)
  (field : R -> A) (a : A) :
  cell cols row name field = Ok a -> a = field row.
Proof.
  unfold cell. destruct (mem name cols); [| discriminate].
  intros H. injection H as <-. reflexivity.
Qed.

Lemma percentage_Ok (c n : nat) (q : Q) : percentage c n = Ok q -> n <> 0%nat.
Proof. destruct n; [discriminate | intros _; discriminate]. Qed.

(** What a successful [get_overall_sentiment] returned. *)
Lemma get_overall_sentiment_inv (df : DataFrame SentimentRow) (stats : OverallStats) :
  get_overall_sentiment df = Ok stats ->
  sentiment_distribution stats = value_counts (map sentiment (rows df)) /\
  total_comments stats = length (rows df) /\
  rows df <> [].
Proof.
  unfold get_overall_sentiment. intros H.
  apply bind_Ok in H as (labels & Hlabels & H). apply column_Ok in Hlabels.
  apply bind_Ok in H as (scores & _ & H).
  apply bind_Ok in H as (pos & Hpos & H).
  apply bind_Ok in H as (neg & _ & H).
  apply bind_Ok in H as (neu & _ & H).
  injection H as <-. simpl. subst labels.
  repeat split. apply percentage_Ok in Hpos. unfold Pandas.len in Hpos.
  destruct (rows df); [contradiction | discriminate].
Qed.

(** What each entry of a successful [get_provision_wise_sentiment] holds. *)
Lemma get_provision_wise_sentiment_inv (df : DataFrame SentimentRow)
  (by_prov : list (string * ProvisionStats)) (p : string) (e : ProvisionStats) :
  get_provision_wise_sentiment df = Ok by_prov ->
  In (p, e) by_prov ->
  let data :=
    List.filter (fun r => String.eqb (provision_reference (comment r)) p) (rows df) in
  count e = length data /\ sentiments e = value_counts (map sentiment data).
Proof.
  unfold get_provision_wise_sentiment. intros H Hin.
  apply bind_Ok in H as (provisions & _ & H).
  apply for_each_Ok in H.
  assert (Hex : exists x, (fun provision =>
    bind (column (select (fun r => String.eqb (provision_reference (comment r))
                                     provision) df)
            "polarity_score" polarity_score) (fun scores =>
    bind (column (select (fun r => String.eqb (provision_reference (comment r))
                                     provision) df)
            "sentiment" sentiment) (fun labels =>
    Ok (provision,
        mkProvisionStats
          (Pandas.len (select (fun r => String.eqb (provision_reference (comment r))
                                          provision) df))
          (round_nan (mean scores) 3) (value_counts labels))))) x = Ok (p, e)).
  { clear -H Hin. induction H as [| x y l ys Hxy _ IH]; [destruct Hin |].
    destruct Hin as [-> | Hin]; [exists x; exact Hxy | apply IH; exact Hin]. }
  destruct Hex as (x & Hx). simpl in Hx.
  apply bind_Ok in Hx as (scores & _ & Hx).
  apply bind_Ok in Hx as (labels & Hlabels & Hx).
  apply column_Ok in Hlabels. injection Hx as -> <-. simpl.
  subst labels. split; reflexivity.
Qed.

Lemma count_eq_Ok {R : Type} (df : DataFrame R) (name : string)
  (field : R -> string) (value : string) (n : nat) :
  count_eq df name field value = Ok n ->
  n = occurrences value (map field (rows df)).
Proof.
  unfold count_eq. intros H. apply bind_Ok in H as (col & Hcol & H).
  apply column_Ok in Hcol. injection H as <-. subst col. reflexivity.
Qed.

Variable textblob_sentiment : string -> result (Q * Q).

(** The labels of a results table [analyze_comments_batch] built. *)
Lemma analyze_comments_batch_labels (df : DataFrame CommentRow)
  (detailed : DataFrame SentimentRow) :
  analyze_comments_batch textblob_sentiment df = Ok detailed ->
  Forall (fun l => l = "Positive" \/ l = "Negative" \/ l = "Neutral")
    (map sentiment (rows detailed)).
Proof.
  intros H. apply analyze_comments_batch_Ok in H as [H _].
  induction H as [| row res l l' (v & _ & ->) _ IH]; simpl; constructor.
  - apply classify_cases.
  - exact IH.
Qed.

(** What a successful [analyze] returned. *)
Lemma analyze_inv (df : DataFrame CommentRow) (report : Report) :
  analyze textblob_sentiment df = Ok report ->
  analyze_comments_batch textblob_sentiment df = Ok (detailed report) /\
  get_overall_sentiment (detailed report) = Ok (overall_stats report) /\
  get_provision_wise_sentiment (detailed report) = Ok (by_provision report) /\
  summary report = lowercase_keys (sentiment_distribution (overall_stats report)) /\
  forall s e, In (s, e) (by_stakeholder report) ->
    let labels :=
      map sentiment
        (List.filter (fun r => String.eqb (stakeholder_name (comment r)) s)
           (rows (detailed report))) in
    positive e = occurrences "Positive" labels /\
    negative e = occurrences "Negative" labels /\
    neutral e = occurrences "Neutral" labels /\
    total e = length labels.
Proof.
  unfold analyze. intros H.
  apply bind_Ok in H as (det & Hdet & H).
  apply bind_Ok in H as (stats & Hstats & H).
  apply bind_Ok in H as (prov & Hprov & H).
  apply bind_Ok in H as (names & _ & H).
  apply bind_Ok in H as (stake & Hstake & H).
  injection H as <-. simpl. repeat split; try assumption.
  all: apply for_each_Ok in Hstake; clear -Hstake H.
  all: induction Hstake as [| x y l ys Hxy _ IH]; [destruct H |].
  all: destruct H as [-> | Hin]; [| apply IH; exact Hin].
  all: apply bind_Ok in Hxy as (pos & Hpos & Hxy).
  all: apply bind_Ok in Hxy as (neg & Hneg & Hxy).
  all: apply bind_Ok in Hxy as (neu & Hneu & Hxy).
  all: apply count_eq_Ok in Hpos, Hneg, Hneu.
  all: injection Hxy as -> <-; simpl.
  all: unfold Pandas.len; simpl; try assumption.
  rewrite length_map. reflexivity.
Qed.

(** The comment rows of a results table [analyze_comments_batch] built are
    the rows of the input, in order. *)
Lemma analyze_comments_batch_comments (df : DataFrame CommentRow)
  (detailed : DataFrame SentimentRow) :
  analyze_comments_batch textblob_sentiment df = Ok detailed ->
  map comment (rows detailed) = rows df.
Proof.
  intros H. apply analyze_comments_batch_Ok in H as [H _].
  induction H as [| row res l l' (v & _ & ->) _ IH]; simpl;
    [reflexivity | rewrite IH; reflexivity].
Qed.

Lemma filter_comment_length (keep : CommentRow -> bool) (results : list SentimentRow) :
  length (List.filter (fun r => keep (comment r)) results)
  = length (List.filter keep (map comment results)).
Proof.
  induction results as [| r l IH]; simpl; [reflexivity |].
  destruct (keep (comment r)); simpl; rewrite IH; reflexivity.
Qed.

(** C5.  In the report of [analyze], the counts of the three labels add up
    to the number of records of the group: overall (the distribution against
    [total_comments], the number of input records), for every provision (the
    [sentiments] against [count], the number of input records that refer to
    the provision) and for every stakeholder ([positive + negative + neutral]
    against [total], the number of input records of the stakeholder); the
    counts of each distribution also add up to that number over all of its
    keys. *)
Theorem label_counts_sum_to_total (df : DataFrame CommentRow) (report : Report) :
  analyze textblob_sentiment df = Ok report ->
  let overall := overall_stats report in
  total_comments overall = length (rows df) /\
  (label_count (sentiment_distribution overall) "Positive"
   + label_count (sentiment_distribution overall) "Negative"
   + label_count (sentiment_distribution overall) "Neutral"
   = total_comments overall)%nat /\
  Pandas.total (sentiment_distribution overall) = total_comments overall /\
  (forall p e, In (p, e) (by_provision report) ->
     count e = length (List.filter
                         (fun row => String.eqb (provision_reference row) p)
                         (rows df)) /\
     (label_count (sentiments e) "Positive" + label_count (sentiments e) "Negative"
      + label_count (sentiments e) "Neutral" = count e)%nat /\
     Pandas.total (sentiments e) = count e) /\
  (forall s e, In (s, e) (by_stakeholder report) ->
     total e = length (List.filter
                         (fun row => String.eqb (stakeholder_name row) s)
                         (rows df)) /\
     (positive e + negative e + neutral e = total e)%nat).
Proof.
  intros H. apply analyze_inv in H as (Hdet & Hstats & Hprov & _ & Hstake).
  pose proof (analyze_comments_batch_labels _ _ Hdet) as Hlabels.
  pose proof (analyze_comments_batch_comments _ _ Hdet) as Hrows.
  apply get_overall_sentiment_inv in Hstats as (Hdist & Htotal & _).
  simpl. rewrite Hdist, Htotal. unfold label_count.
  rewrite !value_counts_default, total_value_counts, length_map.
  split; [| split; [| split; [reflexivity | split]]].
  - rewrite <- Hrows. symmetry. apply length_map.
  - rewrite occurrences_three by exact Hlabels. apply length_map.
  - intros p e Hin.
    destruct (get_provision_wise_sentiment_inv _ _ p e Hprov Hin) as [Hc Hs].
    split.
    { rewrite Hc, <- Hrows.
      apply (filter_comment_length
               (fun row => String.eqb (provision_reference row) p)). }
    rewrite Hs, Hc, !value_counts_default, total_value_counts, length_map.
    split; [| reflexivity].
    rewrite occurrences_three; [apply length_map |].
    rewrite List.Forall_forall in *. intros l Hl.
    apply List.in_map_iff in Hl as (r & <- & Hr).
    apply List.filter_In in Hr as [Hr _].
    apply Hlabels. apply List.in_map. exact Hr.
  - intros s e Hin. destruct (Hstake s e Hin) as (Hpos & Hneg & Hneu & Htot).
    split.
    { rewrite Htot, length_map, <- Hrows.
      apply (filter_comment_length
               (fun row => String.eqb (stakeholder_name row) s)). }
    rewrite Hpos, Hneg, Hneu, Htot.
    apply occurrences_three.
    rewrite List.Forall_forall in *. intros l Hl.
    apply List.in_map_iff in Hl as (r & <- & Hr).
    apply List.filter_In in Hr as [Hr _].
    apply Hlabels. apply List.in_map. exact Hr.
Qed.

End Aggregation.

Lemma label_counts_sum_to_total_witness :
  exists report,
    SentimentAnalyzer.analyze Samples.stub_sentiment Samples.three_comments
      = Py.Ok report /\
    SentimentAnalyzer.total_comments (SentimentAnalyzer.overall_stats report)
      = 3%nat /\
    (Spec.label_count
       (SentimentAnalyzer.sentiment_distribution
          (SentimentAnalyzer.overall_stats report)) "Positive"
     + Spec.label_count
         (SentimentAnalyzer.sentiment_distribution
            (SentimentAnalyzer.overall_stats report)) "Negative"
     + Spec.label_count
         (SentimentAnalyzer.sentiment_distribution
            (SentimentAnalyzer.overall_stats report)) "Neutral"
     = SentimentAnalyzer.total_comments (SentimentAnalyzer.overall_stats report))%nat.
Proof.
  destruct (SentimentAnalyzer.analyze Samples.stub_sentiment Samples.three_comments)
    as [report | e] eqn:Hreport; [| vm_compute in Hreport; discriminate].
  exists report. split; [reflexivity |].
  destruct (label_counts_sum_to_total Samples.stub_sentiment
              Samples.three_comments report Hreport) as (Htotal & Hsum & _).
  split; [exact Htotal | exact Hsum].
Defined.

(** ** The keys of the label counts *)

Section Keys.

Import Py Pandas SentimentAnalyzer Spec.

Lemma fold_lower_other (l : list (string * nat)) (acc : gmap string nat) (j : string) :
  (forall kv, In kv l -> lower (fst kv) <> j) ->
  fold_left (fun acc kv => <[lower (fst kv) := snd kv]> acc) l acc !! j = acc !! j.
Proof.
  revert acc. induction l as [| kv l IH]; intros acc Hl; simpl; [reflexivity |].
  rewrite IH by (intros kv' Hin; apply Hl; right; exact Hin).
  apply lookup_insert_ne. apply Hl. left. reflexivity.
Qed.

Lemma fold_lower_key (l : list (string * nat)) (acc : gmap string nat)
  (k : string) (v : nat) :
  NoDup (map (fun kv => lower (fst kv)) l) ->
  In (k, v) l ->
  fold_left (fun acc kv => <[lower (fst kv) := snd kv]> acc) l acc !! lower k
    = Some v.
Proof.
  revert acc. induction l as [| kv l IH]; intros acc Hnd Hin; [destruct Hin |].
  simpl. inversion Hnd as [| ? ? Hnotin Hnd']; subst.
  destruct Hin as [-> | Hin].
  - rewrite fold_lower_other.
    + apply lookup_insert_eq.
    + intros kv' Hin' Heq. apply Hnotin. apply list_elem_of_In.
      simpl in *. rewrite <- Heq.
      apply (List.in_map (fun kv => lower (fst kv))). exact Hin'.
  - apply IH; assumption.
Qed.

Lemma value_counts_key (col : list string) (k : string) (v : nat) :
  value_counts col !! k = Some v -> In k col /\ v = occurrences k col /\ (0 < v)%nat.
Proof.
  rewrite value_counts_lookup. destruct (occurrences k col) as [| n] eqn:Hn;
    [discriminate |].
  intros H. injection H as <-. split; [| split; [reflexivity | lia]].
  destruct (List.in_dec String.string_dec k col) as [Hin | Hout]; [exact Hin |].
  apply occurrences_zero in Hout. congruence.
Qed.

(** The lowercased distribution of a column of the three labels. *)
Lemma lowercase_keys_three (col : list string) :
  Forall three_labels col ->
  let d := value_counts col in
  lowercase_keys d !! "positive" = d !! "Positive" /\
  lowercase_keys d !! "negative" = d !! "Negative" /\
  lowercase_keys d !! "neutral" = d !! "Neutral" /\
  forall j, j <> "positive" -> j <> "negative" -> j <> "neutral" ->
            lowercase_keys d !! j = None.
Proof.
  intros Hcol d. unfold lowercase_keys.
  assert (Hkeys : forall kv, In kv (map_to_list d) -> three_labels (fst kv)).
  { intros [k v] Hin. apply list_elem_of_In, elem_of_map_to_list in Hin.
    apply value_counts_key in Hin as [Hin _].
    rewrite List.Forall_forall in Hcol. apply Hcol. exact Hin. }
  assert (Hnd : NoDup (map (fun kv : string * nat => lower (fst kv)) (map_to_list d))).
  { change (map (fun kv : string * nat => lower (fst kv)) (map_to_list d))
      with ((fun kv : string * nat => lower (fst kv)) <$> map_to_list d).
    apply NoDup_fmap_2_strong; [| apply NoDup_map_to_list].
    intros [k1 v1] [k2 v2] H1 H2 Heq.
    pose proof (Hkeys _ (proj1 (list_elem_of_In _ _) H1)) as T1.
    pose proof (Hkeys _ (proj1 (list_elem_of_In _ _) H2)) as T2.
    apply elem_of_map_to_list in H1, H2. simpl in *.
    assert (k1 = k2).
    { destruct T1 as [-> | [-> | ->]], T2 as [-> | [-> | ->]];
        solve [reflexivity | vm_compute in Heq; discriminate]. }
    subst k2. congruence. }
  assert (Hone : forall k, three_labels k ->
            fold_left (fun acc kv => <[lower (fst kv) := snd kv]> acc)
              (map_to_list d) (∅ : gmap string nat) !! lower k = d !! k).
  { intros k Hk. destruct (d !! k) as [v |] eqn:Hv.
    - apply fold_lower_key; [exact Hnd |].
      apply list_elem_of_In, elem_of_map_to_list. exact Hv.
    - rewrite fold_lower_other; [apply lookup_empty |].
      intros [k' v'] Hin Heq. pose proof (Hkeys _ Hin) as T. simpl in *.
      apply list_elem_of_In, elem_of_map_to_list in Hin.
      assert (k' = k).
      { destruct T as [-> | [-> | ->]], Hk as [-> | [-> | ->]];
          solve [reflexivity | vm_compute in Heq; discriminate]. }
      subst k'. congruence. }
  split; [exact (Hone "Positive" (or_introl eq_refl)) |].
  split; [exact (Hone "Negative" (or_intror (or_introl eq_refl))) |].
  split; [exact (Hone "Neutral" (or_intror (or_intror eq_refl))) |].
  intros j H1 H2 H3. rewrite fold_lower_other; [apply lookup_empty |].
  intros kv Hin Heq. destruct (Hkeys _ Hin) as [T | [T | T]];
    rewrite T in Heq; vm_compute in Heq; congruence.
Qed.

Variable textblob_sentiment : string -> result (Q * Q).

(** C10.  In the report of [analyze], a label is a key of the distribution of
    [get_overall_sentiment] exactly when a record carries it, and its count
    is then the positive number of those records; the summary maps
    ["positive"], ["negative"] and ["neutral"] as the distribution maps the
    capitalised labels and has no other key.  So a label no record carries
    is absent from both mappings, not present with count 0. *)
Theorem zero_count_labels_absent (df : DataFrame CommentRow) (report : Report) :
  analyze textblob_sentiment df = Ok report ->
  let distribution := sentiment_distribution (overall_stats report) in
  let labels := map sentiment (rows (detailed report)) in
  (forall label, distribution !! label = None <-> ~ In label labels) /\
  (forall label c, distribution !! label = Some c ->
     (0 < c)%nat /\ c = occurrences label labels) /\
  summary report !! "positive" = distribution !! "Positive" /\
  summary report !! "negative" = distribution !! "Negative" /\
  summary report !! "neutral" = distribution !! "Neutral" /\
  (forall key c, summary report !! key = Some c ->
     (0 < c)%nat /\ (key = "positive" \/ key = "negative" \/ key = "neutral")).
Proof.
  intros H. apply analyze_inv in H as (Hdet & Hstats & _ & Hsum & _).
  pose proof (analyze_comments_batch_labels _ _ _ Hdet) as Hlabels.
  apply get_overall_sentiment_inv in Hstats as (Hdist & _ & _).
  simpl. rewrite Hsum, Hdist.
  destruct (lowercase_keys_three _ Hlabels) as (Hp & Hn & Hu & Hother).
  split; [| split; [| split; [exact Hp | split; [exact Hn | split; [exact Hu |]]]]].
  - intros label. rewrite value_counts_lookup, <- occurrences_zero.
    destruct (occurrences label _); split; congruence.
  - intros label c Hc. apply value_counts_key in Hc as (_ & -> & Hpos).
    split; [exact Hpos | reflexivity].
  - intros key c Hc.
    destruct (String.string_dec key "positive") as [-> | N1].
    { rewrite Hp in Hc. apply value_counts_key in Hc as (_ & _ & Hpos). auto. }
    destruct (String.string_dec key "negative") as [-> | N2].
    { rewrite Hn in Hc. apply value_counts_key in Hc as (_ & _ & Hpos). auto. }
    destruct (String.string_dec key "neutral") as [-> | N3].
    { rewrite Hu in Hc. apply value_counts_key in Hc as (_ & _ & Hpos). auto. }
    rewrite Hother in Hc by assumption. discriminate.
Qed.

End Keys.

Lemma zero_count_labels_absent_witness :
  exists report,
    SentimentAnalyzer.analyze Samples.stub_sentiment Samples.three_comments
      = Py.Ok report /\
    SentimentAnalyzer.summary report !! "positive"
      = SentimentAnalyzer.sentiment_distribution
          (SentimentAnalyzer.overall_stats report) !! "Positive".
Proof.
  eexists. split; [vm_compute; reflexivity |].
  apply (zero_count_labels_absent Samples.stub_sentiment Samples.three_comments).
  vm_compute. reflexivity.
Defined.

(** ** Stakeholder groups *)

Section Groups.

Import Py Pandas Spec.

Lemma dict_get_set {V : Type} (d : list (string * V)) (k j : string) (v def : V) :
  dict_get (dict_set d k v) j def =
    if String.eqb k j then v else dict_get d j def.
Proof.
  induction d as [| [k' v'] d IH]; simpl.
  - reflexivity.
  - destruct (String.eqb_spec k' k) as [-> | Hne]; simpl.
    + destruct (String.eqb k j); reflexivity.
    + rewrite IH. destruct (String.eqb_spec k' j) as [-> | Hne'];
        [| reflexivity].
      destruct (String.eqb_spec k j) as [-> | _]; [contradiction | reflexivity].
Qed.

(** C6.  The group of a submitter name is the first bucket, in the order
    Legal, Business, Government, Association, that has a keyword the
    lowercased name contains, and Individual when no bucket has one; it is
    one of the five groups, and "Acme Legal Partners" goes to Legal. *)
Theorem stakeholder_group_priority (name : string) :
  TextSummarizer.stakeholder_group (lower name) = bucket_of name /\
  In (TextSummarizer.stakeholder_group (lower name))
    ["Legal"; "Business"; "Government"; "Association"; "Individual"] /\
  (TextSummarizer.stakeholder_group (lower name) = "Individual" <->
   forall bucket, In bucket buckets -> matches (lower name) bucket = false) /\
  TextSummarizer.stakeholder_group (lower "Acme Legal Partners") = "Legal" /\
  TextSummarizer.stakeholder_group (lower "Acme Legal Partners") <> "Business".
Proof.
  split; [| split; [| split; [| split; [reflexivity | discriminate]]]].
  - unfold TextSummarizer.stakeholder_group, bucket_of, buckets, matches. simpl.
    repeat match goal with
           | |- context [contains ?k ?n] =>
               destruct (contains k n); simpl; try reflexivity
           end.
  - unfold TextSummarizer.stakeholder_group.
    repeat match goal with
           | |- context [contains ?k ?n] =>
               destruct (contains k n); simpl; try tauto
           end.
  - unfold TextSummarizer.stakeholder_group, buckets, matches. split.
    + intros H bucket Hin. simpl in Hin.
      destruct Hin as [<- | [<- | [<- | [<- | []]]]]; simpl;
        repeat match type of H with
               | context [contains ?k ?n] =>
                   destruct (contains k n); simpl in H; try discriminate
               end; reflexivity.
    + intros H.
      pose proof (H _ (or_introl eq_refl)) as H1.
      pose proof (H _ (or_intror (or_introl eq_refl))) as H2.
      pose proof (H _ (or_intror (or_intror (or_introl eq_refl)))) as H3.
      pose proof (H _ (or_intror (or_intror (or_intror (or_introl eq_refl))))) as H4.
      simpl in H1, H2, H3, H4.
      repeat match goal with
             | |- context [contains ?k ?n] =>
                 destruct (contains k n); simpl in *; try discriminate
             end.
      reflexivity.
Qed.

(** The loop of [create_stakeholder_summary] adds the result row of a comment
    to the group of its name and to no other group. *)
Lemma group_rows_one_group (comments_columns : list string)
  (comment_rows : list SentimentAnalyzer.CommentRow)
  (sentiments_df : DataFrame SentimentAnalyzer.SentimentRow)
  (groups final : list (string * list SentimentAnalyzer.SentimentRow)) :
  TextSummarizer.group_rows comments_columns comment_rows sentiments_df groups
    = Ok final ->
  forall g, exists added,
    dict_get final g [] = (dict_get groups g [] ++ added)%list /\
    length added =
      length (List.filter
                (fun row => String.eqb
                   (TextSummarizer.stakeholder_group
                      (lower (SentimentAnalyzer.stakeholder_name row))) g)
                comment_rows).
Proof.
  revert groups. induction comment_rows as [| row rest IH]; intros groups H g.
  - simpl in H. injection H as <-. exists []. rewrite app_nil_r. auto.
  - simpl in H.
    apply bind_Ok in H as (name & Hname & H). apply cell_Ok in Hname.
    apply bind_Ok in H as (ids & _ & H).
    apply bind_Ok in H as (id & _ & H).
    apply bind_Ok in H as (sentiment_row & _ & H). subst name.
    destruct (IH _ H g) as (added & Hfinal & Hlen).
    rewrite dict_get_set in Hfinal. simpl.
    destruct (String.eqb _ g) eqn:Hg.
    + exists (sentiment_row :: added). split.
      * rewrite Hfinal. apply String.eqb_eq in Hg. rewrite Hg.
        rewrite <- app_assoc. reflexivity.
      * simpl. rewrite Hlen. reflexivity.
    + exists added. split; [exact Hfinal | exact Hlen].
Qed.

End Groups.

(** ** Words and summaries *)

Section Words.

Import Py Spec.

Lemma append_cons (x : ascii) (a b : string) :
  String x a +:+ b = String x (a +:+ b).
Proof. reflexivity. Qed.

Lemma append_assoc (a b c : string) : (a +:+ b) +:+ c = a +:+ (b +:+ c).
Proof.
  induction a as [| x a IH]; [reflexivity |].
  rewrite !append_cons, IH. reflexivity.
Qed.

Lemma append_empty_r (a : string) : a +:+ "" = a.
Proof.
  induction a as [| x a IH]; [reflexivity |].
  rewrite append_cons, IH. reflexivity.
Qed.

Lemma append_empty_inv (a b : string) : a +:+ b = "" -> a = "".
Proof. destruct a; [reflexivity | rewrite append_cons; discriminate]. Qed.

Lemma no_space_append (a b : string) :
  no_space (a +:+ b) = no_space a && no_space b.
Proof.
  induction a as [| x a IH]; [reflexivity |].
  rewrite append_cons. simpl. rewrite IH. apply andb_assoc.
Qed.

(** Reading a run of non-whitespace characters extends the current word. *)
Lemma split_from_word (w cur s : string) :
  no_space w = true -> split_from cur (w +:+ s) = split_from (cur +:+ w) s.
Proof.
  revert cur. induction w as [| c w IH]; intros cur Hw.
  - rewrite append_empty_r. reflexivity.
  - simpl in Hw. apply andb_prop in Hw as [Hc Hw].
    apply negb_true_iff in Hc. rewrite append_cons. simpl.
    rewrite Hc, (IH _ Hw). unfold snoc.
    rewrite append_assoc. reflexivity.
Qed.

(** Every piece [split] returns is a word. *)
Lemma split_from_words (s cur : string) :
  no_space cur = true -> Forall is_word (split_from cur s).
Proof.
  revert cur. induction s as [| c s IH]; intros cur Hcur; simpl.
  - destruct (String.eqb_spec cur ""); constructor; [| constructor].
    split; assumption.
  - destruct (isspace c) eqn:Hc.
    + destruct (String.eqb_spec cur ""); [apply IH; reflexivity |].
      constructor; [split; assumption | apply IH; reflexivity].
    + apply IH. unfold snoc. rewrite no_space_append, Hcur. simpl.
      rewrite Hc. reflexivity.
Qed.

Lemma split_words (s : string) : Forall is_word (split s).
Proof. apply split_from_words. reflexivity. Qed.

Lemma join_cons (sep w w' : string) (ws : list string) :
  join sep (w :: w' :: ws) = w +:+ sep +:+ join sep (w' :: ws).
Proof. reflexivity. Qed.

(** Words joined by single spaces, with a whitespace-free suffix glued to
    the last of them, split into as many words. *)
Lemma split_join_suffix (ws : list string) (suffix : string) :
  Forall is_word ws -> ws <> [] -> no_space suffix = true ->
  length (split (join " " ws +:+ suffix)) = length ws.
Proof.
  intros Hws Hne Hsuf. unfold split.
  induction Hws as [| w ws [Hw1 Hw2] Hws IH]; [congruence |].
  destruct ws as [| w' ws].
  - simpl join. rewrite <- (append_empty_r (w +:+ suffix)).
    rewrite split_from_word
      by (rewrite no_space_append, Hw2, Hsuf; reflexivity).
    change ("" +:+ w +:+ suffix) with (w +:+ suffix). simpl.
    destruct (String.eqb_spec (w +:+ suffix) "") as [Heq | _];
      [| reflexivity].
    apply append_empty_inv in Heq. contradiction.
  - rewrite join_cons. remember (join " " (w' :: ws)) as rest eqn:Hrest.
    rewrite append_assoc, split_from_word by exact Hw2.
    replace ((" " +:+ rest) +:+ suffix) with (String " " (rest +:+ suffix))
      by reflexivity.
    change ("" +:+ w) with w. simpl split_from.
    destruct (String.eqb_spec w "") as [Heq | _]; [contradiction |].
    simpl length. rewrite IH by discriminate. reflexivity.
Qed.

(** The truncation of lines 29 and 49 leaves at most [max_length] words, or
    the ellipsis alone. *)
Lemma truncated_word_count (ws : list string) (max_length : nat) :
  Forall is_word ws ->
  (length (split (join " " (firstn max_length ws) +:+ "...")) <= max_length + 1)%nat.
Proof.
  intros Hws. destruct (firstn max_length ws) as [| w t] eqn:Ht.
  - simpl. lia.
  - rewrite <- Ht. rewrite split_join_suffix.
    + rewrite length_firstn. lia.
    + apply Forall_take. exact Hws.
    + rewrite Ht. discriminate.
    + reflexivity.
Qed.

(** C9.  [summarize_single_comment] returns the text unchanged when it has
    at most [max_length] words, and otherwise a string of at most
    [max_length + 1] words. *)
Theorem summarize_single_comment_length (text : string) (max_length : nat) :
  ((length (split text) <= max_length)%nat ->
   TextSummarizer.summarize_single_comment text max_length = text) /\
  ((max_length < length (split text))%nat ->
   (length (split (TextSummarizer.summarize_single_comment text max_length))
    <= max_length + 1)%nat).
Proof.
  unfold TextSummarizer.summarize_single_comment. split; intros H.
  - apply Nat.leb_le in H. rewrite H. reflexivity.
  - apply Nat.leb_gt in H. rewrite H.
    destruct (length (split_on "." text) <=? 2)%nat.
    + apply truncated_word_count, split_words.
    + match goal with
      | |- context [(max_length <? length (split ?summary))%nat] =>
          destruct (Nat.ltb_spec max_length (length (split summary)))
      end.
      * apply truncated_word_count, split_words.
      * lia.
Qed.

End Words.

Lemma summarize_single_comment_length_witness :
  (length (Py.split
     (TextSummarizer.summarize_single_comment
        "Cost is high. Cost burden is cost. Nothing else matters here. Really" 5))
   <= 5 + 1)%nat.
Proof.
  apply (summarize_single_comment_length
           "Cost is high. Cost burden is cost. Nothing else matters here. Really" 5).
  vm_compute. lia.
Defined.

(** ** Counters *)

Section Counters.

Import Py Pandas Spec.

Lemma mem_In (w : string) (l : list string) : mem w l = true <-> In w l.
Proof.
  unfold mem. rewrite List.existsb_exists. split.
  - intros (x & Hin & Heq). apply String.eqb_eq in Heq. subst. exact Hin.
  - intros Hin. exists w. split; [exact Hin | apply String.eqb_refl].
Qed.

Lemma mem_app (w : string) (l1 l2 : list string) :
  mem w (l1 ++ l2) = mem w l1 || mem w l2.
Proof. unfold mem. apply List.existsb_app. Qed.

Lemma filter_filter_both {A : Type} (p q : A -> bool) (l : list A) :
  List.filter p (List.filter q l) = List.filter (fun x => q x && p x) l.
Proof.
  induction l as [| x l IH]; simpl; [reflexivity |].
  destruct (q x); simpl; [destruct (p x) |]; rewrite IH; reflexivity.
Qed.

Lemma filter_all {A : Type} (p : A -> bool) (l : list A) :
  (forall x, In x l -> p x = true) -> List.filter p l = l.
Proof.
  induction l as [| x l IH]; simpl; intros H; [reflexivity |].
  rewrite H by (left; reflexivity). rewrite IH; [reflexivity |].
  intros y Hy. apply H. right. exact Hy.
Qed.

Lemma unique_In (w : string) (l : list string) : In w (unique l) <-> In w l.
Proof.
  induction l as [| x l IH]; simpl; [tauto |].
  rewrite List.filter_In, IH. destruct (String.eqb_spec w x) as [-> | Hne].
  - split; [intros _ | intros _]; left; reflexivity.
  - split.
    + intros [Heq | [Hin _]]; [left; exact Heq | right; exact Hin].
    + intros [Heq | Hin]; [left; exact Heq | right; split; [exact Hin |]].
      reflexivity.
Qed.

Lemma unique_NoDup (l : list string) : NoDup (unique l).
Proof.
  induction l as [| x l IH]; simpl; constructor.
  - rewrite list_elem_of_In, List.filter_In. intros [_ H].
    rewrite String.eqb_refl in H. discriminate.
  - apply NoDup_ListNoDup, List.NoDup_filter, NoDup_ListNoDup. exact IH.
Qed.

Lemma dict_set_keys {V : Type} (d : list (string * V)) (k : string) (v : V) :
  map fst (dict_set d k v) =
    if mem k (map fst d) then map fst d else (map fst d ++ [k])%list.
Proof.
  induction d as [| [k' v'] d IH]; simpl; [reflexivity |].
  rewrite (String.eqb_sym k k').
  destruct (String.eqb k' k); simpl; [reflexivity |].
  rewrite IH. destruct (mem k (map fst d)); reflexivity.
Qed.

(** The step of [Counter] on one element. *)
Lemma Counter_get_from (l : list string) (d : list (string * nat)) (w : string) :
  dict_get (fold_left (fun d w => dict_set d w (S (dict_get d w 0%nat))) l d) w 0%nat
    = (dict_get d w 0 + occurrences w l)%nat.
Proof.
  revert d. induction l as [| x l IH]; intros d; simpl.
  - unfold occurrences. simpl. lia.
  - rewrite IH, dict_get_set, occurrences_cons.
    destruct (String.eqb_spec x w) as [-> | Hne].
    + rewrite decide_True by reflexivity. lia.
    + rewrite decide_False by exact Hne. reflexivity.
Qed.

Lemma Counter_keys_from (l : list string) (d : list (string * nat)) :
  map fst (fold_left (fun d w => dict_set d w (S (dict_get d w 0%nat))) l d)
    = (map fst d
       ++ List.filter (fun w => negb (mem w (map fst d))) (unique l))%list.
Proof.
  revert d. induction l as [| x l IH]; intros d; simpl.
  - rewrite app_nil_r. reflexivity.
  - rewrite IH, dict_set_keys. destruct (mem x (map fst d)) eqn:Hx; simpl.
    + f_equal. rewrite filter_filter_both. apply List.filter_ext.
      intros y. destruct (String.eqb_spec y x) as [-> | Hne]; simpl;
        [rewrite Hx |]; reflexivity.
    + rewrite <- app_assoc. simpl. do 2 f_equal.
      rewrite filter_filter_both. apply List.filter_ext.
      intros y. rewrite mem_app. simpl. rewrite orb_false_r.
      destruct (String.eqb y x), (mem y (map fst d)); reflexivity.
Qed.

Lemma dict_of_keys (d : list (string * nat)) :
  NoDup (map fst d) ->
  d = map (fun w => (w, dict_get d w 0%nat)) (map fst d).
Proof.
  induction d as [| [k v] d IH]; intros Hnd; [reflexivity |].
  simpl in *. inversion Hnd as [| ? ? Hnotin Hnd']; subst.
  rewrite String.eqb_refl. f_equal.
  rewrite (IH Hnd') at 1. apply List.map_ext_in.
  intros w Hw. destruct (String.eqb_spec k w) as [-> | _]; [| reflexivity].
  exfalso. apply Hnotin. apply list_elem_of_In. exact Hw.
Qed.

(** [Counter(l)] lists the distinct elements of [l] in order of first
    occurrence, each with the number of its occurrences. *)
Lemma Counter_unique (l : list string) :
  Counter l = map (fun w => (w, occurrences w l)) (unique l).
Proof.
  assert (Hkeys : map fst (Counter l) = unique l).
  { unfold Counter. rewrite Counter_keys_from. simpl.
    apply filter_all. reflexivity. }
  rewrite (dict_of_keys (Counter l)) by (rewrite Hkeys; apply unique_NoDup).
  rewrite Hkeys. apply List.map_ext. intros w.
  unfold Counter. rewrite Counter_get_from. reflexivity.
Qed.

Lemma max_value_upper (d : list (string * nat)) (k : string) (v : nat) :
  In (k, v) d -> (v <= TextSummarizer.max_value d)%nat.
Proof.
  unfold TextSummarizer.max_value.
  induction d as [| [k' v'] d IH]; simpl; [tauto |].
  intros [Heq | Hin]; [injection Heq as -> -> | apply IH in Hin]; lia.
Qed.

Lemma max_value_attained (d : list (string * nat)) :
  d <> [] -> exists k, In (k, TextSummarizer.max_value d) d.
Proof.
  unfold TextSummarizer.max_value.
  induction d as [| [k v] d IH]; [congruence |]. intros _. simpl.
  destruct d as [| kv d].
  - exists k. left. simpl. rewrite Nat.max_0_r. reflexivity.
  - destruct IH as [k' Hk']; [discriminate |].
    destruct (Nat.max_spec v (fold_right Nat.max 0%nat (map snd (kv :: d))))
      as [[_ ->] | [_ ->]].
    + exists k'. right. exact Hk'.
    + exists k. left. reflexivity.
Qed.

End Counters.

(** ** Word frequencies *)

Section Frequencies.

Import Py Pandas Spec.

Lemma Counter_In (l : list string) (w : string) (c : nat) :
  In (w, c) (Counter l) <-> In w l /\ c = occurrences w l.
Proof.
  rewrite Counter_unique, List.in_map_iff. split.
  - intros (w' & Heq & Hin). injection Heq as -> ->.
    apply (proj1 (unique_In _ _)) in Hin. split; [exact Hin | reflexivity].
  - intros [Hin ->]. exists w. split; [reflexivity | apply unique_In; exact Hin].
Qed.

Lemma Counter_NoDup (l : list string) : NoDup (map fst (Counter l)).
Proof.
  rewrite Counter_unique, List.map_map. simpl. rewrite List.map_id.
  apply unique_NoDup.
Qed.

Lemma of_nat_nonzero (n : nat) : n <> 0%nat -> ~ (of_nat n == 0)%Q.
Proof.
  intros Hn H. unfold of_nat, Qeq in H. simpl in H. lia.
Qed.

Lemma div_self (n : nat) : n <> 0%nat -> div (of_nat n) (of_nat n) = 1%Q.
Proof.
  intros Hn. unfold div. rewrite (Qred_complete _ 1%Q); [reflexivity |].
  apply Qmult_inv_r. apply of_nat_nonzero. exact Hn.
Qed.

Lemma lower_char_space (c : ascii) : isspace c = true -> lower_char c = c.
Proof.
  destruct c as [[] [] [] [] [] [] [] []]; vm_compute; congruence.
Qed.

(** A text of whitespace only has no word left after the cleaning. *)
Lemma whitespace_only_no_word (text : string) :
  whitespace_only text = true -> split (sub_non_alpha (lower text)) = [].
Proof.
  unfold split. induction text as [| c text IH]; simpl; [reflexivity |].
  intros H. apply andb_prop in H as [Hc Htext].
  rewrite (lower_char_space c Hc), Hc, orb_true_r. simpl. rewrite Hc.
  apply IH. exact Htext.
Qed.

(** C8.  [_get_word_frequency] maps each qualifying word of the text (not a
    stop word, longer than two characters) to its number of occurrences
    divided by the largest number of occurrences of any such word, and has no
    other key; a most frequent word has the weight 1 exactly; for a text of
    whitespace only, the empty text included, the mapping is empty. *)
Theorem word_frequency_weights (text : string) :
  let words := TextSummarizer.frequency_words text in
  let word_freq := TextSummarizer._get_word_frequency text in
  (forall w, In w words ->
     mem w TextSummarizer.stop_words = false /\ (2 < Py.len w)%nat) /\
  (exists max_count : nat,
     (forall w, In w words -> (occurrences w words <= max_count)%nat) /\
     (words <> [] ->
      exists w, In w words /\ occurrences w words = max_count /\
                In (w, 1%Q) word_freq) /\
     (forall w, In w words -> exists q, In (w, q) word_freq) /\
     (forall w q, In (w, q) word_freq ->
        In w words /\
        (q == of_nat (occurrences w words) / of_nat max_count)%Q)) /\
  NoDup (map fst word_freq) /\
  (whitespace_only text = true -> word_freq = []).
Proof.
  intros words word_freq.
  split; [| split; [| split]].
  - intros w Hw. unfold words, TextSummarizer.frequency_words in Hw.
    apply List.filter_In in Hw as [_ Hw]. apply andb_prop in Hw as [Hs Hl].
    apply negb_true_iff in Hs. apply Nat.ltb_lt in Hl. split; assumption.
  - unfold word_freq, TextSummarizer._get_word_frequency. fold words.
    set (max_freq := match Counter words with
                     | [] => 1%nat
                     | _ :: _ => TextSummarizer.max_value (Counter words)
                     end).
    exists max_freq.
    assert (Hmax : Counter words <> [] ->
                   max_freq = TextSummarizer.max_value (Counter words)).
    { unfold max_freq. destruct (Counter words); [congruence | reflexivity]. }
    assert (Hne : forall w, In w words -> Counter words <> []).
    { intros w Hw Hnil. assert (Hin : In (w, occurrences w words) (Counter words))
        by (apply Counter_In; auto).
      rewrite Hnil in Hin. destruct Hin. }
    split; [| split; [| split]].
    + intros w Hw. rewrite (Hmax (Hne w Hw)).
      apply (max_value_upper _ w). apply Counter_In. auto.
    + intros Hwords. destruct words as [| w0 rest] eqn:Hw0; [congruence |].
      assert (Hc : Counter (w0 :: rest) <> [])
        by (apply (Hne w0); left; reflexivity).
      destruct (max_value_attained _ Hc) as [k Hk].
      pose proof Hk as Hk'. apply (proj1 (Counter_In _ _ _)) in Hk' as [Hin Hocc].
      rewrite <- (Hmax Hc) in Hk, Hocc.
      exists k. split; [exact Hin | split; [symmetry; exact Hocc |]].
      apply List.in_map_iff. exists (k, max_freq). split; [| exact Hk].
      simpl. f_equal. apply div_self.
      rewrite Hocc. intros Hz. apply (proj1 (occurrences_zero _ _)) in Hz.
      contradiction.
    + intros w Hw. eexists. apply List.in_map_iff.
      exists (w, occurrences w words). split; [reflexivity |].
      apply Counter_In. auto.
    + intros w q Hin. apply List.in_map_iff in Hin as ([w' c] & Heq & Hin).
      simpl in Heq. injection Heq as -> <-.
      apply (proj1 (Counter_In _ _ _)) in Hin as [Hin ->].
      split; [exact Hin | apply div_eq].
  - unfold word_freq, TextSummarizer._get_word_frequency.
    rewrite List.map_map. simpl. apply Counter_NoDup.
  - intros Hws. unfold word_freq, TextSummarizer._get_word_frequency,
      TextSummarizer.frequency_words.
    rewrite (whitespace_only_no_word text Hws). reflexivity.
Qed.

End Frequencies.

Lemma word_frequency_weights_witness :
  TextSummarizer._get_word_frequency "   " = [] /\
  In ("cost", 1%Q) (TextSummarizer._get_word_frequency "Cost is high. Cost burden").
Proof.
  split.
  - apply (word_frequency_weights "   "). reflexivity.
  - vm_compute. auto.
Defined.

(** ** Sorting and the top keywords *)

Section Insertion.

Import Py.

Lemma insert_desc_In {A : Type} (gt : A -> A -> bool) (x z : A) (s : list A) :
  In z (insert_desc gt x s) <-> z = x \/ In z s.
Proof.
  induction s as [| y s IH]; simpl.
  - split; intros [H | H]; auto.
  - destruct (gt y x); simpl.
    + rewrite IH. split.
      * intros [H | [H | H]]; auto.
      * intros [H | [H | H]]; auto.
    + split.
      * intros [H | [H | H]]; auto.
      * intros [H | [H | H]]; auto.
Qed.

Lemma sorted_desc_In {A : Type} (gt : A -> A -> bool) (z : A) (l : list A) :
  In z (sorted_desc gt l) <-> In z l.
Proof.
  induction l as [| x l IH]; simpl; [tauto |].
  rewrite insert_desc_In, IH. split; intros [H | H]; auto.
Qed.

End Insertion.

Section Sorting.

Import Py Pandas Spec.

Context {A : Type} (key : A -> nat).

Lemma before_cons (l : list A) (x a b : A) :
  before l a b -> before (x :: l) a b.
Proof.
  intros (i & j & Hij & Hi & Hj). exists (S i), (S j).
  split; [lia | split; assumption].
Qed.

Lemma before_head (l : list A) (x z : A) : In z l -> before (x :: l) x z.
Proof.
  intros Hin. apply list_elem_of_In, list_elem_of_lookup in Hin as [k Hk].
  exists 0%nat, (S k). split; [lia | split; [reflexivity | exact Hk]].
Qed.

Lemma insert_desc_ranked (L s : list A) (x : A) :
  StronglySorted (ranked key L) s ->
  (forall z, In z s -> (key z <= key x)%nat -> ranked key L x z) ->
  StronglySorted (ranked key L) (insert_desc (fun a b => (key b <? key a)%nat) x s).
Proof.
  intros Hs Hx. induction Hs as [| y s Hs IH Hy]; simpl.
  - repeat constructor.
  - destruct (Nat.ltb_spec (key x) (key y)) as [Hlt | Hge].
    + constructor.
      * apply IH. intros z Hz. apply Hx. right. exact Hz.
      * apply List.Forall_forall. intros z Hz.
        apply insert_desc_In in Hz as [-> | Hz].
        -- left. exact Hlt.
        -- rewrite List.Forall_forall in Hy. apply Hy. exact Hz.
    + constructor; [constructor; assumption |].
      apply List.Forall_forall. intros z [<- | Hz].
      * apply Hx; [left; reflexivity | exact Hge].
      * apply Hx; [right; exact Hz |].
        rewrite List.Forall_forall in Hy.
        destruct (Hy z Hz) as [Hlt | [Heq _]]; lia.
Qed.

(** A stable descending sort: larger keys first, and equal keys in the
    order of the input. *)
Lemma sorted_desc_stable (l : list A) :
  StronglySorted (ranked key l) (sorted_desc (fun a b => (key b <? key a)%nat) l).
Proof.
  induction l as [| x l IH]; simpl; [constructor |].
  apply insert_desc_ranked.
  - clear -IH. induction IH as [| y s Hs IHs Hy]; constructor; [exact IHs |].
    eapply List.Forall_impl; [| exact Hy]. intros z [Hlt | [Heq Hb]].
    + left. exact Hlt.
    + right. split; [exact Heq | apply before_cons; exact Hb].
  - intros z Hz Hle. apply sorted_desc_In in Hz.
    destruct (Nat.eq_dec (key z) (key x)) as [Heq | Hne].
    + right. split; [symmetry; exact Heq | apply before_head; exact Hz].
    + left. lia.
Qed.

Lemma StronglySorted_lookup (R : A -> A -> Prop) (l : list A) (i j : nat) (a b : A) :
  StronglySorted R l -> (i < j)%nat ->
  l !! i = Some a -> l !! j = Some b -> R a b.
Proof.
  intros Hs. revert i j. induction Hs as [| y s Hs IH Hy]; intros i j Hij Hi Hj.
  - discriminate.
  - destruct j as [| j]; [lia |]. simpl in Hj. destruct i as [| i].
    + simpl in Hi. injection Hi as ->.
      rewrite List.Forall_forall in Hy. apply Hy.
      apply list_elem_of_In. eapply list_elem_of_lookup_2. exact Hj.
    + simpl in Hi. apply (IH i j); [lia | assumption | assumption].
Qed.

Lemma before_filter (p : A -> bool) (l : list A) (a b : A) :
  before (List.filter p l) a b -> before l a b.
Proof.
  induction l as [| x l IH]; simpl; intros H.
  - destruct H as (i & j & _ & Hi & _). discriminate.
  - destruct (p x); [| apply before_cons, IH, H].
    destruct H as (i & j & Hij & Hi & Hj).
    destruct j as [| j]; [lia |]. simpl in Hj. destruct i as [| i].
    + simpl in Hi. injection Hi as ->. apply before_head.
      apply list_elem_of_lookup_2, list_elem_of_In, List.filter_In in Hj.
      apply Hj.
    + simpl in Hi. apply before_cons, IH. exists i, j.
      split; [lia | split; assumption].
Qed.

End Sorting.

Section TopKeywords.

Import Py Pandas Spec.

Lemma before_map {A B : Type} (f : A -> B) (l : list A) (a b : B) :
  before (map f l) a b ->
  exists x y, a = f x /\ b = f y /\ before l x y.
Proof.
  intros (i & j & Hij & Hi & Hj).
  change (map f l) with (f <$> l) in Hi, Hj.
  rewrite list_lookup_fmap in Hi, Hj.
  destruct (l !! i) as [x |] eqn:Hx; [| discriminate].
  destruct (l !! j) as [y |] eqn:Hy; [| discriminate].
  simpl in Hi, Hj. injection Hi as <-. injection Hj as <-.
  exists x, y. split; [reflexivity | split; [reflexivity |]].
  exists i, j. auto.
Qed.

Lemma first_index_cons_ne (x w : string) (l : list string) :
  String.eqb w x = false -> first_index w (x :: l) = S (first_index w l).
Proof.
  intros H. simpl. rewrite String.eqb_sym, H. reflexivity.
Qed.

(** The order of [unique] is the order of the first occurrences. *)
Lemma before_unique (l : list string) (w1 w2 : string) :
  before (unique l) w1 w2 -> (first_index w1 l < first_index w2 l)%nat.
Proof.
  induction l as [| x l IH]; simpl unique; intros (i & j & Hij & Hi & Hj).
  - discriminate.
  - destruct j as [| j]; [lia |]. simpl in Hj.
    assert (H2 : String.eqb w2 x = false).
    { apply list_elem_of_lookup_2, list_elem_of_In, List.filter_In in Hj.
      apply negb_true_iff, Hj. }
    rewrite (first_index_cons_ne x w2 l H2). destruct i as [| i].
    + simpl in Hi. injection Hi as ->. simpl. rewrite String.eqb_refl. lia.
    + simpl in Hi.
      assert (H1 : String.eqb w1 x = false).
      { apply list_elem_of_lookup_2, list_elem_of_In, List.filter_In in Hi.
        apply negb_true_iff, Hi. }
      rewrite (first_index_cons_ne x w1 l H1).
      apply -> Nat.succ_lt_mono. apply IH.
      apply (before_filter (fun y => negb (String.eqb y x))).
      exists i, j. split; [lia | split; assumption].
Qed.

(** C7.  [extract_keywords(text, n)] returns at most [n] pairs; of two
    returned pairs the earlier has the larger count or, at equal counts, the
    word met first in the text; every returned word is a word of the cleaned
    text that is no stop word and has more than three characters, paired
    with the number of its occurrences, and no word is returned twice. *)
Theorem extract_keywords_top (text : string) (n : nat) :
  let top := SentimentAnalyzer.extract_keywords text n in
  let words := SentimentAnalyzer.keywords text in
  (length top <= n)%nat /\
  (forall i j a b, (i < j)%nat -> top !! i = Some a -> top !! j = Some b ->
     (snd b < snd a)%nat \/
     (snd a = snd b /\
      (first_index (fst a) words < first_index (fst b) words)%nat)) /\
  (forall w c, In (w, c) top ->
     mem w SentimentAnalyzer.stop_words = false /\ (3 < Py.len w)%nat /\
     In w (split (sub_non_alpha (lower text))) /\
     c = occurrences w words /\ (0 < c)%nat) /\
  NoDup (map fst top).
Proof.
  intros top words.
  unfold top, SentimentAnalyzer.extract_keywords, most_common. fold words.
  pose proof (sorted_desc_stable (@snd string nat) (Counter words)) as Hsorted.
  set (sorted := sorted_desc (fun a b : string * nat => (snd b <? snd a)%nat)
                   (Counter words)) in *.
  assert (Hin : forall w c, In (w, c) (firstn n sorted) ->
                            In w words /\ c = occurrences w words).
  { intros w c H. apply Counter_In.
    apply (proj1 (sorted_desc_In (fun a b : string * nat => (snd b <? snd a)%nat)
                    (w, c) (Counter words))).
    fold sorted.
    apply list_elem_of_In. apply list_elem_of_In in H.
    apply elem_of_take in H as (i & Hi & _).
    eapply list_elem_of_lookup_2. exact Hi. }
  split; [apply List.firstn_le_length |]. split; [| split].
  - intros i j a b Hij Hi Hj.
    apply lookup_take_Some in Hi as [Hi _]. apply lookup_take_Some in Hj as [Hj _].
    destruct (StronglySorted_lookup _ _ _ _ _ _ Hsorted Hij Hi Hj)
      as [Hlt | [Heq Hb]]; [left; exact Hlt | right].
    split; [exact Heq |].
    rewrite Counter_unique in Hb.
    apply before_map in Hb as (x & y & -> & -> & Hb). simpl.
    apply before_unique. exact Hb.
  - intros w c H. destruct (Hin w c H) as [Hw ->].
    pose proof Hw as Hw'. unfold words, SentimentAnalyzer.keywords in Hw'.
    apply List.filter_In in Hw' as [Hsplit Hq].
    apply andb_prop in Hq as [Hs Hl]. apply negb_true_iff in Hs.
    apply Nat.ltb_lt in Hl. repeat split; try assumption.
    destruct (occurrences w words) eqn:Ho; [| lia].
    apply (proj1 (occurrences_zero _ _)) in Ho. contradiction.
  - assert (Hnd : NoDup (map fst sorted)).
    { unfold sorted. clear Hsorted Hin.
      pose proof (Counter_NoDup words) as Hc.
      induction (Counter words) as [| kv d IH]; simpl; [constructor |].
      simpl in Hc. inversion Hc as [| ? ? Hnotin Hc']; subst.
      specialize (IH Hc').
      assert (Hfresh : ~ In (fst kv)
                (map fst (sorted_desc
                   (fun a b : string * nat => (snd b <? snd a)%nat) d))).
      { intros Hk. apply Hnotin. apply list_elem_of_In.
        apply List.in_map_iff in Hk as (kv' & Heq & Hk).
        apply (proj1 (sorted_desc_In _ _ _)) in Hk. rewrite <- Heq.
        apply List.in_map. exact Hk. }
      revert IH Hfresh.
      generalize (sorted_desc (fun a b : string * nat => (snd b <? snd a)%nat) d).
      intros s. induction s as [| y s IHs]; simpl; intros Hs Hfresh.
      - constructor; [rewrite list_elem_of_In; exact Hfresh | constructor].
      - inversion Hs as [| ? ? Hy Hs']; subst.
        destruct (snd kv <? snd y)%nat; simpl.
        + constructor.
          * rewrite list_elem_of_In, List.in_map_iff.
            intros (kv' & Heq & Hk).
            apply (proj1 (insert_desc_In _ _ _ _)) in Hk as [-> | Hk].
            -- apply Hfresh. left. symmetry. exact Heq.
            -- apply Hy. rewrite list_elem_of_In, <- Heq.
               apply List.in_map. exact Hk.
          * apply IHs; [exact Hs' |]. intros Hk. apply Hfresh. right. exact Hk.
        + constructor; [rewrite list_elem_of_In; exact Hfresh |].
          constructor; assumption. }
    clear -Hnd. change (map fst (firstn n sorted)) with (fst <$> take n sorted).
    rewrite fmap_take. eapply sublist_NoDup; [exact Hnd | apply sublist_take].
Qed.

End TopKeywords.

(** ** Sample runs *)

(** The three comments of the specification's scenario, scored by the
    stand-in library: the labels in input order. *)
Example three_comments_labels :
  exists detailed,
    SentimentAnalyzer.analyze_comments_batch Samples.stub_sentiment
      Samples.three_comments = Py.Ok detailed /\
    map SentimentAnalyzer.sentiment (Pandas.rows detailed)
      = ["Positive"; "Negative"; "Neutral"].
Proof. eexists. split; reflexivity. Qed.

(** An empty batch through [analyze]: the results table has no column and
    the first column access raises. *)
Example analyze_no_comments :
  SentimentAnalyzer.analyze Samples.stub_sentiment Samples.no_comments
    = Py.Raise (Py.KeyError "sentiment").
Proof. reflexivity. Qed.

Example extract_keywords_sample :
  SentimentAnalyzer.extract_keywords
    "The cost, the COST! burden of cost-burden is what it is for business" 2
    = [("cost", 2%nat); ("burden", 1%nat)].
Proof. vm_compute. reflexivity. Qed.

Example summarize_single_comment_sample :
  TextSummarizer.summarize_single_comment
    "Cost is high. Cost burden is cost. Nothing else matters here. Really" 5
    = "Cost burden is cost. Cost...".
Proof. vm_compute. reflexivity. Qed.

Example split_sample : Py.split "  ab  c d " = ["ab"; "c"; "d"].
Proof. reflexivity. Qed.

Example most_common_sample :
  Py.most_common [("x", 1); ("b", 3); ("a", 2); ("c", 3); ("d", 2)]%nat 4
    = [("b", 3); ("c", 3); ("a", 2); ("d", 2)]%nat.
Proof. reflexivity. Qed.

Example round_sample :
  Py.round (1 # 6) 3 = (167 # 1000)%Q /\ Py.round (5 # 10000) 3 = 0%Q /\
  Py.round (15 # 10000) 3 = (1 # 500)%Q.
Proof. vm_compute. auto. Qed.

(** * Further properties *)

(** ** The report of [analyze] *)

Section Report.

Import Py Pandas SentimentAnalyzer Spec.

Lemma for_each_total {A B : Type} (f : A -> result B) (l : list A) :
  (forall x, In x l -> exists y, f x = Ok y) ->
  exists ys, for_each f l = Ok ys /\ length ys = length l.
Proof.
  induction l as [| x l IH]; intros H; simpl.
  - exists []. split; reflexivity.
  - destruct (H x (or_introl eq_refl)) as [y Hy].
    destruct IH as (ys & Hys & Hlen); [intros z Hz; apply H; right; exact Hz |].
    rewrite Hy, Hys. simpl. exists (y :: ys). split; [reflexivity |].
    simpl. rewrite Hlen. reflexivity.
Qed.

Lemma for_each_keys {A B : Type} (f : A -> result (A * B)) (l : list A)
  (ys : list (A * B)) :
  (forall x y, f x = Ok y -> fst y = x) ->
  for_each f l = Ok ys -> map fst ys = l.
Proof.
  intros Hkey H. apply for_each_Ok in H.
  induction H as [| x y l ys Hxy _ IH]; simpl; [reflexivity |].
  rewrite (Hkey x y Hxy), IH. reflexivity.
Qed.

Lemma occurrences_map_filter {R : Type} (field : R -> string) (k : string)
  (l : list R) :
  occurrences k (map field l)
    = length (List.filter (fun r => String.eqb (field r) k) l).
Proof.
  unfold occurrences. induction l as [| r l IH]; simpl; [reflexivity |].
  destruct (String.eqb (field r) k); simpl; rewrite IH; reflexivity.
Qed.

(** The sum of the values of a dictionary. *)
Lemma sum_dict_set (d : list (string * nat)) (w : string) :
  list_sum (map snd (dict_set d w (S (dict_get d w 0%nat))))
    = S (list_sum (map snd d)).
Proof.
  induction d as [| [k v] d IH]; simpl; [reflexivity |].
  destruct (String.eqb k w); simpl; [reflexivity |].
  rewrite IH. lia.
Qed.

Lemma sum_Counter (l : list string) : list_sum (map snd (Counter l)) = length l.
Proof.
  unfold Counter.
  assert (H : forall d,
    list_sum (map snd (fold_left
       (fun d w => dict_set d w (S (dict_get d w 0%nat))) l d))
    = (list_sum (map snd d) + length l)%nat).
  { induction l as [| x l IH]; intros d; simpl; [lia |].
    rewrite IH, sum_dict_set. lia. }
  rewrite H. reflexivity.
Qed.

(** The occurrences of the distinct values of a column add up to its
    length. *)
Lemma sum_occurrences_unique (col : list string) :
  list_sum (map (fun w => occurrences w col) (unique col)) = length col.
Proof.
  rewrite <- (sum_Counter col), Counter_unique, List.map_map. reflexivity.
Qed.

Variable textblob_sentiment : string -> result (Q * Q).

(** X1.  On a batch that has the four columns the loop of
    [analyze_comments_batch] reads of every row (lines 57-63), that has a row
    and whose texts the library all scores, [analyze] raises nothing: it
    returns a report whose detailed table has one row per comment, in the
    order of the input.  A row of the embedding carries the four fields; the
    hypotheses on the columns say that the table has them, without which
    [row['comment_text']] and the like raise [KeyError]. *)
Theorem analyze_succeeds (df : DataFrame CommentRow) :
  mem "comment_id" (columns df) = true ->
  mem "stakeholder_name" (columns df) = true ->
  mem "comment_text" (columns df) = true ->
  mem "provision_reference" (columns df) = true ->
  rows df <> [] ->
  Forall (fun row => exists v, textblob_sentiment (comment_text row) = Ok v)
    (rows df) ->
  exists report,
    analyze textblob_sentiment df = Ok report /\
    map comment (rows (detailed report)) = rows df.
Proof.
  intros _ _ _ _ Hne Hall.
  destruct (analyze_comments_batch_total textblob_sentiment df Hall)
    as (det & Hdet & Hmap).
  destruct (analyze_comments_batch_Ok textblob_sentiment df det Hdet) as [_ Hof].
  assert (Hrows : rows det <> []).
  { intros Hnil. rewrite Hnil in Hmap. simpl in Hmap. congruence. }
  assert (Hcols : columns det = result_columns).
  { rewrite Hof. apply of_records_columns. exact Hrows. }
  destruct (get_overall_sentiment_Ok det Hrows) as (stats & Hstats & _);
    [rewrite Hcols; reflexivity | rewrite Hcols; reflexivity |].
  assert (Hcol : forall (A : Type) (keep : SentimentRow -> bool) (name : string)
                        (field : SentimentRow -> A),
            mem name result_columns = true ->
            column (select keep det) name field
              = Ok (map field (List.filter keep (rows det)))).
  { intros A keep name field Hmem. unfold column, select. simpl.
    rewrite Hcols, Hmem. reflexivity. }
  assert (Hprov : exists prov, get_provision_wise_sentiment det = Ok prov).
  { unfold get_provision_wise_sentiment, column at 1. rewrite Hcols. simpl.
    destruct (for_each_total
      (fun provision =>
         bind (column (select (fun r => String.eqb
                         (provision_reference (comment r)) provision) det)
                 "polarity_score" polarity_score) (fun scores =>
         bind (column (select (fun r => String.eqb
                         (provision_reference (comment r)) provision) det)
                 "sentiment" sentiment) (fun labels =>
         Ok (provision,
             mkProvisionStats
               (Pandas.len (select (fun r => String.eqb
                               (provision_reference (comment r)) provision) det))
               (round_nan (mean scores) 3) (value_counts labels)))))
      (unique (map (fun r => provision_reference (comment r)) (rows det))))
      as (prov & Hprov & _).
    - intros p _. rewrite !Hcol by reflexivity. simpl. eexists. reflexivity.
    - exists prov. exact Hprov. }
  destruct Hprov as (prov & Hprov).
  assert (Hex : exists report,
            analyze textblob_sentiment df = Ok report /\ detailed report = det).
  { unfold analyze. rewrite Hdet. cbn [bind]. rewrite Hstats. cbn [bind].
    rewrite Hprov. cbn [bind]. unfold column at 1. rewrite Hcols.
    change (mem "stakeholder_name" result_columns) with true. cbv iota.
    cbn [bind].
    match goal with
    | |- context [for_each ?f ?l] =>
        destruct (for_each_total f l) as (stake & Hs & _)
    end.
    - intros st _. unfold count_eq. rewrite !Hcol by reflexivity.
      cbn [bind]. eexists. reflexivity.
    - rewrite Hs. cbn [bind]. eexists. split; reflexivity. }
  destruct Hex as (report & Hreport & Hdetailed).
  exists report. split; [exact Hreport |]. rewrite Hdetailed. exact Hmap.
Qed.

(** X2.  A results table [analyze_comments_batch] returns has one row per
    comment in input order; each row copies its comment and holds the
    library's polarity and subjectivity rounded to three decimals, with the
    label of the polarity as the library gave it, before rounding. *)
Theorem analyze_comments_batch_rows (df : DataFrame CommentRow)
  (detailed : DataFrame SentimentRow) :
  analyze_comments_batch textblob_sentiment df = Ok detailed ->
  map comment (rows detailed) = rows df /\
  Forall (fun res =>
            exists p s,
              textblob_sentiment (comment_text (comment res)) = Ok (p, s) /\
              sentiment res = classify p /\
              polarity_score res = round p 3 /\
              subjectivity_score res = round s 3)
    (rows detailed).
Proof.
  intros H. apply analyze_comments_batch_Ok in H as [H _].
  induction H as [| row res l l' (v & Hv & ->) _ [IH1 IH2]]; simpl.
  - split; constructor.
  - split; [rewrite IH1; reflexivity |]. constructor; [| exact IH2].
    destruct v as [p s]. exists p, s. simpl. auto.
Qed.

(** X3.  In a report of [analyze], the keys of [by_provision] are the
    distinct provisions in order of first appearance, the keys of
    [by_stakeholder] the distinct stakeholders likewise, and both the counts
    of the provisions and the totals of the stakeholders add up to the
    number of comments. *)
Theorem groups_partition_comments (df : DataFrame CommentRow) (report : Report) :
  analyze textblob_sentiment df = Ok report ->
  map fst (by_provision report) = unique (map provision_reference (rows df)) /\
  map fst (by_stakeholder report) = unique (map stakeholder_name (rows df)) /\
  list_sum (map (fun kv => count (snd kv)) (by_provision report))
    = length (rows df) /\
  list_sum (map (fun kv => total (snd kv)) (by_stakeholder report))
    = length (rows df).
Proof.
  intros H. pose proof (analyze_inv _ _ _ H) as (Hdet & _ & Hprov & _ & Hstake).
  assert (Hmap : map comment (rows (detailed report)) = rows df).
  { apply analyze_comments_batch_Ok in Hdet as [HF _]. clear -HF.
    induction HF as [| row res l l' (v & _ & ->) _ IH]; simpl;
      [reflexivity | rewrite IH; reflexivity]. }
  assert (Hpcol : map (fun r => provision_reference (comment r))
                    (rows (detailed report))
                  = map provision_reference (rows df))
    by (rewrite <- Hmap, List.map_map; reflexivity).
  assert (Hscol : map (fun r => stakeholder_name (comment r))
                    (rows (detailed report))
                  = map stakeholder_name (rows df))
    by (rewrite <- Hmap, List.map_map; reflexivity).
  assert (Hpkeys : map fst (by_provision report)
                   = unique (map provision_reference (rows df))).
  { pose proof Hprov as Hp. unfold get_provision_wise_sentiment in Hp.
    apply bind_Ok in Hp as (provs & Hprovs & Hp).
    apply column_Ok in Hprovs. rewrite Hpcol in Hprovs. subst provs.
    eapply for_each_keys; [| exact Hp]. simpl. intros x y Hxy.
    apply bind_Ok in Hxy as (? & _ & Hxy). apply bind_Ok in Hxy as (? & _ & Hxy).
    injection Hxy as <-. reflexivity. }
  assert (Hskeys : map fst (by_stakeholder report)
                   = unique (map stakeholder_name (rows df))).
  { clear Hstake Hprov Hpkeys. unfold analyze in H.
    apply bind_Ok in H as (det & Hdet' & H).
    rewrite Hdet in Hdet'. injection Hdet' as <-.
    apply bind_Ok in H as (stats & _ & H). apply bind_Ok in H as (prov & _ & H).
    apply bind_Ok in H as (names & Hnames & H).
    apply column_Ok in Hnames. rewrite Hscol in Hnames. subst names.
    apply bind_Ok in H as (stake & Hs & H).
    assert (Hrep : by_stakeholder report = stake) by (injection H as <-; reflexivity).
    rewrite Hrep. eapply for_each_keys; [| exact Hs]. simpl. intros x y Hxy.
    apply bind_Ok in Hxy as (? & _ & Hxy). apply bind_Ok in Hxy as (? & _ & Hxy).
    apply bind_Ok in Hxy as (? & _ & Hxy). injection Hxy as <-. reflexivity. }
  split; [exact Hpkeys |]. split; [exact Hskeys |]. split.
  - rewrite <- (length_map provision_reference (rows df)).
    rewrite <- (sum_occurrences_unique (map provision_reference (rows df))).
    rewrite <- Hpkeys, List.map_map. f_equal. apply List.map_ext_in.
    intros [p e] Hin. simpl.
    destruct (get_provision_wise_sentiment_inv _ _ p e Hprov Hin) as [Hc _].
    rewrite Hc, <- Hpcol. symmetry.
    apply (occurrences_map_filter (fun r => provision_reference (comment r))).
  - rewrite <- (length_map stakeholder_name (rows df)).
    rewrite <- (sum_occurrences_unique (map stakeholder_name (rows df))).
    rewrite <- Hskeys, List.map_map. f_equal. apply List.map_ext_in.
    intros [st e] Hin. simpl.
    destruct (Hstake st e Hin) as (_ & _ & _ & Ht).
    rewrite Ht, length_map, <- Hscol. symmetry.
    apply (occurrences_map_filter (fun r => stakeholder_name (comment r))).
Qed.

End Report.

Lemma analyze_succeeds_witness :
  exists report,
    SentimentAnalyzer.analyze Samples.stub_sentiment Samples.three_comments
      = Py.Ok report /\
    map SentimentAnalyzer.comment (Pandas.rows (SentimentAnalyzer.detailed report))
      = Pandas.rows Samples.three_comments.
Proof.
  apply (analyze_succeeds Samples.stub_sentiment Samples.three_comments).
  - reflexivity.
  - reflexivity.
  - reflexivity.
  - reflexivity.
  - discriminate.
  - repeat constructor; eexists; reflexivity.
Defined.

Lemma analyze_comments_batch_rows_witness :
  map SentimentAnalyzer.comment (Pandas.rows Samples.three_results)
    = Pandas.rows Samples.three_comments.
Proof.
  apply (analyze_comments_batch_rows Samples.stub_sentiment
           Samples.three_comments Samples.three_results).
  reflexivity.
Defined.

Lemma groups_partition_comments_witness :
  exists report,
    SentimentAnalyzer.analyze Samples.stub_sentiment Samples.three_comments
      = Py.Ok report /\
    map fst (SentimentAnalyzer.by_stakeholder report)
      = ["Acme Legal Partners"; "John Doe"].
Proof.
  eexists. split; [vm_compute; reflexivity |].
  apply (groups_partition_comments Samples.stub_sentiment Samples.three_comments).
  vm_compute. reflexivity.
Defined.

(** ** Percentages *)

Section Percentages.

Import Py Pandas SentimentAnalyzer Spec.

Lemma round_half_even_range (r : Q) (a b : Z) :
  (inject_Z a <= r)%Q -> (r <= inject_Z b)%Q ->
  (a <= round_half_even r <= b)%Z.
Proof.
  intros Ha Hb. unfold round_half_even.
  assert (Hfa : (a <= Qfloor r)%Z).
  { rewrite <- (Qfloor_Z a). apply Qfloor_resp_le. exact Ha. }
  assert (Hfb : (Qfloor r <= b)%Z).
  { rewrite <- (Qfloor_Z b). apply Qfloor_resp_le. exact Hb. }
  pose proof (Qfloor_le r) as Hlo.
  destruct (Z.eq_dec (Qfloor r) b) as [Heq | Hne].
  - assert (Hlt : (r - inject_Z (Qfloor r) < 1 # 2)%Q) by (rewrite Heq; lra).
    destruct (Qcompare_spec (r - inject_Z (Qfloor r)) (1 # 2)) as [He | Hl | Hg];
      [lra | lia | lra].
  - destruct (r - inject_Z (Qfloor r) ?= 1 # 2)%Q; [destruct (Z.even _) | |]; lia.
Qed.

(** Rounding to one decimal moves a number by at most 0.05. *)
Lemma round_1_error (q : Q) :
  (q - (1 # 20) <= round q 1)%Q /\ (round q 1 <= q + (1 # 20))%Q.
Proof.
  unfold round. rewrite Qred_correct.
  change (10 ^ Z.of_nat 1)%Z with 10%Z. change (Z.to_pos 10) with 10%positive.
  destruct (round_half_even_error (q * inject_Z 10)) as [Hlo Hhi].
  rewrite (Qmake_Qdiv (round_half_even (q * inject_Z 10)) 10).
  change (inject_Z (Z.pos 10)) with 10%Q in *.
  change (inject_Z 10) with 10%Q in *. split.
  - apply Qle_shift_div_l; lra.
  - apply Qle_shift_div_r; lra.
Qed.

Lemma round_1_range (q : Q) :
  (0 <= q)%Q -> (q <= 100)%Q -> (0 <= round q 1)%Q /\ (round q 1 <= 100)%Q.
Proof.
  intros H0 H100. unfold round. rewrite Qred_correct.
  change (10 ^ Z.of_nat 1)%Z with 10%Z. change (Z.to_pos 10) with 10%positive.
  destruct (round_half_even_range (q * inject_Z 10) 0 1000) as [Hlo Hhi].
  - change (inject_Z 0) with 0%Q. change (inject_Z 10) with 10%Q. lra.
  - change (inject_Z 1000) with 1000%Q. change (inject_Z 10) with 10%Q. lra.
  - unfold Qle. simpl. lia.
Qed.

Lemma of_nat_plus (a b : nat) : (of_nat (a + b) == of_nat a + of_nat b)%Q.
Proof. unfold of_nat. rewrite Nat2Z.inj_add, inject_Z_plus. reflexivity. Qed.

Lemma of_nat_le (a b : nat) : (a <= b)%nat -> (of_nat a <= of_nat b)%Q.
Proof. intros H. unfold of_nat. rewrite <- Zle_Qle. lia. Qed.

Lemma of_nat_pos (n : nat) : n <> 0%nat -> (0 < of_nat n)%Q.
Proof.
  intros H. unfold of_nat. change 0%Q with (inject_Z 0). rewrite <- Zlt_Qlt. lia.
Qed.

(** The share of [c] among [n], in percent. *)
Lemma share_range (c n : nat) :
  (c <= n)%nat -> n <> 0%nat ->
  (0 <= div (of_nat c) (of_nat n) * 100)%Q /\
  (div (of_nat c) (of_nat n) * 100 <= 100)%Q.
Proof.
  intros Hc Hn. rewrite div_eq.
  pose proof (of_nat_pos n Hn) as Hpos. pose proof (of_nat_le c n Hc) as Hle.
  pose proof (of_nat_le 0 c (Nat.le_0_l c)) as H0.
  change (of_nat 0) with 0%Q in H0.
  assert (Hq : (0 <= of_nat c / of_nat n)%Q /\ (of_nat c / of_nat n <= 1)%Q).
  { split.
    - apply Qle_shift_div_l; [exact Hpos | lra].
    - apply Qle_shift_div_r; [exact Hpos | lra]. }
  lra.
Qed.

(** What a successful [get_overall_sentiment] reports as percentages. *)
Lemma get_overall_sentiment_percentages (df : DataFrame SentimentRow)
  (stats : OverallStats) :
  get_overall_sentiment df = Ok stats ->
  let labels := map sentiment (rows df) in
  let n := length (rows df) in
  n <> 0%nat /\
  positive_percentage stats
    = round (div (of_nat (occurrences "Positive" labels)) (of_nat n) * 100) 1 /\
  negative_percentage stats
    = round (div (of_nat (occurrences "Negative" labels)) (of_nat n) * 100) 1 /\
  neutral_percentage stats
    = round (div (of_nat (occurrences "Neutral" labels)) (of_nat n) * 100) 1.
Proof.
  unfold get_overall_sentiment. intros H.
  apply bind_Ok in H as (labels & Hlabels & H). apply column_Ok in Hlabels.
  apply bind_Ok in H as (scores & _ & H).
  rewrite !value_counts_default in H. subst labels.
  unfold Pandas.len, percentage in H.
  destruct (length (rows df)) as [| n] eqn:Hn; [discriminate |].
  simpl in H. injection H as <-. simpl. repeat split. discriminate.
Qed.

Variable textblob_sentiment : string -> result (Q * Q).

(** X4.  In a report of [analyze], each of the three percentages lies
    between 0 and 100, and together they differ from 100 by at most 0.15,
    the three roundings to one decimal (with the quotients taken exactly). *)
Theorem percentages_sum_to_100 (df : DataFrame CommentRow) (report : Report) :
  analyze textblob_sentiment df = Ok report ->
  let o := overall_stats report in
  (0 <= positive_percentage o <= 100)%Q /\
  (0 <= negative_percentage o <= 100)%Q /\
  (0 <= neutral_percentage o <= 100)%Q /\
  (100 - (3 # 20)
   <= positive_percentage o + negative_percentage o + neutral_percentage o
   <= 100 + (3 # 20))%Q.
Proof.
  intros H. cbv zeta. apply analyze_inv in H as (Hdet & Hstats & _).
  pose proof (analyze_comments_batch_labels _ _ _ Hdet) as Hlabels.
  apply occurrences_three in Hlabels. rewrite length_map in Hlabels.
  apply get_overall_sentiment_percentages in Hstats as (Hn & -> & -> & ->).
  simpl.
  set (labels := map sentiment (rows (detailed report))) in *.
  set (n := length (rows (detailed report))) in *.
  set (a := occurrences "Positive" labels) in *.
  set (b := occurrences "Negative" labels) in *.
  set (c := occurrences "Neutral" labels) in *.
  destruct (share_range a n ltac:(lia) Hn) as [Ha0 Ha1].
  destruct (share_range b n ltac:(lia) Hn) as [Hb0 Hb1].
  destruct (share_range c n ltac:(lia) Hn) as [Hc0 Hc1].
  assert (Hsum : (div (of_nat a) (of_nat n) * 100 + div (of_nat b) (of_nat n) * 100
                  + div (of_nat c) (of_nat n) * 100 == 100)%Q).
  { rewrite !div_eq. pose proof (of_nat_nonzero n Hn) as Hnz.
    assert (Habc : (of_nat a + of_nat b + of_nat c == of_nat n)%Q).
    { rewrite <- !of_nat_plus. rewrite Hlabels. reflexivity. }
    rewrite <- Habc in *. field. exact Hnz. }
  destruct (round_1_error (div (of_nat a) (of_nat n) * 100)) as [Ea Fa].
  destruct (round_1_error (div (of_nat b) (of_nat n) * 100)) as [Eb Fb].
  destruct (round_1_error (div (of_nat c) (of_nat n) * 100)) as [Ec Fc].
  repeat split; try (apply round_1_range; assumption); lra.
Qed.

End Percentages.

Lemma percentages_sum_to_100_witness :
  exists report,
    SentimentAnalyzer.analyze Samples.stub_sentiment Samples.three_comments
      = Py.Ok report /\
    (0 <= SentimentAnalyzer.positive_percentage
            (SentimentAnalyzer.overall_stats report) <= 100)%Q.
Proof.
  eexists. split; [vm_compute; reflexivity |].
  apply (percentages_sum_to_100 Samples.stub_sentiment Samples.three_comments).
  vm_compute. reflexivity.
Defined.

(** ** More on sorting and the most common entries *)

Section MostCommon.

Import Py Pandas Spec.

Lemma insert_desc_Permutation {A : Type} (gt : A -> A -> bool) (x : A) (s : list A) :
  Permutation (insert_desc gt x s) (x :: s).
Proof.
  induction s as [| y s IH]; simpl; [reflexivity |].
  destruct (gt y x); [| reflexivity].
  rewrite IH. apply perm_swap.
Qed.

Lemma sorted_desc_Permutation {A : Type} (gt : A -> A -> bool) (l : list A) :
  Permutation (sorted_desc gt l) l.
Proof.
  induction l as [| x l IH]; simpl; [reflexivity |].
  rewrite insert_desc_Permutation, IH. reflexivity.
Qed.

Lemma insert_desc_map {A B : Type} (g : A -> B) (gt1 : A -> A -> bool)
  (gt2 : B -> B -> bool) (x : A) (s : list A) :
  (forall a b, gt2 (g a) (g b) = gt1 a b) ->
  insert_desc gt2 (g x) (map g s) = map g (insert_desc gt1 x s).
Proof.
  intros H. induction s as [| y s IH]; simpl; [reflexivity |].
  rewrite H. destruct (gt1 y x); simpl; [rewrite IH |]; reflexivity.
Qed.

(** Sorting the images under a map that keeps the order of the keys is
    mapping the sorted list. *)
Lemma sorted_desc_map {A B : Type} (g : A -> B) (gt1 : A -> A -> bool)
  (gt2 : B -> B -> bool) (l : list A) :
  (forall a b, gt2 (g a) (g b) = gt1 a b) ->
  sorted_desc gt2 (map g l) = map g (sorted_desc gt1 l).
Proof.
  intros H. induction l as [| x l IH]; simpl; [reflexivity |].
  rewrite IH. apply insert_desc_map. exact H.
Qed.

Lemma list_sum_Permutation (l1 l2 : list nat) :
  Permutation l1 l2 -> list_sum l1 = list_sum l2.
Proof. induction 1; simpl; lia. Qed.

Lemma StronglySorted_firstn {A : Type} (R : A -> A -> Prop) (n : nat) (l : list A) :
  StronglySorted R l -> StronglySorted R (firstn n l).
Proof.
  intros H. revert n. induction H as [| x l Hl IH Hx]; intros [| n]; simpl;
    try constructor.
  - apply IH.
  - apply Forall_take. exact Hx.
Qed.

Lemma StronglySorted_map {A B : Type} (R : A -> A -> Prop) (S : B -> B -> Prop)
  (g : A -> B) (l : list A) :
  (forall a b, R a b -> S (g a) (g b)) ->
  StronglySorted R l -> StronglySorted S (map g l).
Proof.
  intros HRS H. induction H as [| x l Hl IH Hx]; simpl; constructor.
  - exact IH.
  - rewrite List.Forall_forall in *. intros b Hb.
    apply List.in_map_iff in Hb as (a & <- & Ha). apply HRS, Hx, Ha.
Qed.

(** What [most_common] returns from a dictionary: at most [n] of its
    entries, each once, with the counts in descending order; all of them
    when [n] is not below their number. *)
Lemma most_common_entries (d : list (string * nat)) (n : nat) :
  NoDup (map fst d) ->
  (length (most_common d n) <= n)%nat /\
  (forall kv, In kv (most_common d n) -> In kv d) /\
  NoDup (map fst (most_common d n)) /\
  StronglySorted (fun a b => (b <= a)%nat) (map snd (most_common d n)) /\
  ((length d <= n)%nat -> Permutation (most_common d n) d).
Proof.
  intros Hnd. unfold most_common.
  set (sorted := sorted_desc (fun a b : string * nat => (snd b <? snd a)%nat) d).
  assert (Hperm : Permutation sorted d) by apply sorted_desc_Permutation.
  split; [apply List.firstn_le_length |]. split; [| split; [| split]].
  - intros kv Hin. apply (Permutation_in _ Hperm).
    apply list_elem_of_In. apply list_elem_of_In in Hin.
    apply elem_of_take in Hin as (i & Hi & _).
    eapply list_elem_of_lookup_2. exact Hi.
  - change (map fst (firstn n sorted)) with (fst <$> take n sorted).
    rewrite fmap_take. eapply sublist_NoDup; [| apply sublist_take].
    rewrite Hperm. exact Hnd.
  - apply (StronglySorted_map (ranked snd d) _ snd).
    + intros a b [Hlt | [Heq _]]; lia.
    + apply StronglySorted_firstn. apply sorted_desc_stable.
  - intros Hlen. rewrite List.firstn_all2; [exact Hperm |].
    rewrite (Permutation_length Hperm). exact Hlen.
Qed.

(** X5.  When [num_keywords] is not below the number of distinct keywords
    of a text, [extract_keywords] returns every keyword once, with its
    number of occurrences, and the counts add up to the number of keyword
    occurrences in the text. *)
Theorem extract_keywords_all (text : string) (n : nat) :
  (length (unique (SentimentAnalyzer.keywords text)) <= n)%nat ->
  let top := SentimentAnalyzer.extract_keywords text n in
  let words := SentimentAnalyzer.keywords text in
  length top = length (unique words) /\
  list_sum (map snd top) = length words /\
  (forall w, In w words -> In (w, occurrences w words) top).
Proof.
  intros Hn top words. unfold top, SentimentAnalyzer.extract_keywords.
  fold words.
  destruct (most_common_entries (Counter words) n (Counter_NoDup words))
    as (_ & _ & _ & _ & Hall).
  assert (Hlen : length (Counter words) = length (unique words))
    by (rewrite Counter_unique; apply length_map).
  specialize (Hall ltac:(rewrite Hlen; exact Hn)).
  split; [rewrite (Permutation_length Hall); exact Hlen |]. split.
  - rewrite (list_sum_Permutation _ (map snd (Counter words))).
    + apply sum_Counter.
    + apply Permutation_map. exact Hall.
  - intros w Hw. apply (Permutation_in _ (Permutation_sym Hall)).
    apply Counter_In. split; [exact Hw | reflexivity].
Qed.

End MostCommon.

Lemma extract_keywords_all_witness :
  (length (Pandas.unique
             (SentimentAnalyzer.keywords "Cost burden: the cost of compliance"))
   <= 3)%nat /\
  let top :=
    SentimentAnalyzer.extract_keywords "Cost burden: the cost of compliance" 3 in
  let words := SentimentAnalyzer.keywords "Cost burden: the cost of compliance" in
  length top = length (Pandas.unique words) /\
  list_sum (map snd top) = length words /\
  (forall w, In w words -> In (w, Spec.occurrences w words) top).
Proof.
  assert (H : (length (Pandas.unique
                         (SentimentAnalyzer.keywords
                            "Cost burden: the cost of compliance")) <= 3)%nat)
    by (vm_compute; lia).
  split; [exact H |].
  exact (extract_keywords_all "Cost burden: the cost of compliance" 3 H).
Defined.

(** ** Summaries, once more *)

Section Summaries.

Import Py Pandas Spec.

Lemma is_word_suffix (w suffix : string) :
  is_word w -> no_space suffix = true -> is_word (w +:+ suffix).
Proof.
  intros [Hne Hw] Hs. split.
  - intros H. apply append_empty_inv in H. contradiction.
  - rewrite no_space_append, Hw, Hs. reflexivity.
Qed.

Lemma split_word (w : string) : is_word w -> split w = [w].
Proof.
  intros [Hne Hw]. unfold split. rewrite <- (append_empty_r w) at 1.
  rewrite split_from_word by exact Hw. change ("" +:+ w) with w. simpl.
  destruct (String.eqb_spec w ""); [contradiction | reflexivity].
Qed.

(** Splitting undoes joining by single spaces; a suffix without whitespace
    stays on the last word. *)
Lemma split_join_last (ws : list string) (w suffix : string) :
  Forall is_word ws -> is_word w -> no_space suffix = true ->
  split (join " " (ws ++ [w]) +:+ suffix) = (ws ++ [w +:+ suffix])%list.
Proof.
  intros Hws Hw Hsuf. induction Hws as [| a ws [Ha1 Ha2] Hws IH].
  - simpl. apply split_word. apply is_word_suffix; assumption.
  - change ((a :: ws) ++ [w])%list with (a :: (ws ++ [w]))%list.
    destruct (ws ++ [w])%list as [| b rest] eqn:Hrest.
    { destruct ws; discriminate. }
    rewrite join_cons. remember (join " " (b :: rest)) as joined eqn:Hj.
    unfold split in *. rewrite append_assoc, split_from_word by exact Ha2.
    replace ((" " +:+ joined) +:+ suffix) with (String " " (joined +:+ suffix))
      by reflexivity.
    change ("" +:+ a) with a. simpl split_from.
    destruct (String.eqb_spec a "") as [Heq | _]; [contradiction |].
    rewrite IH. reflexivity.
Qed.

Lemma split_join_words (ws : list string) :
  Forall is_word ws -> split (join " " ws) = ws.
Proof.
  intros Hws. destruct ws as [| a ws'] using rev_ind; [reflexivity |].
  apply Forall_app in Hws as [Hinit Hlast]. inversion Hlast; subst.
  rewrite <- (append_empty_r (join " " (ws' ++ [a]))).
  rewrite split_join_last by (auto; reflexivity).
  rewrite append_empty_r. reflexivity.
Qed.

Lemma firstn_nonempty {A : Type} (n : nat) (l : list A) :
  (1 <= n)%nat -> l <> [] -> firstn n l <> [].
Proof. destruct n; [lia |]. destruct l; [congruence | discriminate]. Qed.

(** For a [max_length] of at least one, the truncation leaves exactly the
    words it kept: the ellipsis is glued to the last of them. *)
Lemma truncated_words (ws : list string) (max_length : nat) :
  Forall is_word ws -> (1 <= max_length)%nat -> ws <> [] ->
  exists init w,
    firstn max_length ws = (init ++ [w])%list /\
    split (join " " (firstn max_length ws) +:+ "...")
      = (init ++ [w +:+ "..."])%list.
Proof.
  intros Hws Hn Hne.
  pose proof (firstn_nonempty max_length ws Hn Hne) as Hfirst.
  assert (Hwords : Forall is_word (firstn max_length ws))
    by (apply Forall_take; exact Hws).
  destruct (firstn max_length ws) as [| a l] using rev_ind; [congruence |].
  clear IHl. apply Forall_app in Hwords as [Hinit Hlast].
  inversion Hlast; subst. exists l, a. split; [reflexivity |].
  apply split_join_last; [assumption | assumption | reflexivity].
Qed.

Lemma summarize_words_le (text : string) (max_length : nat) :
  (1 <= max_length)%nat ->
  (length (split (TextSummarizer.summarize_single_comment text max_length))
   <= max_length)%nat.
Proof.
  intros Hn. unfold TextSummarizer.summarize_single_comment.
  destruct (Nat.leb_spec (length (split text)) max_length) as [Hle | Hgt];
    [exact Hle |].
  assert (Htrunc : forall s, (max_length < length (split s))%nat ->
            (length (split (join " " (firstn max_length (split s)) +:+ "..."))
             <= max_length)%nat).
  { intros s Hs.
    destruct (truncated_words (split s) max_length (split_words s) Hn)
      as (init & w & Hfirst & Hsplit).
    - destruct (split s); [simpl in Hs; lia | discriminate].
    - rewrite Hsplit.
      pose proof (List.firstn_le_length max_length (split s)) as Hlen.
      rewrite Hfirst in Hlen. rewrite !length_app in *. exact Hlen. }
  destruct (length (split_on "." text) <=? 2)%nat; [apply Htrunc; exact Hgt |].
  match goal with
  | |- context [(max_length <? length (split ?summary))%nat] =>
      destruct (Nat.ltb_spec max_length (length (split summary))) as [Hlt | Hge]
  end.
  - apply Htrunc. exact Hlt.
  - exact Hge.
Qed.

(** X6.  For a [max_length] of at least one, [summarize_single_comment]
    returns at most [max_length] words, and summarising its result again
    changes nothing. *)
Theorem summarize_single_comment_idempotent (text : string) (max_length : nat) :
  (1 <= max_length)%nat ->
  (length (split (TextSummarizer.summarize_single_comment text max_length))
   <= max_length)%nat /\
  TextSummarizer.summarize_single_comment
    (TextSummarizer.summarize_single_comment text max_length) max_length
  = TextSummarizer.summarize_single_comment text max_length.
Proof.
  intros Hn. pose proof (summarize_words_le text max_length Hn) as Hle.
  split; [exact Hle |].
  unfold TextSummarizer.summarize_single_comment at 1.
  apply Nat.leb_le in Hle. rewrite Hle. reflexivity.
Qed.

(** X7.  When a text has more than [max_length] words (with [max_length]
    at least one) and at most one full stop, the words of the result are
    the first [max_length] words of the text, in order, the last one followed
    by the ellipsis. *)
Theorem summarize_single_comment_truncates (text : string) (max_length : nat) :
  (1 <= max_length)%nat ->
  (max_length < length (split text))%nat ->
  (length (split_on "." text) <= 2)%nat ->
  exists init w,
    firstn max_length (split text) = (init ++ [w])%list /\
    split (TextSummarizer.summarize_single_comment text max_length)
      = (init ++ [w +:+ "..."])%list.
Proof.
  intros Hn Hgt Hdots. unfold TextSummarizer.summarize_single_comment.
  apply Nat.leb_gt in Hgt. rewrite Hgt. apply Nat.leb_le in Hdots.
  rewrite Hdots. apply truncated_words; [apply split_words | exact Hn |].
  apply Nat.leb_gt in Hgt. destruct (split text); [simpl in Hgt; lia | discriminate].
Qed.

End Summaries.

Lemma summarize_single_comment_idempotent_witness :
  TextSummarizer.summarize_single_comment
    (TextSummarizer.summarize_single_comment
       "Cost is high. Cost burden is cost. Nothing else matters here. Really" 5) 5
  = TextSummarizer.summarize_single_comment
      "Cost is high. Cost burden is cost. Nothing else matters here. Really" 5.
Proof.
  apply (summarize_single_comment_idempotent
           "Cost is high. Cost burden is cost. Nothing else matters here. Really" 5).
  lia.
Defined.

Lemma summarize_single_comment_truncates_witness :
  exists init w,
    firstn 3 (Py.split "the cost burden of compliance is high")
      = (init ++ [w])%list /\
    Py.split (TextSummarizer.summarize_single_comment
                "the cost burden of compliance is high" 3)
      = (init ++ [w +:+ "..."])%list.
Proof.
  apply (summarize_single_comment_truncates
           "the cost burden of compliance is high" 3).
  - lia.
  - vm_compute. lia.
  - vm_compute. lia.
Defined.

(** With [max_length = 0] a second pass does change the result: the
    ellipsis alone is cut into empty sentences. *)
Example summarize_twice_zero :
  TextSummarizer.summarize_single_comment "one two" 0 = "..." /\
  TextSummarizer.summarize_single_comment "..." 0 = "".
Proof. split; vm_compute; reflexivity. Qed.

(** ** Weights and themes *)

Section Themes.

Import Py Pandas Spec.

Lemma of_nat_lt (a b : nat) : (a < b)%nat -> (of_nat a < of_nat b)%Q.
Proof. intros H. unfold of_nat. rewrite <- Zlt_Qlt. lia. Qed.

(** The largest count of a non-empty counter is positive. *)
Lemma max_value_Counter_pos (ws : list string) :
  Counter ws <> [] -> TextSummarizer.max_value (Counter ws) <> 0%nat.
Proof.
  intros Hne. destruct (Counter ws) as [| [k v] d] eqn:Hc; [congruence |].
  assert (Hin : In (k, v) (Counter ws)) by (rewrite Hc; left; reflexivity).
  pose proof (max_value_upper _ _ _ Hin) as Hle.
  apply (proj1 (Counter_In _ _ _)) in Hin as [Hk Hv].
  rewrite Hc in Hle. intros Hz.
  assert (Hocc : occurrences k ws = 0%nat) by lia.
  apply (proj1 (occurrences_zero _ _)) in Hocc. contradiction.
Qed.

(** The denominator [_get_word_frequency] divides by. *)
Lemma max_freq_pos (ws : list string) :
  match Counter ws with
  | [] => 1%nat
  | _ :: _ => TextSummarizer.max_value (Counter ws)
  end <> 0%nat.
Proof.
  pose proof (max_value_Counter_pos ws) as H.
  destruct (Counter ws); [discriminate | apply H; discriminate].
Qed.

(** Dividing by one positive number keeps the order of the counts. *)
Lemma gt_div (a b m : nat) :
  m <> 0%nat ->
  gt (div (of_nat a) (of_nat m)) (div (of_nat b) (of_nat m)) = (b <? a)%nat.
Proof.
  intros Hm. pose proof (of_nat_pos m Hm) as Hpos.
  assert (Hinv : (0 < / of_nat m)%Q) by (apply Qinv_lt_0_compat; exact Hpos).
  destruct (Nat.ltb_spec b a) as [Hlt | Hge].
  - apply gt_spec. rewrite !div_eq. unfold Qdiv.
    apply Qmult_lt_compat_r; [exact Hinv | apply of_nat_lt; exact Hlt].
  - apply gt_false. rewrite !div_eq. unfold Qdiv.
    apply Qmult_le_compat_r; [apply of_nat_le; exact Hge | apply Qlt_le_weak, Hinv].
Qed.

(** X8.  Every weight [_get_word_frequency] assigns is greater than 0 and
    at most 1. *)
Theorem word_frequency_range (text : string) (w : string) (q : Q) :
  In (w, q) (TextSummarizer._get_word_frequency text) ->
  (0 < q)%Q /\ (q <= 1)%Q.
Proof.
  unfold TextSummarizer._get_word_frequency.
  set (ws := TextSummarizer.frequency_words text).
  pose proof (max_freq_pos ws) as Hm.
  set (m := match Counter ws with
            | [] => 1%nat
            | _ :: _ => TextSummarizer.max_value (Counter ws)
            end) in *.
  intros Hin. apply List.in_map_iff in Hin as ([w' c] & Heq & Hin).
  simpl in Heq. injection Heq as -> <-.
  assert (Hle : (c <= m)%nat).
  { unfold m. destruct (Counter ws) as [| kv d] eqn:Hc; [destruct Hin |].
    rewrite <- Hc in *. apply (max_value_upper _ w). exact Hin. }
  apply (proj1 (Counter_In _ _ _)) in Hin as [Hw ->].
  assert (Hc : occurrences w ws <> 0%nat).
  { intros Hz. apply (proj1 (occurrences_zero _ _)) in Hz. contradiction. }
  pose proof (of_nat_pos m Hm) as Hmpos.
  pose proof (of_nat_pos _ Hc) as Hcpos.
  pose proof (of_nat_le _ _ Hle) as Hcle.
  rewrite div_eq. split.
  - apply Qlt_shift_div_l; [exact Hmpos | lra].
  - apply Qle_shift_div_r; [exact Hmpos | lra].
Qed.

(** X9.  [_extract_sentiment_keywords] returns at most [num_keywords]
    words, none twice, each a word of the fixed vocabulary that occurs in
    the cleaned text. *)
Theorem sentiment_keywords_in_vocabulary (text : string) (n : nat) :
  let found := TextSummarizer._extract_sentiment_keywords text n in
  (length found <= n)%nat /\
  NoDup found /\
  (forall w, In w found ->
     In w TextSummarizer.meaningful_vocabulary /\
     In w (split (sub_non_alpha (lower text)))).
Proof.
  intros found. unfold found, TextSummarizer._extract_sentiment_keywords.
  match goal with
  | |- context [Counter ?ws] =>
      set (words := ws);
      destruct (most_common_entries (Counter words) n (Counter_NoDup words))
        as (Hlen & Hin & Hnd & _)
  end.
  split; [rewrite length_map; exact Hlen |]. split; [exact Hnd |].
  intros w Hw. apply List.in_map_iff in Hw as ([w' c] & Heq & Hw).
  simpl in Heq. subst w'. apply Hin in Hw.
  apply (proj1 (Counter_In _ _ _)) in Hw as [Hw _].
  unfold words in Hw. apply List.filter_In in Hw as [Hw Hvoc].
  apply List.filter_In in Hw as [Hw _].
  split; [apply mem_In; exact Hvoc | exact Hw].
Qed.

(** X10.  The key themes, taken by descending weight, are the ten most
    common frequency words of the joined comments, taken by descending count
    with ties in order of first occurrence: dividing by the largest count
    does not change the ranking. *)
Theorem key_themes_by_count (df : DataFrame SentimentAnalyzer.CommentRow)
  (themes : list string) :
  TextSummarizer.key_themes df = Ok themes ->
  let all_text := join " " (map SentimentAnalyzer.comment_text (rows df)) in
  themes
    = map fst (most_common (Counter (TextSummarizer.frequency_words all_text)) 10) /\
  (length themes <= 10)%nat /\ NoDup themes.
Proof.
  unfold TextSummarizer.key_themes. intros H.
  apply bind_Ok in H as (texts & Htexts & H). apply column_Ok in Htexts.
  subst texts. injection H as <-. cbv zeta.
  set (all_text := join " " (map SentimentAnalyzer.comment_text (rows df))).
  assert (Heq : map fst
            (firstn 10 (sorted_desc (fun a b : string * Q => gt (snd a) (snd b))
                          (TextSummarizer._get_word_frequency all_text)))
          = map fst (most_common
                       (Counter (TextSummarizer.frequency_words all_text)) 10)).
  { unfold TextSummarizer._get_word_frequency, most_common.
    set (ws := TextSummarizer.frequency_words all_text).
    pose proof (max_freq_pos ws) as Hm.
    set (m := match Counter ws with
              | [] => 1%nat
              | _ :: _ => TextSummarizer.max_value (Counter ws)
              end) in *.
    rewrite (sorted_desc_map
               (fun kv : string * nat =>
                  (fst kv, div (of_nat (snd kv)) (of_nat m)))
               (fun a b : string * nat => (snd b <? snd a)%nat)).
    - change (firstn 10 (map ?g ?l)) with (take 10 (g <$> l)).
      rewrite <- fmap_take. change (?g <$> ?l) with (map g l).
      rewrite List.map_map. reflexivity.
    - intros a b. simpl. apply gt_div. exact Hm. }
  rewrite Heq.
  destruct (most_common_entries (Counter (TextSummarizer.frequency_words all_text))
              10 (Counter_NoDup _)) as (Hlen & _ & Hnd & _).
  split; [reflexivity |]. split; [rewrite length_map; exact Hlen | exact Hnd].
Qed.

(** X11.  [provision_summaries] has one entry per distinct provision, in
    order of first appearance; each summary has at most a hundred words, and
    is the joined text of the provision's comments itself when that has at
    most a hundred words. *)
Theorem provision_summaries_bounded (df : DataFrame SentimentAnalyzer.CommentRow)
  (summaries : list (string * string)) :
  TextSummarizer.provision_summaries df = Ok summaries ->
  map fst summaries
    = unique (map SentimentAnalyzer.provision_reference (rows df)) /\
  forall provision summary, In (provision, summary) summaries ->
    let provision_text :=
      join " " (map SentimentAnalyzer.comment_text
                  (List.filter
                     (fun r => String.eqb
                                 (SentimentAnalyzer.provision_reference r) provision)
                     (rows df))) in
    (length (split summary) <= 100)%nat /\
    ((length (split provision_text) <= 100)%nat -> summary = provision_text).
Proof.
  unfold TextSummarizer.provision_summaries. intros H.
  apply bind_Ok in H as (provisions & Hp & H). apply column_Ok in Hp.
  subst provisions. split.
  - eapply for_each_keys; [| exact H]. simpl. intros x y Hxy.
    apply bind_Ok in Hxy as (? & _ & Hxy). injection Hxy as <-. reflexivity.
  - intros provision summary Hin. apply for_each_Ok in H.
    assert (Hex : exists texts,
              column (select (fun r => String.eqb
                                (SentimentAnalyzer.provision_reference r) provision)
                        df)
                "comment_text" SentimentAnalyzer.comment_text = Ok texts /\
              summary = TextSummarizer.summarize_single_comment
                          (join " " texts) 100).
    { clear -H Hin. induction H as [| x y l ys Hxy _ IH]; [destruct Hin |].
      destruct Hin as [-> | Hin]; [| apply IH; exact Hin].
      apply bind_Ok in Hxy as (texts & Htexts & Hxy).
      injection Hxy as -> <-. exists texts. split; [exact Htexts | reflexivity]. }
    destruct Hex as (texts & Htexts & ->). apply column_Ok in Htexts.
    simpl in Htexts. subst texts. cbv zeta. split.
    + apply summarize_words_le. lia.
    + intros Hle. unfold TextSummarizer.summarize_single_comment.
      apply Nat.leb_le in Hle. rewrite Hle. reflexivity.
Qed.

End Themes.

Lemma word_frequency_range_witness :
  (0 < 1 # 2)%Q /\ (1 # 2 <= 1)%Q.
Proof.
  apply (word_frequency_range "Cost is high. Cost burden" "high" (1 # 2)).
  vm_compute. auto.
Defined.

Lemma key_themes_by_count_witness :
  exists themes,
    TextSummarizer.key_themes Samples.three_comments = Py.Ok themes /\
    (length themes <= 10)%nat.
Proof.
  eexists. split; [vm_compute; reflexivity |].
  apply (key_themes_by_count Samples.three_comments). vm_compute. reflexivity.
Defined.

Lemma provision_summaries_bounded_witness :
  exists summaries,
    TextSummarizer.provision_summaries Samples.three_comments = Py.Ok summaries /\
    map fst summaries = ["A"; "B"].
Proof.
  eexists. split; [vm_compute; reflexivity |].
  apply (provision_summaries_bounded Samples.three_comments).
  vm_compute. reflexivity.
Defined.

(** ** The stakeholder summary *)

Section StakeholderSummary.

Import Py Pandas Spec.

Lemma stakeholder_group_cases (name : string) :
  In (TextSummarizer.stakeholder_group name)
    ["Business"; "Legal"; "Government"; "Individual"; "Association"].
Proof.
  unfold TextSummarizer.stakeholder_group.
  repeat match goal with
         | |- context [contains ?k ?n] =>
             destruct (contains k n); simpl; try tauto
         end.
Qed.

Lemma dict_entries {V : Type} (d : list (string * V)) (def : V) :
  NoDup (map fst d) ->
  d = map (fun k => (k, dict_get d k def)) (map fst d).
Proof.
  induction d as [| [k v] d IH]; intros Hnd; [reflexivity |].
  simpl in *. inversion Hnd as [| ? ? Hnotin Hnd']; subst.
  rewrite String.eqb_refl. f_equal.
  rewrite (IH Hnd') at 1. apply List.map_ext_in.
  intros w Hw. destruct (String.eqb_spec k w) as [-> | _]; [| reflexivity].
  exfalso. apply Hnotin. apply list_elem_of_In. exact Hw.
Qed.

(** The loop never adds or removes a group. *)
Lemma group_rows_keys (comments_columns : list string)
  (comment_rows : list SentimentAnalyzer.CommentRow)
  (sentiments_df : DataFrame SentimentAnalyzer.SentimentRow)
  (groups final : list (string * list SentimentAnalyzer.SentimentRow)) :
  map fst groups = ["Business"; "Legal"; "Government"; "Individual"; "Association"] ->
  TextSummarizer.group_rows comments_columns comment_rows sentiments_df groups
    = Ok final ->
  map fst final = ["Business"; "Legal"; "Government"; "Individual"; "Association"].
Proof.
  revert groups. induction comment_rows as [| row rest IH]; intros groups Hk H.
  - simpl in H. injection H as <-. exact Hk.
  - simpl in H. apply bind_Ok in H as (name & Hname & H).
    apply cell_Ok in Hname. subst name.
    apply bind_Ok in H as (ids & _ & H).
    apply bind_Ok in H as (id & _ & H).
    apply bind_Ok in H as (sentiment_row & _ & H).
    eapply IH; [| exact H]. rewrite dict_set_keys, Hk.
    pose proof (stakeholder_group_cases
                  (lower (SentimentAnalyzer.stakeholder_name row))) as Hg.
    apply mem_In in Hg. rewrite Hg. reflexivity.
Qed.

Lemma filter_nil_Forall {A : Type} (keep : A -> bool) (l : list A) :
  List.filter keep l = [] <-> Forall (fun x => keep x = false) l.
Proof.
  induction l as [| x l IH]; simpl.
  - split; [constructor | reflexivity].
  - destruct (keep x) eqn:Hx.
    + split; [discriminate |]. intros H. inversion H; subst. congruence.
    + rewrite IH. split.
      * intros H. constructor; assumption.
      * intros H. inversion H; subst. assumption.
Qed.

Lemma group_rows_IndexError (comments_columns : list string)
  (comment_rows : list SentimentAnalyzer.CommentRow)
  (sentiments_df : DataFrame SentimentAnalyzer.SentimentRow)
  (groups : list (string * list SentimentAnalyzer.SentimentRow)) :
  mem "stakeholder_name" comments_columns = true ->
  mem "comment_id" comments_columns = true ->
  mem "comment_id" (columns sentiments_df) = true ->
  Exists (fun row =>
            Forall (fun r =>
                      SentimentAnalyzer.comment_id (SentimentAnalyzer.comment r)
                      <> SentimentAnalyzer.comment_id row)
              (rows sentiments_df)) comment_rows ->
  TextSummarizer.group_rows comments_columns comment_rows sentiments_df groups
    = Raise IndexError.
Proof.
  intros Hname Hid Hcol Hex. revert groups.
  induction comment_rows as [| row rest IH]; intros groups;
    [inversion Hex |].
  simpl. unfold cell, column. rewrite Hname, Hid, Hcol. cbn [bind].
  unfold TextSummarizer.iloc0, select. cbn [rows].
  destruct (List.filter _ (rows sentiments_df)) as [| r l] eqn:Hf.
  - reflexivity.
  - cbn [bind]. apply IH. inversion Hex as [? ? Hrow | ? ? Hrest]; subst;
      [| exact Hrest].
    exfalso. assert (Hin : In r (r :: l)) by (left; reflexivity).
    rewrite <- Hf in Hin. apply List.filter_In in Hin as [Hin Heq].
    rewrite List.Forall_forall in Hrow. apply (Hrow r Hin).
    apply Z.eqb_eq. exact Heq.
Qed.

Lemma group_rows_succeeds (comments_columns : list string)
  (comment_rows : list SentimentAnalyzer.CommentRow)
  (sentiments_df : DataFrame SentimentAnalyzer.SentimentRow)
  (groups : list (string * list SentimentAnalyzer.SentimentRow)) :
  mem "stakeholder_name" comments_columns = true ->
  mem "comment_id" comments_columns = true ->
  mem "comment_id" (columns sentiments_df) = true ->
  Forall (fun row =>
            Exists (fun r =>
                      SentimentAnalyzer.comment_id (SentimentAnalyzer.comment r)
                      = SentimentAnalyzer.comment_id row)
              (rows sentiments_df)) comment_rows ->
  exists final,
    TextSummarizer.group_rows comments_columns comment_rows sentiments_df groups
      = Ok final.
Proof.
  intros Hname Hid Hcol Hall. revert groups.
  induction Hall as [| row rest Hrow _ IH]; intros groups.
  - eexists. reflexivity.
  - simpl. unfold cell, column. rewrite Hname, Hid, Hcol. cbn [bind].
    unfold TextSummarizer.iloc0, select. cbn [rows].
    destruct (List.filter _ (rows sentiments_df)) as [| r l] eqn:Hf.
    + exfalso. apply filter_nil_Forall in Hf.
      apply List.Exists_exists in Hrow as (r & Hin & Heq).
      rewrite List.Forall_forall in Hf. specialize (Hf r Hin). simpl in Hf.
      apply Z.eqb_neq in Hf. contradiction.
    + cbn [bind]. apply IH.
Qed.

(** With the two columns it reads, the second loop raises nothing. *)
Lemma summarize_groups_succeeds (sentiments_columns : list string)
  (groups : list (string * list SentimentAnalyzer.SentimentRow)) :
  mem "sentiment" sentiments_columns = true ->
  mem "polarity_score" sentiments_columns = true ->
  exists summary,
    TextSummarizer.summarize_groups sentiments_columns groups = Ok summary.
Proof.
  intros Hs Hp.
  induction groups as [| [group comments] rest (summary & IH)]; simpl.
  - eexists. reflexivity.
  - destruct comments as [| c l]; [exists summary; exact IH |].
    unfold column. cbn [columns]. rewrite Hs, Hp. cbn [bind].
    rewrite IH. cbn [bind]. eexists. reflexivity.
Qed.

(** The second loop keeps the groups that have result rows, in order, each
    with the number of its rows. *)
Lemma summarize_groups_counts (sentiments_columns : list string)
  (groups : list (string * list SentimentAnalyzer.SentimentRow))
  (summary : list (string * TextSummarizer.GroupStats)) :
  TextSummarizer.summarize_groups sentiments_columns groups = Ok summary ->
  map (fun kv => (fst kv, TextSummarizer.count (snd kv))) summary
  = map (fun kv => (fst kv, length (snd kv)))
      (List.filter (fun kv => match snd kv with [] => false | _ :: _ => true end)
         groups).
Proof.
  revert summary.
  induction groups as [| [group comments] rest IH]; intros summary H; simpl in H.
  - injection H as <-. reflexivity.
  - destruct comments as [| c l]; simpl; [apply IH; exact H |].
    apply bind_Ok in H as (labels & _ & H).
    apply bind_Ok in H as (scores & _ & H).
    apply bind_Ok in H as (tail & Htail & H).
    injection H as <-. simpl. rewrite (IH tail Htail). reflexivity.
Qed.

(** X12.  Let the comment table have the [stakeholder_name] and
    [comment_id] columns and the results table the [comment_id] column.
    Then [create_stakeholder_summary] raises [IndexError] when some comment
    has no result row with its identifier; and when every comment has one
    and the results table also has the [sentiment] and [polarity_score]
    columns, it returns a summary. *)
Theorem create_stakeholder_summary_lookup
  (comments_df : DataFrame SentimentAnalyzer.CommentRow)
  (sentiments_df : DataFrame SentimentAnalyzer.SentimentRow) :
  mem "stakeholder_name" (columns comments_df) = true ->
  mem "comment_id" (columns comments_df) = true ->
  mem "comment_id" (columns sentiments_df) = true ->
  (Exists (fun row =>
             Forall (fun r =>
                       SentimentAnalyzer.comment_id (SentimentAnalyzer.comment r)
                       <> SentimentAnalyzer.comment_id row)
               (rows sentiments_df)) (rows comments_df) ->
   TextSummarizer.create_stakeholder_summary comments_df sentiments_df
     = Raise IndexError) /\
  (mem "sentiment" (columns sentiments_df) = true ->
   mem "polarity_score" (columns sentiments_df) = true ->
   Forall (fun row =>
             Exists (fun r =>
                       SentimentAnalyzer.comment_id (SentimentAnalyzer.comment r)
                       = SentimentAnalyzer.comment_id row)
               (rows sentiments_df)) (rows comments_df) ->
   exists summary,
     TextSummarizer.create_stakeholder_summary comments_df sentiments_df
       = Ok summary).
Proof.
  intros Hname Hid Hcol. unfold TextSummarizer.create_stakeholder_summary. split.
  - intros Hex. rewrite group_rows_IndexError by assumption. reflexivity.
  - intros Hs Hp Hall.
    destruct (group_rows_succeeds _ _ _ TextSummarizer.empty_groups
                Hname Hid Hcol Hall) as (final & Hfinal).
    rewrite Hfinal. cbn [bind]. apply summarize_groups_succeeds; assumption.
Qed.

(** Every comment row goes to exactly one of the five groups. *)
Lemma members_partition (comment_rows : list SentimentAnalyzer.CommentRow) :
  (members comment_rows "Business" + members comment_rows "Legal"
   + members comment_rows "Government" + members comment_rows "Individual"
   + members comment_rows "Association" = length comment_rows)%nat.
Proof.
  unfold members. induction comment_rows as [| row rest IH]; [reflexivity |].
  simpl.
  pose proof (stakeholder_group_cases
                (lower (SentimentAnalyzer.stakeholder_name row))) as Hg.
  simpl in Hg.
  destruct Hg as [<- | [<- | [<- | [<- | [<- | []]]]]]; simpl; lia.
Qed.

(** X13.  A summary [create_stakeholder_summary] returns lists only groups
    that a comment went to, none twice, in the order Business, Legal,
    Government, Individual, Association; the count of a group is the number
    of comments whose lowercased stakeholder name goes to it, and the counts
    add up to the number of comments. *)
Theorem create_stakeholder_summary_counts
  (comments_df : DataFrame SentimentAnalyzer.CommentRow)
  (sentiments_df : DataFrame SentimentAnalyzer.SentimentRow)
  (summary : list (string * TextSummarizer.GroupStats)) :
  TextSummarizer.create_stakeholder_summary comments_df sentiments_df
    = Ok summary ->
  map fst summary
    = List.filter (fun g => (0 <? members (rows comments_df) g)%nat)
        ["Business"; "Legal"; "Government"; "Individual"; "Association"] /\
  (forall g stats, In (g, stats) summary ->
     TextSummarizer.count stats = members (rows comments_df) g /\
     (1 <= TextSummarizer.count stats)%nat) /\
  list_sum (map (fun kv => TextSummarizer.count (snd kv)) summary)
    = length (rows comments_df).
Proof.
  unfold TextSummarizer.create_stakeholder_summary. intros H.
  apply bind_Ok in H as (final & Hfinal & H).
  apply summarize_groups_counts in H.
  pose proof (group_rows_keys _ _ _ TextSummarizer.empty_groups _ eq_refl Hfinal)
    as Hkeys.
  assert (Hnd : NoDup (map fst final)).
  { rewrite Hkeys. apply NoDup_ListNoDup.
    repeat constructor; simpl; intuition discriminate. }
  assert (Hlen : forall g, In g (map fst final) ->
            length (dict_get final g []) = members (rows comments_df) g).
  { intros g Hg.
    destruct (group_rows_one_group _ _ _ _ _ Hfinal g) as (added & Hget & Hadd).
    rewrite Hget, length_app, Hadd. rewrite Hkeys in Hg. simpl in Hg.
    destruct Hg as [<- | [<- | [<- | [<- | [<- | []]]]]]; reflexivity. }
  pose proof (dict_entries final [] Hnd) as Hform. rewrite Hkeys in Hform.
  cbn [map] in Hform.
  pose proof (Hlen "Business" ltac:(rewrite Hkeys; simpl; tauto)) as H1.
  pose proof (Hlen "Legal" ltac:(rewrite Hkeys; simpl; tauto)) as H2.
  pose proof (Hlen "Government" ltac:(rewrite Hkeys; simpl; tauto)) as H3.
  pose proof (Hlen "Individual" ltac:(rewrite Hkeys; simpl; tauto)) as H4.
  pose proof (Hlen "Association" ltac:(rewrite Hkeys; simpl; tauto)) as H5.
  pose proof (members_partition (rows comments_df)) as Hpart.
  remember (dict_get final "Business" []) as l1 eqn:E1.
  remember (dict_get final "Legal" []) as l2 eqn:E2.
  remember (dict_get final "Government" []) as l3 eqn:E3.
  remember (dict_get final "Individual" []) as l4 eqn:E4.
  remember (dict_get final "Association" []) as l5 eqn:E5.
  clear E1 E2 E3 E4 E5 Hlen Hfinal Hkeys Hnd. subst final.
  set (counts := map (fun kv => (fst kv, TextSummarizer.count (snd kv))) summary)
    in H.
  assert (Hfst : map fst summary = map fst counts).
  { unfold counts. rewrite List.map_map. reflexivity. }
  assert (Hsum : list_sum (map (fun kv => TextSummarizer.count (snd kv)) summary)
                 = list_sum (map snd counts)).
  { unfold counts. rewrite List.map_map. reflexivity. }
  assert (Hin : forall g stats, In (g, stats) summary ->
                  In (g, TextSummarizer.count stats) counts).
  { intros g stats Hgs. unfold counts.
    apply (List.in_map (fun kv => (fst kv, TextSummarizer.count (snd kv)))
             _ _ Hgs). }
  rewrite Hfst, Hsum.
  assert (Hcounts :
    map fst counts
      = List.filter (fun g => (0 <? members (rows comments_df) g)%nat)
          ["Business"; "Legal"; "Government"; "Individual"; "Association"] /\
    (forall g n, In (g, n) counts ->
       n = members (rows comments_df) g /\ (1 <= n)%nat) /\
    list_sum (map snd counts) = length (rows comments_df)).
  { clearbody counts. clear Hfst Hsum Hin. subst counts.
    cbn [List.filter]. rewrite <- Hpart. clear Hpart.
    destruct l1 as [| b1 l1], l2 as [| b2 l2], l3 as [| b3 l3],
      l4 as [| b4 l4], l5 as [| b5 l5];
      rewrite <- H1, <- H2, <- H3, <- H4, <- H5;
      cbn -[members];
      (split; [reflexivity | split; [| lia]]);
      intros g n Hin;
      repeat (destruct Hin as [Hin | Hin];
              [injection Hin as <- <-;
               first [rewrite <- H1 | rewrite <- H2 | rewrite <- H3
                     | rewrite <- H4 | rewrite <- H5];
               cbn; split; [reflexivity | lia] |]);
      destruct Hin. }
  destruct Hcounts as (Hk & Hc & Hs).
  split; [exact Hk |]. split; [| exact Hs].
  intros g stats Hgs. apply (Hc g _ (Hin g stats Hgs)).
Qed.

End StakeholderSummary.

Lemma create_stakeholder_summary_lookup_witness :
  exists summary,
    TextSummarizer.create_stakeholder_summary Samples.three_comments
      Samples.three_results = Py.Ok summary.
Proof.
  apply (create_stakeholder_summary_lookup Samples.three_comments
           Samples.three_results).
  - reflexivity.
  - reflexivity.
  - reflexivity.
  - reflexivity.
  - reflexivity.
  - constructor; [| constructor; [| constructor; [| constructor]]].
    + apply List.Exists_cons_hd. reflexivity.
    + apply List.Exists_cons_tl, List.Exists_cons_hd. reflexivity.
    + apply List.Exists_cons_tl, List.Exists_cons_tl, List.Exists_cons_hd.
      reflexivity.
Defined.

Lemma create_stakeholder_summary_counts_witness :
  exists summary,
    TextSummarizer.create_stakeholder_summary Samples.three_comments
      Samples.three_results = Py.Ok summary /\
    list_sum (map (fun kv => TextSummarizer.count (snd kv)) summary)
      = length (Pandas.rows Samples.three_comments).
Proof.
  destruct (TextSummarizer.create_stakeholder_summary Samples.three_comments
              Samples.three_results) as [summary | e] eqn:H.
  - exists summary. split; [reflexivity |].
    exact (proj2 (proj2 (create_stakeholder_summary_counts
                           Samples.three_comments Samples.three_results
                           summary H))).
  - vm_compute in H. discriminate.
Defined.

(** A results table that has only the [comment_id] column: every comment
    finds its result row, and line 184 raises [KeyError]. *)
Example create_stakeholder_summary_missing_column :
  TextSummarizer.create_stakeholder_summary Samples.three_comments
    (Pandas.mkDataFrame ["comment_id"] (Pandas.rows Samples.three_results))
  = Py.Raise (Py.KeyError "sentiment").
Proof. reflexivity. Qed.

(** A comment table without the [stakeholder_name] column: line 165 raises
    [KeyError] at the first comment. *)
Example create_stakeholder_summary_missing_name :
  TextSummarizer.create_stakeholder_summary
    (Pandas.mkDataFrame ["comment_id"] (Pandas.rows Samples.three_comments))
    Samples.three_results
  = Py.Raise (Py.KeyError "stakeholder_name").
Proof. reflexivity. Qed.

(** ** Word clouds *)

Section WordClouds.

Import Py Pandas Spec.

Lemma all_chars_append (p : ascii -> bool) (a b : string) :
  all_chars p (a +:+ b) = all_chars p a && all_chars p b.
Proof.
  induction a as [| x a IH]; [reflexivity |].
  rewrite append_cons. simpl. rewrite IH. apply andb_assoc.
Qed.

Lemma lower_char_clean (c : ascii) :
  is_letter (lower_char c) || isspace (lower_char c) = true ->
  is_lower (lower_char c) || isspace (lower_char c) = true.
Proof.
  destruct c as [[] [] [] [] [] [] [] []]; vm_compute; congruence.
Qed.

Lemma lower_or_space_fixed (c : ascii) :
  lower_or_space c = true ->
  lower_char c = c /\ is_letter c || isspace c = true.
Proof.
  destruct c as [[] [] [] [] [] [] [] []]; vm_compute; intuition congruence.
Qed.

(** A string of lowercase letters and spaces is left alone by [lower] and by
    the removal of the other characters. *)
Lemma clean_fixed (s : string) :
  all_chars lower_or_space s = true -> lower s = s /\ sub_non_alpha s = s.
Proof.
  induction s as [| c s IH]; simpl; [auto |].
  intros H. apply andb_prop in H as [Hc Hs].
  destruct (lower_or_space_fixed c Hc) as [Hl Hk].
  destruct (IH Hs) as [IH1 IH2]. rewrite Hl, IH1, Hk, IH2. auto.
Qed.

(** The pieces [split] cuts from a lowered and stripped text are made of
    lowercase letters. *)
Lemma split_from_lower (s cur : string) :
  all_chars (fun c => is_lower c || isspace c) s = true ->
  all_chars is_lower cur = true ->
  Forall (fun w => all_chars is_lower w = true) (split_from cur s).
Proof.
  revert cur. induction s as [| c s IH]; intros cur Hs Hcur; simpl.
  - destruct (String.eqb cur ""); repeat constructor. exact Hcur.
  - simpl in Hs. apply andb_prop in Hs as [Hc Hs].
    destruct (isspace c) eqn:Hsp.
    + destruct (String.eqb cur ""); [apply IH; auto |].
      constructor; [exact Hcur | apply IH; auto].
    + apply IH; [exact Hs |]. unfold snoc.
      rewrite all_chars_append, Hcur. simpl.
      rewrite orb_false_r in Hc. rewrite Hc. reflexivity.
Qed.

Lemma cleaned_chars (text : string) :
  all_chars (fun c => is_lower c || isspace c) (sub_non_alpha (lower text)) = true.
Proof.
  induction text as [| c text IH]; simpl; [reflexivity |].
  destruct (is_letter (lower_char c) || isspace (lower_char c)) eqn:Hk;
    [| exact IH].
  simpl. rewrite (lower_char_clean c Hk), IH. reflexivity.
Qed.

Lemma join_lower_words (ws : list string) :
  Forall (fun w => all_chars is_lower w = true) ws ->
  all_chars lower_or_space (join " " ws) = true.
Proof.
  assert (Hw : forall w, all_chars is_lower w = true ->
                         all_chars lower_or_space w = true).
  { induction w as [| c w IH]; simpl; [reflexivity |]. intros H.
    apply andb_prop in H as [Hc Hrest]. unfold lower_or_space at 1.
    rewrite Hc, (IH Hrest). reflexivity. }
  induction 1 as [| w ws Hhead Htail IH]; [reflexivity |].
  destruct ws as [| w' ws]; [simpl; apply Hw; exact Hhead |].
  rewrite join_cons, !all_chars_append, (Hw w Hhead), IH. reflexivity.
Qed.

(** X14.  [_clean_text] is idempotent, and splitting its result gives the
    words of the lowered text without its other characters: the cleaned text
    is these words joined by single spaces. *)
Theorem clean_text_idempotent (text : string) :
  WordCloudGenerator._clean_text (WordCloudGenerator._clean_text text)
    = WordCloudGenerator._clean_text text /\
  split (WordCloudGenerator._clean_text text)
    = split (sub_non_alpha (lower text)) /\
  all_chars lower_or_space (WordCloudGenerator._clean_text text) = true.
Proof.
  unfold WordCloudGenerator._clean_text.
  set (ws := split (sub_non_alpha (lower text))).
  assert (Hwords : Forall is_word ws) by apply split_words.
  assert (Hlow : Forall (fun w => all_chars is_lower w = true) ws).
  { apply split_from_lower; [apply cleaned_chars | reflexivity]. }
  pose proof (join_lower_words ws Hlow) as Hclean.
  destruct (clean_fixed _ Hclean) as [Hl Hs].
  rewrite Hl, Hs, (split_join_words ws Hwords). auto.
Qed.

(** Cleaning does not change the words of a text. *)
Lemma split_clean_text (text : string) :
  split (WordCloudGenerator._clean_text text) = split (sub_non_alpha (lower text)).
Proof.
  unfold WordCloudGenerator._clean_text. apply split_join_words, split_words.
Qed.

Lemma occurrences_filter (w : string) (keep : string -> bool) (l : list string) :
  keep w = true -> occurrences w (List.filter keep l) = occurrences w l.
Proof.
  intros Hw. unfold occurrences. rewrite filter_filter_both.
  f_equal. apply List.filter_ext. intros x.
  destruct (String.eqb_spec x w) as [-> | _]; [rewrite Hw |];
    rewrite ?andb_false_r; reflexivity.
Qed.

Lemma wordcloud_stop_words :
  WordCloudGenerator.stop_words
    = (SentimentAnalyzer.stop_words
       ++ ["we"; "our"; "us"; "them"; "they"; "their"; "these"; "those";
           "been"; "being"; "having"; "more"; "very"; "some"; "any"])%list.
Proof. reflexivity. Qed.

(** The words [get_word_frequency] counts. *)
Lemma get_word_frequency_words (text : string) (top_n : nat) :
  WordCloudGenerator.get_word_frequency text top_n
    = most_common
        (Counter
           (List.filter
              (fun w => negb (mem w WordCloudGenerator.stop_words))
              (SentimentAnalyzer.keywords text))) top_n.
Proof.
  unfold WordCloudGenerator.get_word_frequency, SentimentAnalyzer.keywords.
  rewrite split_clean_text.
  rewrite filter_filter_both. do 2 f_equal. apply List.filter_ext.
  intros w. rewrite wordcloud_stop_words, mem_app.
  destruct (mem w SentimentAnalyzer.stop_words); simpl; [reflexivity |].
  destruct (3 <? Py.len w)%nat; rewrite ?andb_true_r, ?andb_false_r; reflexivity.
Qed.

End WordClouds.

Section WordFrequencies.

Import Py Pandas Spec.

(** The entries [get_word_frequency] returns. *)
Lemma get_word_frequency_entries (text : string) (top_n : nat) :
  let top := WordCloudGenerator.get_word_frequency text top_n in
  (length top <= top_n)%nat /\
  NoDup (map fst top) /\
  StronglySorted (fun a b => (b <= a)%nat) (map snd top) /\
  (forall w c, In (w, c) top ->
     In w (SentimentAnalyzer.keywords text) /\
     mem w WordCloudGenerator.stop_words = false /\
     c = occurrences w (SentimentAnalyzer.keywords text) /\
     (1 <= c)%nat).
Proof.
  intros top. unfold top. rewrite get_word_frequency_words.
  set (words := List.filter
                  (fun w => negb (mem w WordCloudGenerator.stop_words))
                  (SentimentAnalyzer.keywords text)).
  destruct (most_common_entries (Counter words) top_n (Counter_NoDup words))
    as (Hlen & Hin & Hnd & Hsorted & _).
  split; [exact Hlen |]. split; [exact Hnd |]. split; [exact Hsorted |].
  intros w c Hwc. apply Hin in Hwc.
  apply (proj1 (Counter_In _ _ _)) in Hwc as [Hw ->].
  pose proof Hw as Hw'. unfold words in Hw'.
  apply List.filter_In in Hw' as [Hkw Hstop]. apply negb_true_iff in Hstop.
  split; [exact Hkw |]. split; [exact Hstop |]. split.
  - unfold words. apply occurrences_filter. rewrite Hstop. reflexivity.
  - destruct (occurrences w words) eqn:Ho; [| lia].
    apply (proj1 (occurrences_zero _ _)) in Ho. contradiction.
Qed.

(** X15.  [get_word_frequency] returns at most [top_n] pairs, no word
    twice, the counts in descending order; each word is a keyword of
    [extract_keywords] for the same text that is not one of the generator's
    own stop words, paired with the number of its occurrences among these
    keywords. *)
Theorem get_word_frequency_top (text : string) (top_n : nat) :
  let top := WordCloudGenerator.get_word_frequency text top_n in
  (length top <= top_n)%nat /\
  NoDup (map fst top) /\
  StronglySorted (fun a b => (b <= a)%nat) (map snd top) /\
  (forall w c, In (w, c) top ->
     In w (SentimentAnalyzer.keywords text) /\
     mem w WordCloudGenerator.stop_words = false /\
     c = occurrences w (SentimentAnalyzer.keywords text) /\
     (1 <= c)%nat).
Proof. exact (get_word_frequency_entries text top_n). Qed.

(** X16.  [create_frequency_chart_data] raises [KeyError] on a table
    without the [comment_text] column; otherwise it returns two lists of the
    same length, at most fifteen: the words, none twice, and their
    frequencies, each at least one and in descending order. *)
Theorem create_frequency_chart_data_lists
  (comments_df : DataFrame SentimentAnalyzer.CommentRow) :
  (mem "comment_text" (columns comments_df) = false ->
   WordCloudGenerator.create_frequency_chart_data comments_df
     = Raise (KeyError "comment_text")) /\
  (mem "comment_text" (columns comments_df) = true ->
   exists data,
     WordCloudGenerator.create_frequency_chart_data comments_df = Ok data /\
     length (WordCloudGenerator.words data)
       = length (WordCloudGenerator.frequencies data) /\
     (length (WordCloudGenerator.words data) <= 15)%nat /\
     NoDup (WordCloudGenerator.words data) /\
     StronglySorted (fun a b => (b <= a)%nat) (WordCloudGenerator.frequencies data) /\
     Forall (fun c => (1 <= c)%nat) (WordCloudGenerator.frequencies data)).
Proof.
  unfold WordCloudGenerator.create_frequency_chart_data, column. split.
  - intros ->. reflexivity.
  - intros ->. cbn [bind]. eexists. split; [reflexivity |]. cbn.
    set (all_text := join " "
                       (map SentimentAnalyzer.comment_text (rows comments_df))).
    destruct (get_word_frequency_entries all_text 15) as (Hlen & Hnd & Hsorted & Hin).
    split; [rewrite !length_map; reflexivity |].
    split; [rewrite length_map; exact Hlen |].
    split; [exact Hnd |]. split; [exact Hsorted |].
    apply List.Forall_forall. intros c Hc.
    apply List.in_map_iff in Hc as ([w c'] & <- & Hwc).
    apply (Hin w c' Hwc).
Qed.

End WordFrequencies.

Section Rendered.

Import Py Pandas Spec.

Variable render :
  forall (width height max_words : nat) (colormap title text : string),
    result string.

(** The keys after one block of [generate_sentiment_wordclouds]. *)
Lemma add_sentiment_wordcloud_keys
  (sentiments_df : DataFrame SentimentAnalyzer.SentimentRow)
  (label key colormap title : string) (wordclouds final : list (string * string)) :
  WordCloudGenerator.add_sentiment_wordcloud render sentiments_df label key
    colormap title wordclouds = Ok final ->
  map fst final =
    match occurrences label (map SentimentAnalyzer.sentiment (rows sentiments_df)) with
    | O => map fst wordclouds
    | S _ => if mem key (map fst wordclouds) then map fst wordclouds
             else (map fst wordclouds ++ [key])%list
    end.
Proof.
  unfold WordCloudGenerator.add_sentiment_wordcloud. intros H.
  apply bind_Ok in H as (labels & _ & H).
  unfold Pandas.len, select in H. cbn [rows] in H.
  rewrite <- (occurrences_map_filter SentimentAnalyzer.sentiment) in H.
  destruct (occurrences label _) as [| n]; cbn in H.
  - injection H as <-. reflexivity.
  - apply bind_Ok in H as (texts & _ & H). apply bind_Ok in H as (image & _ & H).
    injection H as <-. apply dict_set_keys.
Qed.

(** X17.  The dict [generate_sentiment_wordclouds] returns has the key
    ["positive"] exactly when some result row is labelled Positive, and
    likewise ["negative"] and ["neutral"]; it has no other key and no key
    twice. *)
Theorem generate_sentiment_wordclouds_keys
  (sentiments_df : DataFrame SentimentAnalyzer.SentimentRow)
  (wordclouds : list (string * string)) :
  WordCloudGenerator.generate_sentiment_wordclouds render sentiments_df
    = Ok wordclouds ->
  let labels := map SentimentAnalyzer.sentiment (rows sentiments_df) in
  (In "positive" (map fst wordclouds) <-> In "Positive" labels) /\
  (In "negative" (map fst wordclouds) <-> In "Negative" labels) /\
  (In "neutral" (map fst wordclouds) <-> In "Neutral" labels) /\
  (forall key, In key (map fst wordclouds) ->
     key = "positive" \/ key = "negative" \/ key = "neutral") /\
  NoDup (map fst wordclouds).
Proof.
  intros H labels. unfold WordCloudGenerator.generate_sentiment_wordclouds in H.
  apply bind_Ok in H as (w1 & H1 & H). apply bind_Ok in H as (w2 & H2 & H3).
  apply add_sentiment_wordcloud_keys in H1, H2, H3. fold labels in H1, H2, H3.
  assert (Present : forall k, In k labels <-> occurrences k labels <> 0%nat).
  { intros k. pose proof (occurrences_zero k labels) as Hz.
    destruct (List.in_dec String.string_dec k labels) as [Hin | Hout]; tauto. }
  rewrite (Present "Positive"), (Present "Negative"), (Present "Neutral").
  clear Present.
  destruct (occurrences "Positive" labels) as [| p];
    destruct (occurrences "Negative" labels) as [| n];
    destruct (occurrences "Neutral" labels) as [| u];
    cbn in H1; rewrite H1 in H2; cbn in H2; rewrite H2 in H3; cbn in H3;
    rewrite H3; clear H1 H2 H3 w1 w2;
    (split; [| split; [| split; [| split]]]);
    try (cbn; intuition (try discriminate; try congruence; auto); fail);
    apply NoDup_ListNoDup; repeat constructor; cbn; intuition discriminate.
Qed.

End Rendered.

Section Provision.

Import Py Pandas Spec.

Variable render :
  forall (width height max_words : nat) (colormap title text : string),
    result string.

(** X18.  On a table with the [provision_reference] column,
    [generate_provision_wordcloud] returns [None] exactly for a provision no
    comment refers to. *)
Theorem generate_provision_wordcloud_None
  (comments_df : DataFrame SentimentAnalyzer.CommentRow) (provision : string) :
  mem "provision_reference" (columns comments_df) = true ->
  (WordCloudGenerator.generate_provision_wordcloud render comments_df provision
     = Ok None
   <-> ~ In provision
         (map SentimentAnalyzer.provision_reference (rows comments_df))).
Proof.
  intros Hcol. unfold WordCloudGenerator.generate_provision_wordcloud, column at 1.
  rewrite Hcol. cbn [bind]. unfold Pandas.len, select. cbn [rows].
  rewrite <- (occurrences_map_filter SentimentAnalyzer.provision_reference).
  rewrite <- occurrences_zero.
  destruct (occurrences provision _) as [| n]; cbn.
  - split; reflexivity.
  - split; [| discriminate]. intros H.
    apply bind_Ok in H as (texts & _ & H). apply bind_Ok in H as (image & _ & H).
    discriminate.
Qed.

(** X19.  When a result row is labelled Positive and the drawing of the
    cloud of the positive comments raises, [generate_sentiment_wordclouds]
    raises that exception and returns no dict. *)
Theorem generate_sentiment_wordclouds_aborts
  (sentiments_df : DataFrame SentimentAnalyzer.SentimentRow) (e : exn) :
  mem "sentiment" (columns sentiments_df) = true ->
  mem "comment_text" (columns sentiments_df) = true ->
  In "Positive" (map SentimentAnalyzer.sentiment (rows sentiments_df)) ->
  render 600 300 30 "Greens" "Positive Sentiment Word Cloud"
    (WordCloudGenerator._clean_text
       (join " "
          (map (fun r => SentimentAnalyzer.comment_text (SentimentAnalyzer.comment r))
             (List.filter
                (fun r => String.eqb (SentimentAnalyzer.sentiment r) "Positive")
                (rows sentiments_df)))))
    = Raise e ->
  WordCloudGenerator.generate_sentiment_wordclouds render sentiments_df = Raise e.
Proof.
  intros Hs Ht Hin Hrender.
  unfold WordCloudGenerator.generate_sentiment_wordclouds,
    WordCloudGenerator.add_sentiment_wordcloud at 1, column at 1.
  rewrite Hs. cbn [bind]. unfold Pandas.len, select, column. cbn [rows columns].
  assert (Hpos : occurrences "Positive"
                   (map SentimentAnalyzer.sentiment (rows sentiments_df)) <> 0%nat).
  { intros Hz. apply (proj1 (occurrences_zero _ _)) in Hz. contradiction. }
  rewrite (occurrences_map_filter SentimentAnalyzer.sentiment) in Hpos.
  destruct (length _) as [| n] eqn:Hlen; [congruence |].
  cbn [Nat.ltb Nat.leb]. rewrite Ht. cbn [bind].
  unfold WordCloudGenerator._generate_colored_wordcloud.
  rewrite Hrender. reflexivity.
Qed.

End Provision.

Lemma generate_sentiment_wordclouds_keys_witness :
  exists wordclouds,
    WordCloudGenerator.generate_sentiment_wordclouds Samples.stub_render
      Samples.three_results = Py.Ok wordclouds /\
    NoDup (map fst wordclouds).
Proof.
  destruct (WordCloudGenerator.generate_sentiment_wordclouds Samples.stub_render
              Samples.three_results) as [wordclouds | e] eqn:H.
  - exists wordclouds. split; [reflexivity |].
    exact (proj2 (proj2 (proj2 (proj2
             (generate_sentiment_wordclouds_keys Samples.stub_render
                Samples.three_results wordclouds H))))).
  - vm_compute in H. discriminate.
Defined.

Lemma generate_provision_wordcloud_None_witness :
  WordCloudGenerator.generate_provision_wordcloud Samples.stub_render
    Samples.three_comments "C" = Py.Ok None.
Proof.
  apply (generate_provision_wordcloud_None Samples.stub_render
           Samples.three_comments "C").
  - reflexivity.
  - simpl. intuition discriminate.
Defined.

(** A results table whose only positive comment has nothing but stop
    characters: the stand-in drawing refuses the empty text. *)
Lemma generate_sentiment_wordclouds_aborts_witness :
  WordCloudGenerator.generate_sentiment_wordclouds Samples.stub_render
    (Pandas.mkDataFrame SentimentAnalyzer.result_columns
       [SentimentAnalyzer.mkSentimentRow
          (SentimentAnalyzer.mkCommentRow 1 "Jane Smith" "100%!" "A")
          "Positive" (1 # 2) (1 # 2)])
  = Py.Raise (Py.Exception "ValueError").
Proof.
  apply (generate_sentiment_wordclouds_aborts Samples.stub_render).
  - reflexivity.
  - reflexivity.
  - left. reflexivity.
  - reflexivity.
Defined.
